(** * Park-and-ride: availability resolver and booking handlers

    A shallow embedding of the booking core of the repository:

    - [shared/schema.ts]: the rows of [parking_locations], [parking_spots]
      and [parking_bookings];
    - [server/storage.ts]: the [IStorage] interface with its two
      implementations, [MemStorage] and [DatabaseStorage];
    - the route handlers [POST /api/bookings], [PATCH /api/bookings/:id]
      and [DELETE /api/bookings/:id] of [registerRoutes].

    Conventions.  A JavaScript [Date] is represented by its [getTime()]
    value, an integer number of milliseconds ([Z]); only valid dates are
    covered.  A time in a request body is either the string that JSON
    carries or a [Date] instance ([TimeValue]): the schemas derived from
    the tables accept only the latter in a [timestamp] field.  The other
    fields of a body have the type of their column.  A [real] column is
    a rational number ([Q]): the arithmetic of the fare is exact here,
    whereas the program computes it on IEEE doubles and the database
    keeps single precision.  The authenticated user ([req.user.id], set
    by [authMiddleware]) is an argument of each handler. *)

From Stdlib Require Import ZArith QArith Qround List String Ascii Bool Lia.
From Stdlib Require Import Sorted DecimalString Lqa.
Import ListNotations.

Local Open Scope string_scope.
Local Open Scope Z_scope.

(** ** Insertion-ordered maps

    A JavaScript [Map<number, V>] iterates in insertion order, and
    [set] on a key that is present keeps the key's position.  The rows
    of a table with a [serial] primary key are represented the same
    way. *)

Module JsMap.
Section Defs.
Context {V : Type}.

Definition t : Type := list (Z * V).

Definition empty : t := [].

Fixpoint get (k : Z) (m : t) : option V :=
  match m with
  | [] => None
  | (k', v) :: m' => if k =? k' then Some v else get k m'
  end.

Fixpoint set (k : Z) (v : V) (m : t) : t :=
  match m with
  | [] => [(k, v)]
  | (k', v') :: m' =>
      if k =? k' then (k, v) :: m' else (k', v') :: set k v m'
  end.

Definition values (m : t) : list V := map snd m.

Definition keys (m : t) : list Z := map fst m.

(** The entry under [k] replaced, where it stands, by [v] under the
    key [k']: a row whose primary key an [update] rewrites. *)
Definition rekey (k k' : Z) (v : V) (m : t) : t :=
  map (fun entry => if fst entry =? k then (k', v) else entry) m.
End Defs.
Arguments t : clear implicits.
End JsMap.

(** ** Times in a request body

    [express.json()] delivers a time as the string the client wrote
    with [toISOString()]; a [Date] instance reaches a handler or a
    storage method only from a caller inside the server.  In both
    cases [t] is the instant [new Date(value).getTime()]. *)

Inductive TimeValue : Type :=
| IsoString (t : Z)
| DateObject (t : Z).

(** [new Date(value)], as its [getTime()] *)
Definition instantOf (value : TimeValue) : Z :=
  match value with
  | IsoString t => t
  | DateObject t => t
  end.

(** [value instanceof Date]: what [z.date()] asks of a [timestamp]
    field. *)
Definition isDate (value : TimeValue) : bool :=
  match value with
  | DateObject _ => true
  | IsoString _ => false
  end.

(** [`${n}`] on an integer. *)
Definition showZ (n : Z) : string := NilZero.string_of_int (Z.to_int n).

(** ** Rows ([shared/schema.ts])

    In an insert record [None] is an absent field ([undefined]). *)

Module ParkingLocation.
Record t : Type := mk {
  id : Z;
  name : string;
  address : string;
  latitude : Q;
  longitude : Q;
  totalSpots : Z;
  hourlyRate : Q;
  rating : option Q;
  reviewCount : option Z;
  hasMetroAccess : option bool
}.
End ParkingLocation.

Module InsertParkingLocation.
Record t : Type := mk {
  name : string;
  address : string;
  latitude : Q;
  longitude : Q;
  totalSpots : Z;
  hourlyRate : Q;
  rating : option Q;
  reviewCount : option Z;
  hasMetroAccess : option bool
}.
End InsertParkingLocation.

Module ParkingSpot.
Record t : Type := mk {
  id : Z;
  locationId : Z;
  spotNumber : string;
  level : option string;
  section : option string;
  isAvailable : option bool;
  spotType : option string
}.
End ParkingSpot.

Module InsertParkingSpot.
Record t : Type := mk {
  locationId : Z;
  spotNumber : string;
  level : option string;
  section : option string;
  isAvailable : option bool;
  spotType : option string
}.
End InsertParkingSpot.

Module ParkingBooking.
Record t : Type := mk {
  id : Z;
  userId : Z;
  vehicleId : Z;
  spotId : Z;
  locationId : Z;
  startTime : Z;
  endTime : Z;
  status : string;
  bookingCode : string;
  totalAmount : Q;
  createdAt : option Z;
  isFavorite : option bool
}.
End ParkingBooking.

Module InsertParkingBooking.
Record t : Type := mk {
  userId : Z;
  vehicleId : Z;
  spotId : Z;
  locationId : Z;
  startTime : Z;
  endTime : Z;
  status : option string;
  bookingCode : string;
  totalAmount : Q;
  isFavorite : option bool
}.
End InsertParkingBooking.

(** [Partial<ParkingBooking>]: every field may be absent, the key [id]
    included.  [PATCH /api/bookings/:id] passes [req.body] as such an
    object; a time in it is a string when the body was parsed from
    JSON. *)
Module PartialParkingBooking.
Record t : Type := mk {
  id : option Z;
  userId : option Z;
  vehicleId : option Z;
  spotId : option Z;
  locationId : option Z;
  startTime : option TimeValue;
  endTime : option TimeValue;
  status : option string;
  bookingCode : option string;
  totalAmount : option Q;
  createdAt : option (option TimeValue);
  isFavorite : option (option bool)
}.

Definition none : t :=
  mk None None None None None None None None None None None None.

(** No field is set: [{}]. *)
Definition isEmpty (u : t) : bool :=
  match id u, userId u, vehicleId u, spotId u, locationId u, startTime u,
        endTime u, status u, bookingCode u, totalAmount u, createdAt u,
        isFavorite u with
  | None, None, None, None, None, None, None, None, None, None, None, None =>
      true
  | _, _, _, _, _, _, _, _, _, _, _, _ => false
  end.

(** A [timestamp] field holds a string. *)
Definition hasStringTime (u : t) : bool :=
  match startTime u with Some (IsoString _) => true | _ => false end
  || match endTime u with Some (IsoString _) => true | _ => false end
  || match createdAt u with Some (Some (IsoString _)) => true | _ => false end.
End PartialParkingBooking.

(** ** JavaScript truthiness and defaults *)

(** [x || d] on a string: the empty string is falsy. *)
Definition orString (x : option string) (d : string) : string :=
  match x with
  | Some s => if String.eqb s EmptyString then d else s
  | None => d
  end.

(** [x || null] on text: absent and empty both give [null]. *)
Definition orNullString (x : option string) : option string :=
  match x with
  | Some s => if String.eqb s EmptyString then None else Some s
  | None => None
  end.

(** [x || null] on a boolean: only [true] survives. *)
Definition orNullBool (x : option bool) : option bool :=
  match x with
  | Some true => Some true
  | _ => None
  end.

(** [x || null] on a number: [0] is falsy. *)
Definition orNullZ (x : option Z) : option Z :=
  match x with
  | Some n => if n =? 0 then None else Some n
  | None => None
  end.

Definition orNullQ (x : option Q) : option Q :=
  match x with
  | Some q => if Qeq_bool q 0 then None else Some q
  | None => None
  end.

(** Truthiness of a nullable boolean, as in [filter(spot => spot.isAvailable)]. *)
Definition truthy (x : option bool) : bool :=
  match x with
  | Some true => true
  | _ => false
  end.

(** [{ ...existing, ...update }] on one field. *)
Definition spread {A : Type} (existing : A) (update : option A) : A :=
  match update with
  | Some a => a
  | None => existing
  end.

(** ** The store *)

Record Store : Type := mkStore {
  parkingLocations : JsMap.t ParkingLocation.t;
  parkingSpots : JsMap.t ParkingSpot.t;
  parkingBookings : JsMap.t ParkingBooking.t;
  currentLocationIds : Z;
  currentSpotIds : Z;
  currentBookingIds : Z
}.

(** A method that may [throw new Error(...)]. *)
Inductive Throws (A : Type) : Type :=
| Ok (a : A)
| Throw (message : string).
Arguments Ok {A} a.
Arguments Throw {A} message.

Definition withSpots (st : Store) (m : JsMap.t ParkingSpot.t) : Store :=
  mkStore (parkingLocations st) m (parkingBookings st)
          (currentLocationIds st) (currentSpotIds st) (currentBookingIds st).

Definition withBookings (st : Store) (m : JsMap.t ParkingBooking.t) : Store :=
  mkStore (parkingLocations st) (parkingSpots st) m
          (currentLocationIds st) (currentSpotIds st) (currentBookingIds st).

(** ** [class MemStorage implements IStorage] *)

Module MemStorage.

(** The constructor: empty maps, every counter at 1. *)
Definition new : Store :=
  mkStore JsMap.empty JsMap.empty JsMap.empty 1 1 1.

Definition getParkingLocationById (id : Z) (st : Store)
  : option ParkingLocation.t :=
  JsMap.get id (parkingLocations st).

Definition createParkingLocation (ins : InsertParkingLocation.t) (st : Store)
  : ParkingLocation.t * Store :=
  let id := currentLocationIds st in
  let location :=
    ParkingLocation.mk id
      (InsertParkingLocation.name ins)
      (InsertParkingLocation.address ins)
      (InsertParkingLocation.latitude ins)
      (InsertParkingLocation.longitude ins)
      (InsertParkingLocation.totalSpots ins)
      (InsertParkingLocation.hourlyRate ins)
      (orNullQ (InsertParkingLocation.rating ins))
      (orNullZ (InsertParkingLocation.reviewCount ins))
      (orNullBool (InsertParkingLocation.hasMetroAccess ins)) in
  (location,
   mkStore (JsMap.set id location (parkingLocations st))
           (parkingSpots st) (parkingBookings st)
           (id + 1) (currentSpotIds st) (currentBookingIds st)).

Definition getParkingSpotById (id : Z) (st : Store) : option ParkingSpot.t :=
  JsMap.get id (parkingSpots st).

Definition getParkingSpotsByLocationId (locationId : Z) (st : Store)
  : list ParkingSpot.t :=
  filter (fun spot => ParkingSpot.locationId spot =? locationId)
         (JsMap.values (parkingSpots st)).

Definition getAvailableParkingSpots (locationId startTime endTime : Z)
    (st : Store) : list ParkingSpot.t :=
  let locationSpots := getParkingSpotsByLocationId locationId st in
  let availableSpots :=
    filter (fun spot => truthy (ParkingSpot.isAvailable spot)) locationSpots in
  let bookings :=
    filter (fun booking =>
              (ParkingBooking.locationId booking =? locationId)
              && negb (String.eqb (ParkingBooking.status booking) "canceled")
              && negb (String.eqb (ParkingBooking.status booking) "completed"))
           (JsMap.values (parkingBookings st)) in
  filter (fun spot =>
            let hasOverlappingBooking :=
              existsb (fun booking =>
                         (ParkingBooking.spotId booking =? ParkingSpot.id spot)
                         && ((ParkingBooking.startTime booking <=? endTime)
                             && (startTime <=? ParkingBooking.endTime booking)))
                      bookings in
            negb hasOverlappingBooking)
         availableSpots.

Definition createParkingSpot (ins : InsertParkingSpot.t) (st : Store)
  : ParkingSpot.t * Store :=
  let id := currentSpotIds st in
  let spot :=
    ParkingSpot.mk id
      (InsertParkingSpot.locationId ins)
      (InsertParkingSpot.spotNumber ins)
      (orNullString (InsertParkingSpot.level ins))
      (orNullString (InsertParkingSpot.section ins))
      (InsertParkingSpot.isAvailable ins)
      (orNullString (InsertParkingSpot.spotType ins)) in
  (spot,
   mkStore (parkingLocations st)
           (JsMap.set id spot (parkingSpots st)) (parkingBookings st)
           (currentLocationIds st) (id + 1) (currentBookingIds st)).

Definition updateParkingSpotAvailability (id : Z) (isAvailable : bool)
    (st : Store) : Throws ParkingSpot.t * Store :=
  match JsMap.get id (parkingSpots st) with
  | None => (Throw ("Parking spot with id " ++ showZ id ++ " not found"), st)
  | Some existingSpot =>
      let updatedSpot :=
        ParkingSpot.mk (ParkingSpot.id existingSpot)
          (ParkingSpot.locationId existingSpot)
          (ParkingSpot.spotNumber existingSpot)
          (ParkingSpot.level existingSpot)
          (ParkingSpot.section existingSpot)
          (Some isAvailable)
          (ParkingSpot.spotType existingSpot) in
      (Ok updatedSpot,
       withSpots st (JsMap.set id updatedSpot (parkingSpots st)))
  end.

Definition getParkingBookingById (id : Z) (st : Store)
  : option ParkingBooking.t :=
  JsMap.get id (parkingBookings st).

Definition getParkingBookingsByUserId (userId : Z) (st : Store)
  : list ParkingBooking.t :=
  filter (fun booking => ParkingBooking.userId booking =? userId)
         (JsMap.values (parkingBookings st)).

(** [createdAt: new Date()] reads the clock: [now]. *)
Definition createParkingBooking (now : Z) (ins : InsertParkingBooking.t)
    (st : Store) : ParkingBooking.t * Store :=
  let id := currentBookingIds st in
  let booking :=
    ParkingBooking.mk id
      (InsertParkingBooking.userId ins)
      (InsertParkingBooking.vehicleId ins)
      (InsertParkingBooking.spotId ins)
      (InsertParkingBooking.locationId ins)
      (InsertParkingBooking.startTime ins)
      (InsertParkingBooking.endTime ins)
      (orString (InsertParkingBooking.status ins) "pending")
      (InsertParkingBooking.bookingCode ins)
      (InsertParkingBooking.totalAmount ins)
      (Some now)
      (orNullBool (InsertParkingBooking.isFavorite ins)) in
  (booking,
   mkStore (parkingLocations st) (parkingSpots st)
           (JsMap.set id booking (parkingBookings st))
           (currentLocationIds st) (currentSpotIds st) (id + 1)).

(** [{ ...existingBooking, ...bookingUpdate }].  A time that the update
    carries as a string is read back through [new Date(...)] wherever
    the booking is used, so that the row holds its instant. *)
Definition mergeBooking (existing : ParkingBooking.t)
    (update : PartialParkingBooking.t) : ParkingBooking.t :=
  ParkingBooking.mk
    (spread (ParkingBooking.id existing) (PartialParkingBooking.id update))
    (spread (ParkingBooking.userId existing) (PartialParkingBooking.userId update))
    (spread (ParkingBooking.vehicleId existing) (PartialParkingBooking.vehicleId update))
    (spread (ParkingBooking.spotId existing) (PartialParkingBooking.spotId update))
    (spread (ParkingBooking.locationId existing) (PartialParkingBooking.locationId update))
    (spread (ParkingBooking.startTime existing)
            (option_map instantOf (PartialParkingBooking.startTime update)))
    (spread (ParkingBooking.endTime existing)
            (option_map instantOf (PartialParkingBooking.endTime update)))
    (spread (ParkingBooking.status existing) (PartialParkingBooking.status update))
    (spread (ParkingBooking.bookingCode existing) (PartialParkingBooking.bookingCode update))
    (spread (ParkingBooking.totalAmount existing) (PartialParkingBooking.totalAmount update))
    (spread (ParkingBooking.createdAt existing)
            (option_map (option_map instantOf)
               (PartialParkingBooking.createdAt update)))
    (spread (ParkingBooking.isFavorite existing) (PartialParkingBooking.isFavorite update)).

Definition updateParkingBooking (id : Z) (bookingUpdate : PartialParkingBooking.t)
    (st : Store) : Throws ParkingBooking.t * Store :=
  match JsMap.get id (parkingBookings st) with
  | None =>
      (Throw ("Parking booking with id " ++ showZ id ++ " not found"), st)
  | Some existingBooking =>
      let updatedBooking := mergeBooking existingBooking bookingUpdate in
      (Ok updatedBooking,
       withBookings st (JsMap.set id updatedBooking (parkingBookings st)))
  end.

End MemStorage.

(** ** [class DatabaseStorage implements IStorage]

    The tables are the same keyed collections, a row being addressed by
    its primary key.  A [select] lists the rows in the order of
    insertion here; the queries have no [ORDER BY], so that the
    database is free to return them in another order, and what is
    stated of [DatabaseStorage] below is about which rows a query
    returns. *)

Module DatabaseStorage.

(** [select().from(parkingLocations).where(eq(parkingLocations.id, id))] *)
Definition getParkingLocationById (id : Z) (st : Store)
  : option ParkingLocation.t :=
  JsMap.get id (parkingLocations st).

(** [insert(parkingLocations).values(insertLocation).returning()]: the
    [serial] key is the next value of the sequence, and an absent
    column takes its [default]. *)
Definition createParkingLocation (ins : InsertParkingLocation.t) (st : Store)
  : ParkingLocation.t * Store :=
  let id := currentLocationIds st in
  let location :=
    ParkingLocation.mk id
      (InsertParkingLocation.name ins)
      (InsertParkingLocation.address ins)
      (InsertParkingLocation.latitude ins)
      (InsertParkingLocation.longitude ins)
      (InsertParkingLocation.totalSpots ins)
      (InsertParkingLocation.hourlyRate ins)
      (InsertParkingLocation.rating ins)
      (Some (spread 0 (InsertParkingLocation.reviewCount ins)))
      (Some (spread true (InsertParkingLocation.hasMetroAccess ins))) in
  (location,
   mkStore (JsMap.set id location (parkingLocations st))
           (parkingSpots st) (parkingBookings st)
           (id + 1) (currentSpotIds st) (currentBookingIds st)).

Definition getParkingSpotById (id : Z) (st : Store) : option ParkingSpot.t :=
  JsMap.get id (parkingSpots st).

(** [select().from(parkingSpots).where(eq(parkingSpots.locationId, locationId))],
    without [ORDER BY]: the order of the list is that of the model, not
    one the database promises. *)
Definition getParkingSpotsByLocationId (locationId : Z) (st : Store)
  : list ParkingSpot.t :=
  filter (fun spot => ParkingSpot.locationId spot =? locationId)
         (JsMap.values (parkingSpots st)).

Definition getAvailableParkingSpots (locationId startTime endTime : Z)
    (st : Store) : list ParkingSpot.t :=
  let spots := getParkingSpotsByLocationId locationId st in
  let availableSpots :=
    filter (fun spot => truthy (ParkingSpot.isAvailable spot)) spots in
  let overlappingBookings :=
    filter (fun booking =>
              (ParkingBooking.locationId booking =? locationId)
              && (String.eqb (ParkingBooking.status booking) "pending"
                  || String.eqb (ParkingBooking.status booking) "confirmed")
              && (startTime <=? ParkingBooking.endTime booking)
              && (ParkingBooking.startTime booking <=? endTime))
           (JsMap.values (parkingBookings st)) in
  let bookedSpotIds := map ParkingBooking.spotId overlappingBookings in
  filter (fun spot =>
            negb (existsb (Z.eqb (ParkingSpot.id spot)) bookedSpotIds))
         availableSpots.

Definition createParkingSpot (ins : InsertParkingSpot.t) (st : Store)
  : ParkingSpot.t * Store :=
  let id := currentSpotIds st in
  let spot :=
    ParkingSpot.mk id
      (InsertParkingSpot.locationId ins)
      (InsertParkingSpot.spotNumber ins)
      (InsertParkingSpot.level ins)
      (InsertParkingSpot.section ins)
      (Some (spread true (InsertParkingSpot.isAvailable ins)))
      (Some (spread "standard" (InsertParkingSpot.spotType ins))) in
  (spot,
   mkStore (parkingLocations st)
           (JsMap.set id spot (parkingSpots st)) (parkingBookings st)
           (currentLocationIds st) (id + 1) (currentBookingIds st)).

(** [update(parkingSpots).set({ isAvailable }).where(eq(parkingSpots.id, id))] *)
Definition updateParkingSpotAvailability (id : Z) (isAvailable : bool)
    (st : Store) : Throws ParkingSpot.t * Store :=
  match JsMap.get id (parkingSpots st) with
  | None => (Throw ("Parking spot with id " ++ showZ id ++ " not found"), st)
  | Some row =>
      let updatedSpot :=
        ParkingSpot.mk (ParkingSpot.id row)
          (ParkingSpot.locationId row)
          (ParkingSpot.spotNumber row)
          (ParkingSpot.level row)
          (ParkingSpot.section row)
          (Some isAvailable)
          (ParkingSpot.spotType row) in
      (Ok updatedSpot,
       withSpots st (JsMap.set id updatedSpot (parkingSpots st)))
  end.

Definition getParkingBookingById (id : Z) (st : Store)
  : option ParkingBooking.t :=
  JsMap.get id (parkingBookings st).

(** [insert(parkingBookings).values(bookingWithDefaults).returning()]:
    the key is the next value of the sequence, which is used up also
    when the insert fails because a row already has that key. *)
Definition createParkingBooking (now : Z) (ins : InsertParkingBooking.t)
    (st : Store) : Throws ParkingBooking.t * Store :=
  let id := currentBookingIds st in
  let booking :=
    ParkingBooking.mk id
      (InsertParkingBooking.userId ins)
      (InsertParkingBooking.vehicleId ins)
      (InsertParkingBooking.spotId ins)
      (InsertParkingBooking.locationId ins)
      (InsertParkingBooking.startTime ins)
      (InsertParkingBooking.endTime ins)
      (orString (InsertParkingBooking.status ins) "pending")
      (InsertParkingBooking.bookingCode ins)
      (InsertParkingBooking.totalAmount ins)
      (Some now)
      (orNullBool (InsertParkingBooking.isFavorite ins)) in
  match JsMap.get id (parkingBookings st) with
  | Some _ =>
      (Throw "duplicate key value violates unique constraint",
       mkStore (parkingLocations st) (parkingSpots st) (parkingBookings st)
               (currentLocationIds st) (currentSpotIds st) (id + 1))
  | None =>
      (Ok booking,
       mkStore (parkingLocations st) (parkingSpots st)
               (JsMap.set id booking (parkingBookings st))
               (currentLocationIds st) (currentSpotIds st) (id + 1))
  end.

(** [update(parkingBookings).set(bookingUpdate).where(eq(parkingBookings.id, id))].
    [set] refuses an object without values, and a [timestamp] column
    calls [toISOString()] on its value, which a string does not have:
    both throw before the statement is sent.  The statement writes the
    columns that are set, the key among them, and fails when another
    row has the new key. *)
Definition updateParkingBooking (id : Z) (bookingUpdate : PartialParkingBooking.t)
    (st : Store) : Throws ParkingBooking.t * Store :=
  if PartialParkingBooking.isEmpty bookingUpdate
  then (Throw "No values to set", st)
  else if PartialParkingBooking.hasStringTime bookingUpdate
  then (Throw "value.toISOString is not a function", st)
  else
    match JsMap.get id (parkingBookings st) with
    | None =>
        (Throw ("Parking booking with id " ++ showZ id ++ " not found"), st)
    | Some row =>
        let updatedBooking := MemStorage.mergeBooking row bookingUpdate in
        let id' := spread id (PartialParkingBooking.id bookingUpdate) in
        if id' =? id
        then (Ok updatedBooking,
              withBookings st
                (JsMap.set id updatedBooking (parkingBookings st)))
        else
          match JsMap.get id' (parkingBookings st) with
          | Some _ =>
              (Throw "duplicate key value violates unique constraint", st)
          | None =>
              (Ok updatedBooking,
               withBookings st
                 (JsMap.rekey id id' updatedBooking (parkingBookings st)))
          end
    end.

End DatabaseStorage.

(** ** [interface IStorage]

    Every method returns a promise: a computation on the store. *)

Definition Promise (X : Type) : Type := Store -> X * Store.

(** A method that only reads. *)
Definition reading {X : Type} (f : Store -> X) : Promise X :=
  fun st => (f st, st).

Record IStorage : Type := {
  getParkingLocationById : Z -> Promise (option ParkingLocation.t);
  createParkingLocation : InsertParkingLocation.t -> Promise ParkingLocation.t;
  getParkingSpotsByLocationId : Z -> Promise (list ParkingSpot.t);
  getAvailableParkingSpots : Z -> Z -> Z -> Promise (list ParkingSpot.t);
  createParkingSpot : InsertParkingSpot.t -> Promise ParkingSpot.t;
  updateParkingSpotAvailability : Z -> bool -> Promise (Throws ParkingSpot.t);
  getParkingBookingById : Z -> Promise (option ParkingBooking.t);
  createParkingBooking :
    Z -> InsertParkingBooking.t -> Promise (Throws ParkingBooking.t);
  updateParkingBooking :
    Z -> PartialParkingBooking.t -> Promise (Throws ParkingBooking.t)
}.

Definition memStorage : IStorage := {|
  getParkingLocationById id := reading (MemStorage.getParkingLocationById id);
  createParkingLocation := MemStorage.createParkingLocation;
  getParkingSpotsByLocationId l :=
    reading (MemStorage.getParkingSpotsByLocationId l);
  getAvailableParkingSpots l s e :=
    reading (MemStorage.getAvailableParkingSpots l s e);
  createParkingSpot := MemStorage.createParkingSpot;
  updateParkingSpotAvailability := MemStorage.updateParkingSpotAvailability;
  getParkingBookingById id := reading (MemStorage.getParkingBookingById id);
  createParkingBooking now ins st :=
    let (booking, st') := MemStorage.createParkingBooking now ins st in
    (Ok booking, st');
  updateParkingBooking := MemStorage.updateParkingBooking
|}.

Definition databaseStorage : IStorage := {|
  getParkingLocationById id :=
    reading (DatabaseStorage.getParkingLocationById id);
  createParkingLocation := DatabaseStorage.createParkingLocation;
  getParkingSpotsByLocationId l :=
    reading (DatabaseStorage.getParkingSpotsByLocationId l);
  getAvailableParkingSpots l s e :=
    reading (DatabaseStorage.getAvailableParkingSpots l s e);
  createParkingSpot := DatabaseStorage.createParkingSpot;
  updateParkingSpotAvailability :=
    DatabaseStorage.updateParkingSpotAvailability;
  getParkingBookingById id :=
    reading (DatabaseStorage.getParkingBookingById id);
  createParkingBooking := DatabaseStorage.createParkingBooking;
  updateParkingBooking := DatabaseStorage.updateParkingBooking
|}.

(** The two implementations of the interface. *)
Inductive Backend : Type := Mem | Database.

Definition implementation (bk : Backend) : IStorage :=
  match bk with
  | Mem => memStorage
  | Database => databaseStorage
  end.

(** [export const storage = new DatabaseStorage();] *)
Definition storage : IStorage := databaseStorage.

(** ** [async] functions

    An [async] handler is a sequence of awaited storage calls.  Each
    call is one step on the store, the awaits inside a storage method
    not being split; between two steps the event loop may run a step of
    another request. *)

Inductive Async (A : Type) : Type :=
| Return (a : A)
| Await {X : Type} (call : Promise X) (k : X -> Async A).
Arguments Return {A} a.
Arguments Await {A X} call k.

Notation "'let*' x ':=' 'await' c 'in' k" :=
  (Await c (fun x => k))
  (at level 10, x name, c at level 100, k at level 200).

(** One request served alone, to completion. *)
Fixpoint run {A : Type} (p : Async A) (st : Store) : A * Store :=
  match p with
  | Return a => (a, st)
  | Await call k => let (x, st') := call st in run (k x) st'
  end.



(** ** Route handlers ([registerRoutes]) *)

Inductive Response : Type :=
| json (status : Z) (booking : ParkingBooking.t)
| message (status : Z) (text : string)
| noBody (status : Z).

Definition statusOf (r : Response) : Z :=
  match r with
  | json s _ => s
  | message s _ => s
  | noBody s => s
  end.

(** The non-deterministic inputs of a request: the three bytes drawn by
    [crypto.randomBytes(3)] and the clock read by [new Date()]. *)
Record Env : Type := mkEnv {
  randomBytes : Byte.byte * Byte.byte * Byte.byte;
  now : Z
}.

Definition hexDigitUpper (n : N) : ascii :=
  match String.get (N.to_nat n) "0123456789ABCDEF" with
  | Some c => c
  | None => "0"%char
  end.

Definition hexUpper (b : Byte.byte) : string :=
  let n := Byte.to_N b in
  String (hexDigitUpper (N.div n 16))
         (String (hexDigitUpper (N.modulo n 16)) EmptyString).

Definition generateBookingCode (bytes : Byte.byte * Byte.byte * Byte.byte)
  : string :=
  let '(b0, b1, b2) := bytes in
  "PARK-" ++ hexUpper b0 ++ hexUpper b1 ++ hexUpper b2.

(** The body of [POST /api/bookings]: [req.body.locationId],
    [vehicleId], [startTime] and [endTime]. *)
Record BookingBody : Type := mkBookingBody {
  locationId : Z;
  vehicleId : Z;
  startTimeValue : TimeValue;
  endTimeValue : TimeValue
}.

(** [new Date(startTime)] and [new Date(endTime)] *)
Definition startTime (body : BookingBody) : Z :=
  instantOf (startTimeValue body).

Definition endTime (body : BookingBody) : Z :=
  instantOf (endTimeValue body).

(** The body that [ParkingBookingModal.handleConfirmBooking] sends: the
    two times written by [toISOString()]. *)
Definition mkBody (locationId vehicleId startTime endTime : Z) : BookingBody :=
  mkBookingBody locationId vehicleId (IsoString startTime) (IsoString endTime).

(** [insertParkingBookingSchema], that is [createInsertSchema(parkingBookings)]
    without [id] and [createdAt].  A [timestamp] column makes a
    [z.date()] field, which accepts a [Date] instance and nothing else;
    [None] is the [ZodError] that [parse] throws.  The numbers are of
    their column's type here and the schema's check of them is not
    modelled. *)
Module insertParkingBookingSchema.
Definition parse (userId vehicleId spotId locationId : Z)
    (startTime endTime : TimeValue) (status bookingCode : string)
    (totalAmount : Q) : option InsertParkingBooking.t :=
  match startTime, endTime with
  | DateObject s, DateObject e =>
      Some (InsertParkingBooking.mk userId vehicleId spotId locationId s e
              (Some status) bookingCode totalAmount None)
  | _, _ => None
  end.
End insertParkingBookingSchema.

(** [$1.5 booking fee] *)
Definition bookingFee : Q := 1.5%Q.

(** [Math.ceil((end.getTime() - start.getTime()) / (1000 * 60 * 60))].
    The program subtracts and divides on doubles; the ceiling of the
    rounded quotient is the exact one as long as the two times are
    less than [2^53] milliseconds apart ([exactSpan]), and is at most
    one hour away from it beyond. *)
Definition hoursOf (startTime endTime : Z) : Z :=
  Qceiling (inject_Z (endTime - startTime) / inject_Z (1000 * 60 * 60)).

(** Two valid dates ([|t| <= 8.64e15]) whose distance a double holds
    exactly. *)
Definition exactSpan (startTime endTime : Z) : Prop :=
  Z.abs startTime <= 8640000000000000
  /\ Z.abs endTime <= 8640000000000000
  /\ Z.abs (endTime - startTime) < 2 ^ 53.

Definition fare (hours : Z) (hourlyRate : Q) : Q :=
  (inject_Z hours * hourlyRate + bookingFee)%Q.

(** [app.post("/api/bookings", authMiddleware, ...)] *)
Definition postBooking (storage : IStorage) (user : Z) (env : Env)
    (body : BookingBody) : Async Response :=
  let* availableSpots :=
    await getAvailableParkingSpots storage
            (locationId body) (startTime body) (endTime body) in
  match availableSpots with
  | [] => Return (message 400 "No available parking spots for the selected time")
  | spot0 :: _ =>
      let* location := await getParkingLocationById storage (locationId body) in
      match location with
      | None => Return (message 404 "Parking location not found")
      | Some location =>
          let hours := hoursOf (startTime body) (endTime body) in
          let totalAmount := fare hours (ParkingLocation.hourlyRate location) in
          let bookingCode := generateBookingCode (randomBytes env) in
          match insertParkingBookingSchema.parse user (vehicleId body)
                  (ParkingSpot.id spot0) (locationId body)
                  (startTimeValue body) (endTimeValue body)
                  "confirmed" bookingCode totalAmount with
          | None => Return (message 400 "Invalid booking data")
          | Some bookingData =>
              let* created :=
                await createParkingBooking storage (now env) bookingData in
              match created with
              | Throw _ => Return (message 500 "Failed to create booking")
              | Ok newBooking =>
                  let* updated :=
                    await updateParkingSpotAvailability storage
                            (ParkingSpot.id spot0) false in
                  match updated with
                  | Throw _ => Return (message 500 "Failed to create booking")
                  | Ok _ => Return (json 201 newBooking)
                  end
              end
          end
      end
  end.

(** [app.patch("/api/bookings/:id", authMiddleware, ...)] *)
Definition patchBooking (storage : IStorage) (user : Z) (bookingId : Z)
    (body : PartialParkingBooking.t) : Async Response :=
  let* booking := await getParkingBookingById storage bookingId in
  match booking with
  | None => Return (message 404 "Booking not found")
  | Some booking =>
      if negb (ParkingBooking.userId booking =? user)
      then Return (message 403 "Not authorized to modify this booking")
      else
        let* updated := await updateParkingBooking storage bookingId body in
        match updated with
        | Throw _ => Return (message 500 "Failed to update booking")
        | Ok updatedBooking => Return (json 200 updatedBooking)
        end
  end.

(** [{ status: "canceled" }] *)
Definition canceledUpdate : PartialParkingBooking.t :=
  PartialParkingBooking.mk None None None None None None None
    (Some "canceled") None None None None.

(** [app.delete("/api/bookings/:id", authMiddleware, ...)] *)
Definition deleteBooking (storage : IStorage) (user : Z) (bookingId : Z)
  : Async Response :=
  let* booking := await getParkingBookingById storage bookingId in
  match booking with
  | None => Return (message 404 "Booking not found")
  | Some booking =>
      if negb (ParkingBooking.userId booking =? user)
      then Return (message 403 "Not authorized to cancel this booking")
      else
        let* canceled :=
          await updateParkingBooking storage bookingId canceledUpdate in
        match canceled with
        | Throw _ => Return (message 500 "Failed to cancel booking")
        | Ok _ =>
            let* released :=
              await updateParkingSpotAvailability storage
                      (ParkingBooking.spotId booking) true in
            match released with
            | Throw _ => Return (message 500 "Failed to cancel booking")
            | Ok _ => Return (noBody 204)
            end
        end
  end.


(** * The rest of the storage and of the routes *)

(** ** Rows: users, vehicles, transportation *)

Module User.
Record t : Type := mk {
  id : Z;
  username : string;
  password : string;
  name : string;
  email : string;
  phone : option string
}.
End User.

Module InsertUser.
Record t : Type := mk {
  username : string;
  password : string;
  name : string;
  email : string;
  phone : option string
}.
End InsertUser.

Module Vehicle.
Record t : Type := mk {
  id : Z;
  userId : Z;
  licensePlate : string;
  vehicleType : string;
  nickname : option string
}.
End Vehicle.

Module InsertVehicle.
Record t : Type := mk {
  userId : Z;
  licensePlate : string;
  vehicleType : string;
  nickname : option string
}.
End InsertVehicle.

Module TransportationType.
Record t : Type := mk {
  id : Z;
  name : string;
  icon : string;
  baseRate : Q;
  perKmRate : Q
}.
End TransportationType.

Module InsertTransportationType.
Record t : Type := mk {
  name : string;
  icon : string;
  baseRate : Q;
  perKmRate : Q
}.
End InsertTransportationType.

Module TransportationBooking.
Record t : Type := mk {
  id : Z;
  userId : Z;
  transportTypeId : Z;
  parkingBookingId : option Z;
  pickupLocation : string;
  dropoffLocation : string;
  pickupTime : Z;
  isShared : option bool;
  status : string;
  amount : Q;
  createdAt : option Z
}.
End TransportationBooking.

Module InsertTransportationBooking.
Record t : Type := mk {
  userId : Z;
  transportTypeId : Z;
  parkingBookingId : option Z;
  pickupLocation : string;
  dropoffLocation : string;
  pickupTime : Z;
  isShared : option bool;
  status : option string;
  amount : Q
}.
End InsertTransportationBooking.

(** ** The other members of the storage

    [users], [vehicles], [transportationTypes], [transportationBookings]
    and their counters; together with [Store] they make the state of a
    [MemStorage], or the tables of the database. *)

Record Registry : Type := mkRegistry {
  users : JsMap.t User.t;
  vehicles : JsMap.t Vehicle.t;
  transportationTypes : JsMap.t TransportationType.t;
  transportationBookings : JsMap.t TransportationBooking.t;
  currentUserIds : Z;
  currentVehicleIds : Z;
  currentTransportTypeIds : Z;
  currentTransportBookingIds : Z
}.

Definition withUsers (reg : Registry) (m : JsMap.t User.t) (next : Z)
  : Registry :=
  mkRegistry m (vehicles reg) (transportationTypes reg)
    (transportationBookings reg) next (currentVehicleIds reg)
    (currentTransportTypeIds reg) (currentTransportBookingIds reg).

Definition withVehicles (reg : Registry) (m : JsMap.t Vehicle.t) (next : Z)
  : Registry :=
  mkRegistry (users reg) m (transportationTypes reg)
    (transportationBookings reg) (currentUserIds reg) next
    (currentTransportTypeIds reg) (currentTransportBookingIds reg).

Definition withTransportationTypes (reg : Registry)
    (m : JsMap.t TransportationType.t) (next : Z) : Registry :=
  mkRegistry (users reg) (vehicles reg) m (transportationBookings reg)
    (currentUserIds reg) (currentVehicleIds reg) next
    (currentTransportBookingIds reg).

Definition withTransportationBookings (reg : Registry)
    (m : JsMap.t TransportationBooking.t) (next : Z) : Registry :=
  mkRegistry (users reg) (vehicles reg) (transportationTypes reg) m
    (currentUserIds reg) (currentVehicleIds reg)
    (currentTransportTypeIds reg) next.

(** [Map.prototype.delete] *)
Definition mapDelete {V : Type} (k : Z) (m : JsMap.t V) : JsMap.t V :=
  filter (fun entry => negb (fst entry =? k)) m.

(** ** [MemStorage]: users, vehicles, transportation *)

Module MemRegistry.

Definition new : Registry :=
  mkRegistry JsMap.empty JsMap.empty JsMap.empty JsMap.empty 1 1 1 1.

Definition getUser (id : Z) (reg : Registry) : option User.t :=
  JsMap.get id (users reg).

Definition getUserByUsername (username : string) (reg : Registry)
  : option User.t :=
  find (fun user => String.eqb (User.username user) username)
       (JsMap.values (users reg)).

Definition createUser (ins : InsertUser.t) (reg : Registry)
  : Throws User.t * Registry :=
  let id := currentUserIds reg in
  let user :=
    User.mk id (InsertUser.username ins) (InsertUser.password ins)
      (InsertUser.name ins) (InsertUser.email ins)
      (orNullString (InsertUser.phone ins)) in
  (Ok user, withUsers reg (JsMap.set id user (users reg)) (id + 1)).

Definition getVehicle (id : Z) (reg : Registry) : option Vehicle.t :=
  JsMap.get id (vehicles reg).

Definition getVehiclesByUserId (userId : Z) (reg : Registry)
  : list Vehicle.t :=
  filter (fun vehicle => Vehicle.userId vehicle =? userId)
         (JsMap.values (vehicles reg)).

Definition createVehicle (ins : InsertVehicle.t) (reg : Registry)
  : Vehicle.t * Registry :=
  let id := currentVehicleIds reg in
  let vehicle :=
    Vehicle.mk id (InsertVehicle.userId ins) (InsertVehicle.licensePlate ins)
      (InsertVehicle.vehicleType ins)
      (orNullString (InsertVehicle.nickname ins)) in
  (vehicle, withVehicles reg (JsMap.set id vehicle (vehicles reg)) (id + 1)).

Definition deleteVehicle (id : Z) (reg : Registry) : Throws unit * Registry :=
  match JsMap.get id (vehicles reg) with
  | None => (Throw ("Vehicle with id " ++ showZ id ++ " not found"), reg)
  | Some _ =>
      (Ok tt,
       withVehicles reg (mapDelete id (vehicles reg)) (currentVehicleIds reg))
  end.

Definition getTransportationTypes (reg : Registry)
  : list TransportationType.t :=
  JsMap.values (transportationTypes reg).

Definition createTransportationType (ins : InsertTransportationType.t)
    (reg : Registry) : TransportationType.t * Registry :=
  let id := currentTransportTypeIds reg in
  let type :=
    TransportationType.mk id (InsertTransportationType.name ins)
      (InsertTransportationType.icon ins)
      (InsertTransportationType.baseRate ins)
      (InsertTransportationType.perKmRate ins) in
  (type,
   withTransportationTypes reg
     (JsMap.set id type (transportationTypes reg)) (id + 1)).

Definition getTransportationBookingsByUserId (userId : Z) (reg : Registry)
  : list TransportationBooking.t :=
  filter (fun booking => TransportationBooking.userId booking =? userId)
         (JsMap.values (transportationBookings reg)).

Definition createTransportationBooking (now : Z)
    (ins : InsertTransportationBooking.t) (reg : Registry)
  : TransportationBooking.t * Registry :=
  let id := currentTransportBookingIds reg in
  let booking :=
    TransportationBooking.mk id
      (InsertTransportationBooking.userId ins)
      (InsertTransportationBooking.transportTypeId ins)
      (orNullZ (InsertTransportationBooking.parkingBookingId ins))
      (InsertTransportationBooking.pickupLocation ins)
      (InsertTransportationBooking.dropoffLocation ins)
      (InsertTransportationBooking.pickupTime ins)
      (orNullBool (InsertTransportationBooking.isShared ins))
      (orString (InsertTransportationBooking.status ins) "pending")
      (InsertTransportationBooking.amount ins)
      (Some now) in
  (booking,
   withTransportationBookings reg
     (JsMap.set id booking (transportationBookings reg)) (id + 1)).

End MemRegistry.

(** ** [DatabaseStorage]: users, vehicles, transportation

    [users.username] and [users.email] are [unique]: an insert that
    repeats one of them is rejected, after it has taken its value from
    the sequence of the key. *)

Module DatabaseRegistry.

Definition getUser (id : Z) (reg : Registry) : option User.t :=
  JsMap.get id (users reg).

Definition getUserByUsername (username : string) (reg : Registry)
  : option User.t :=
  find (fun user => String.eqb (User.username user) username)
       (JsMap.values (users reg)).

Definition createUser (ins : InsertUser.t) (reg : Registry)
  : Throws User.t * Registry :=
  if existsb (fun user =>
                String.eqb (User.username user) (InsertUser.username ins)
                || String.eqb (User.email user) (InsertUser.email ins))
             (JsMap.values (users reg))
  then (Throw "duplicate key value violates unique constraint",
        withUsers reg (users reg) (currentUserIds reg + 1))
  else
    let id := currentUserIds reg in
    let user :=
      User.mk id (InsertUser.username ins) (InsertUser.password ins)
        (InsertUser.name ins) (InsertUser.email ins) (InsertUser.phone ins) in
    (Ok user, withUsers reg (JsMap.set id user (users reg)) (id + 1)).

Definition getVehicle (id : Z) (reg : Registry) : option Vehicle.t :=
  JsMap.get id (vehicles reg).

Definition getVehiclesByUserId (userId : Z) (reg : Registry)
  : list Vehicle.t :=
  filter (fun vehicle => Vehicle.userId vehicle =? userId)
         (JsMap.values (vehicles reg)).

Definition createVehicle (ins : InsertVehicle.t) (reg : Registry)
  : Vehicle.t * Registry :=
  let id := currentVehicleIds reg in
  let vehicle :=
    Vehicle.mk id (InsertVehicle.userId ins) (InsertVehicle.licensePlate ins)
      (InsertVehicle.vehicleType ins) (InsertVehicle.nickname ins) in
  (vehicle, withVehicles reg (JsMap.set id vehicle (vehicles reg)) (id + 1)).

(** [delete(vehicles).where(eq(vehicles.id, id))]: no row, no error. *)
Definition deleteVehicle (id : Z) (reg : Registry) : Throws unit * Registry :=
  (Ok tt,
   withVehicles reg (mapDelete id (vehicles reg)) (currentVehicleIds reg)).

Definition getTransportationTypes (reg : Registry)
  : list TransportationType.t :=
  JsMap.values (transportationTypes reg).

Definition createTransportationType (ins : InsertTransportationType.t)
    (reg : Registry) : TransportationType.t * Registry :=
  let id := currentTransportTypeIds reg in
  let type :=
    TransportationType.mk id (InsertTransportationType.name ins)
      (InsertTransportationType.icon ins)
      (InsertTransportationType.baseRate ins)
      (InsertTransportationType.perKmRate ins) in
  (type,
   withTransportationTypes reg
     (JsMap.set id type (transportationTypes reg)) (id + 1)).

Definition getTransportationBookingsByUserId (userId : Z) (reg : Registry)
  : list TransportationBooking.t :=
  filter (fun booking => TransportationBooking.userId booking =? userId)
         (JsMap.values (transportationBookings reg)).

Definition createTransportationBooking (now : Z)
    (ins : InsertTransportationBooking.t) (reg : Registry)
  : TransportationBooking.t * Registry :=
  let id := currentTransportBookingIds reg in
  let booking :=
    TransportationBooking.mk id
      (InsertTransportationBooking.userId ins)
      (InsertTransportationBooking.transportTypeId ins)
      (orNullZ (InsertTransportationBooking.parkingBookingId ins))
      (InsertTransportationBooking.pickupLocation ins)
      (InsertTransportationBooking.dropoffLocation ins)
      (InsertTransportationBooking.pickupTime ins)
      (orNullBool (InsertTransportationBooking.isShared ins))
      (orString (InsertTransportationBooking.status ins) "pending")
      (InsertTransportationBooking.amount ins)
      (Some now) in
  (booking,
   withTransportationBookings reg
     (JsMap.set id booking (transportationBookings reg)) (id + 1)).

End DatabaseRegistry.

(** ** The methods outside [IStorage], by backend *)

Module Storage.

Definition getUser (bk : Backend) : Z -> Registry -> option User.t :=
  match bk with
  | Mem => MemRegistry.getUser
  | Database => DatabaseRegistry.getUser
  end.

Definition getUserByUsername (bk : Backend)
  : string -> Registry -> option User.t :=
  match bk with
  | Mem => MemRegistry.getUserByUsername
  | Database => DatabaseRegistry.getUserByUsername
  end.

Definition createUser (bk : Backend)
  : InsertUser.t -> Registry -> Throws User.t * Registry :=
  match bk with
  | Mem => MemRegistry.createUser
  | Database => DatabaseRegistry.createUser
  end.

Definition getVehiclesByUserId (bk : Backend)
  : Z -> Registry -> list Vehicle.t :=
  match bk with
  | Mem => MemRegistry.getVehiclesByUserId
  | Database => DatabaseRegistry.getVehiclesByUserId
  end.

Definition createVehicle (bk : Backend)
  : InsertVehicle.t -> Registry -> Vehicle.t * Registry :=
  match bk with
  | Mem => MemRegistry.createVehicle
  | Database => DatabaseRegistry.createVehicle
  end.

Definition deleteVehicle (bk : Backend)
  : Z -> Registry -> Throws unit * Registry :=
  match bk with
  | Mem => MemRegistry.deleteVehicle
  | Database => DatabaseRegistry.deleteVehicle
  end.

Definition getTransportationTypes (bk : Backend)
  : Registry -> list TransportationType.t :=
  match bk with
  | Mem => MemRegistry.getTransportationTypes
  | Database => DatabaseRegistry.getTransportationTypes
  end.

Definition createTransportationType (bk : Backend)
  : InsertTransportationType.t -> Registry
    -> TransportationType.t * Registry :=
  match bk with
  | Mem => MemRegistry.createTransportationType
  | Database => DatabaseRegistry.createTransportationType
  end.

Definition getTransportationBookingsByUserId (bk : Backend)
  : Z -> Registry -> list TransportationBooking.t :=
  match bk with
  | Mem => MemRegistry.getTransportationBookingsByUserId
  | Database => DatabaseRegistry.getTransportationBookingsByUserId
  end.

Definition createTransportationBooking (bk : Backend)
  : Z -> InsertTransportationBooking.t -> Registry
    -> TransportationBooking.t * Registry :=
  match bk with
  | Mem => MemRegistry.createTransportationBooking
  | Database => DatabaseRegistry.createTransportationBooking
  end.

(** [getParkingLocations]: every location, in both classes. *)
Definition getParkingLocations (bk : Backend) (st : Store)
  : list ParkingLocation.t :=
  JsMap.values (parkingLocations st).

(** [getParkingBookingsByUserId]: a [filter] in [MemStorage], a
    [where(eq(parkingBookings.userId, userId))] in [DatabaseStorage],
    without [ORDER BY]: of the database's answer only the rows are
    meant, not their order. *)
Definition getParkingBookingsByUserId (bk : Backend) (userId : Z) (st : Store)
  : list ParkingBooking.t :=
  match bk with
  | Mem => MemStorage.getParkingBookingsByUserId userId st
  | Database =>
      filter (fun row => ParkingBooking.userId row =? userId)
             (JsMap.values (parkingBookings st))
  end.

End Storage.

(** ** Sessions and the other routes *)

(** The whole state behind the routes. *)
Record App : Type := mkApp {
  parking : Store;
  registry : Registry
}.

(** [req.session.userId] *)
Definition Session : Type := option Z.

(** [!req.session.userId]: absent, or a falsy number. *)
Definition sessionUserId (session : Session) : option Z :=
  match session with
  | Some id => if id =? 0 then None else Some id
  | None => None
  end.

Inductive Reply (A : Type) : Type :=
| Sent (status : Z) (data : A)
| Failed (status : Z) (text : string).
Arguments Sent {A} status data.
Arguments Failed {A} status text.

(** [const { password, ...userWithoutPassword } = user] *)
Module PublicUser.
Record t : Type := mk {
  id : Z;
  username : string;
  name : string;
  email : string;
  phone : option string
}.
End PublicUser.

Definition userWithoutPassword (user : User.t) : PublicUser.t :=
  PublicUser.mk (User.id user) (User.username user) (User.name user)
    (User.email user) (User.phone user).

(** [app.post("/api/auth/register", ...)] *)
Definition register (bk : Backend) (body : InsertUser.t) (session : Session)
    (reg : Registry) : Reply PublicUser.t * Session * Registry :=
  match Storage.getUserByUsername bk (InsertUser.username body) reg with
  | Some _ => (Failed 400 "Username already taken", session, reg)
  | None =>
      match Storage.createUser bk body reg with
      | (Throw _, reg') => (Failed 500 "Failed to register user", session, reg')
      | (Ok newUser, reg') =>
          (Sent 201 (userWithoutPassword newUser), Some (User.id newUser), reg')
      end
  end.

(** A string that is present and not empty. *)
Definition truthyString (x : option string) : option string :=
  match x with
  | Some s => if String.eqb s EmptyString then None else Some s
  | None => None
  end.

(** [app.post("/api/auth/login", ...)] *)
Definition login (bk : Backend) (username password : option string)
    (session : Session) (reg : Registry) : Reply PublicUser.t * Session :=
  match truthyString username, truthyString password with
  | Some username, Some password =>
      match Storage.getUserByUsername bk username reg with
      | Some user =>
          if String.eqb (User.password user) password
          then (Sent 200 (userWithoutPassword user), Some (User.id user))
          else (Failed 401 "Invalid username or password", session)
      | None => (Failed 401 "Invalid username or password", session)
      end
  | _, _ => (Failed 400 "Username and password are required", session)
  end.

(** [app.get("/api/auth/me", ...)] *)
Definition me (bk : Backend) (session : Session) (reg : Registry)
  : Reply PublicUser.t :=
  match sessionUserId session with
  | None => Failed 401 "Not authenticated"
  | Some id =>
      match Storage.getUser bk id reg with
      | None => Failed 401 "User not found"
      | Some user => Sent 200 (userWithoutPassword user)
      end
  end.

(** [authMiddleware]: either [next()] with [req.user], or a [401]. *)
Inductive Guard : Type :=
| Next (user : User.t)
| Reject (status : Z) (text : string).

Definition authMiddleware (bk : Backend) (session : Session) (reg : Registry)
  : Guard :=
  match sessionUserId session with
  | None => Reject 401 "Not authenticated"
  | Some id =>
      match Storage.getUser bk id reg with
      | None => Reject 401 "User not found"
      | Some user => Next user
      end
  end.

(** [app.get("/api/vehicles", authMiddleware, ...)] *)
Definition getVehicles (bk : Backend) (session : Session) (reg : Registry)
  : Reply (list Vehicle.t) :=
  match authMiddleware bk session reg with
  | Reject status text => Failed status text
  | Next user => Sent 200 (Storage.getVehiclesByUserId bk (User.id user) reg)
  end.

(** The body of [POST /api/vehicles]; [insertVehicleSchema] requires
    the plate and the type. *)
Record VehicleBody : Type := mkVehicleBody {
  bodyUserId : option Z;
  bodyLicensePlate : option string;
  bodyVehicleType : option string;
  bodyNickname : option string
}.

(** [insertVehicleSchema.parse({ ...req.body, userId: req.user.id })] *)
Definition parseVehicle (body : VehicleBody) (userId : Z)
  : option InsertVehicle.t :=
  match bodyLicensePlate body, bodyVehicleType body with
  | Some plate, Some type =>
      Some (InsertVehicle.mk userId plate type (bodyNickname body))
  | _, _ => None
  end.

(** [app.post("/api/vehicles", authMiddleware, ...)] *)
Definition postVehicle (bk : Backend) (session : Session) (body : VehicleBody)
    (reg : Registry) : Reply Vehicle.t * Registry :=
  match authMiddleware bk session reg with
  | Reject status text => (Failed status text, reg)
  | Next user =>
      match parseVehicle body (User.id user) with
      | None => (Failed 400 "Invalid vehicle data", reg)
      | Some vehicleData =>
          let (newVehicle, reg') := Storage.createVehicle bk vehicleData reg in
          (Sent 201 newVehicle, reg')
      end
  end.

(** [app.get("/api/bookings", authMiddleware, ...)] *)
Definition getBookings (bk : Backend) (session : Session) (app : App)
  : Reply (list ParkingBooking.t) :=
  match authMiddleware bk session (registry app) with
  | Reject status text => Failed status text
  | Next user =>
      Sent 200 (Storage.getParkingBookingsByUserId bk (User.id user)
                  (parking app))
  end.

(** A booking route behind [authMiddleware], served alone. *)
Definition guarded (bk : Backend) (session : Session)
    (handler : Z -> Async Response) (app : App) : Response * App :=
  match authMiddleware bk session (registry app) with
  | Reject status text => (message status text, app)
  | Next user =>
      let (response, st) := run (handler (User.id user)) (parking app) in
      (response, mkApp st (registry app))
  end.

(** The body of [POST /api/transportation/bookings]. *)
Record TransportBody : Type := mkTransportBody {
  rideUserId : option Z;
  rideTransportTypeId : option Z;
  rideParkingBookingId : option Z;
  ridePickupLocation : option string;
  rideDropoffLocation : option string;
  ridePickupTime : option TimeValue;
  rideIsShared : option bool;
  rideStatus : option string;
  rideAmount : option Q
}.

(** [insertTransportationBookingSchema.parse({ ...req.body, userId })]:
    the required fields must be there, and [pickupTime], a [timestamp]
    column, must be a [Date] instance. *)
Definition parseTransport (body : TransportBody) (userId : Z)
  : option InsertTransportationBooking.t :=
  match rideTransportTypeId body, ridePickupLocation body,
        rideDropoffLocation body, ridePickupTime body, rideAmount body with
  | Some type, Some pickup, Some dropoff, Some (DateObject time), Some amount =>
      Some (InsertTransportationBooking.mk userId type
              (rideParkingBookingId body) pickup dropoff time
              (rideIsShared body) (rideStatus body) amount)
  | _, _, _, _, _ => None
  end.

(** [app.get("/api/transportation/bookings", authMiddleware, ...)] *)
Definition getRides (bk : Backend) (session : Session) (reg : Registry)
  : Reply (list TransportationBooking.t) :=
  match authMiddleware bk session reg with
  | Reject status text => Failed status text
  | Next user =>
      Sent 200 (Storage.getTransportationBookingsByUserId bk (User.id user) reg)
  end.

(** [app.post("/api/transportation/bookings", authMiddleware, ...)] *)
Definition postRide (bk : Backend) (session : Session) (clock : Z)
    (body : TransportBody) (reg : Registry)
  : Reply TransportationBooking.t * Registry :=
  match authMiddleware bk session reg with
  | Reject status text => (Failed status text, reg)
  | Next user =>
      match parseTransport body (User.id user) with
      | None => (Failed 400 "Invalid booking data", reg)
      | Some bookingData =>
          let (newBooking, reg') :=
            Storage.createTransportationBooking bk clock bookingData reg in
          (Sent 201 newBooking, reg')
      end
  end.

(** ** [initializeDemoData] *)

(** The dates the function builds: today at 16:00 and at 19:00 local
    time, and the clock read when the booking is stored. *)
Record DemoClock : Type := mkDemoClock {
  todayAt16 : Z;
  todayAt19 : Z;
  storedAt : Z
}.

(** [`${i}`] *)
Definition decimal (i : nat) : string :=
  NilZero.string_of_uint (Nat.to_uint i).

(** [for (let i = 1; i <= count; i++) await storage.createParkingSpot(...)] *)
Definition createSpots (storage : IStorage) (location : Z)
    (letter level : string) (count : nat) (st : Store) : Store :=
  fold_left
    (fun st i =>
       snd (createParkingSpot storage
              (InsertParkingSpot.mk location (letter ++ decimal i)
                 (Some level) (Some letter) (Some true) (Some "standard"))
              st))
    (seq 1 count) st.

Definition demoLocation1 : InsertParkingLocation.t :=
  InsertParkingLocation.mk "Central Metro Parking"
    "123 Main Street, City Center" 37.7749 (-122.4194) 50 5
    (Some 4.5%Q) (Some 128) (Some true).

Definition demoLocation2 : InsertParkingLocation.t :=
  InsertParkingLocation.mk "Westside Metro Parking"
    "456 West Avenue, Downtown" 37.7734 (-122.4314) 75 4.5
    (Some 4.2%Q) (Some 95) (Some true).

Definition demoLocation3 : InsertParkingLocation.t :=
  InsertParkingLocation.mk "Eastside Metro Parking"
    "789 East Boulevard, City East" 37.7854 (-122.4054) 40 6
    (Some 4.7%Q) (Some 112) (Some true).

Definition demoUser : InsertUser.t :=
  InsertUser.mk "john.doe" "password123" "John Doe" "john.doe@example.com"
    (Some "555-123-4567").

Definition initializeDemoData (bk : Backend) (clock : DemoClock) (app : App)
  : Throws unit * App :=
  let storage := implementation bk in
  match Storage.getParkingLocations bk (parking app) with
  | _ :: _ => (Ok tt, app)
  | [] =>
      let (location1, st) := createParkingLocation storage demoLocation1
                               (parking app) in
      let (location2, st) := createParkingLocation storage demoLocation2 st in
      let (location3, st) := createParkingLocation storage demoLocation3 st in
      let st := createSpots storage (ParkingLocation.id location1) "A" "1" 10 st in
      let st := createSpots storage (ParkingLocation.id location2) "B" "2" 15 st in
      let st := createSpots storage (ParkingLocation.id location3) "C" "1" 8 st in
      let (_, reg) :=
        Storage.createTransportationType bk
          (InsertTransportationType.mk "Cab" "car-side" 8 2) (registry app) in
      let (_, reg) :=
        Storage.createTransportationType bk
          (InsertTransportationType.mk "Shuttle" "shuttle-van" 4 1) reg in
      let (_, reg) :=
        Storage.createTransportationType bk
          (InsertTransportationType.mk "E-Rickshaw" "bicycle" 3 1) reg in
      match Storage.createUser bk demoUser reg with
      | (Throw text, reg) => (Throw text, mkApp st reg)
      | (Ok user, reg) =>
          let (vehicle, reg) :=
            Storage.createVehicle bk
              (InsertVehicle.mk (User.id user) "ABC-1234" "Sedan"
                 (Some "My Sedan")) reg in
          match createParkingBooking storage (storedAt clock)
                  (InsertParkingBooking.mk (User.id user) (Vehicle.id vehicle)
                     2 (ParkingLocation.id location2)
                     (todayAt16 clock) (todayAt19 clock)
                     (Some "confirmed") "PARK-123ABC" 13.5 None) st with
          | (Throw text, st) => (Throw text, mkApp st reg)
          | (Ok _, st) =>
              match updateParkingSpotAvailability storage 2 false st with
              | (Throw text, st) => (Throw text, mkApp st reg)
              | (Ok _, st) => (Ok tt, mkApp st reg)
              end
          end
      end
  end.

(** ** The client's computations *)

Module Client.

Definition digitValue (c : ascii) : option Z :=
  let n := Z.of_nat (nat_of_ascii c) in
  if (48 <=? n) && (n <=? 57) then Some (n - 48) else None.

Fixpoint digitsPrefix (s : string) (acc : option Z) : option Z :=
  match s with
  | EmptyString => acc
  | String c s' =>
      match digitValue c with
      | Some d => digitsPrefix s' (Some (10 * spread 0 acc + d))
      | None => acc
      end
  end.

(** [parseInt] on a string that begins neither with white space nor
    with a sign nor with [0x]: the number its leading decimal digits
    write, [NaN] ([None]) when it has none. *)
Definition parseInt (s : string) : option Z := digitsPrefix s None.

(** [s.split(':')[0]] *)
Fixpoint beforeColon (s : string) : string :=
  match s with
  | EmptyString => EmptyString
  | String c s' =>
      if Ascii.eqb c ":"%char then EmptyString else String c (beforeColon s')
  end.

(** [ParkingBookingModal.calculateDuration], on the values of the two
    selects ("11:00", "15:00", ...). *)
Definition calculateDuration (startTime endTime : string) : Z :=
  match parseInt (beforeColon startTime), parseInt (beforeColon endTime) with
  | Some start, Some finish => if finish >? start then finish - start else 0
  | _, _ => 0
  end.

(** The values offered by the two selects of the modal. *)
Definition startOptions : list string :=
  ["09:00"; "10:00"; "11:00"; "12:00"; "13:00"; "14:00"].

Definition endOptions : list string :=
  ["12:00"; "13:00"; "14:00"; "15:00"; "16:00"; "17:00"].

(** [Number] on a string of decimal digits; the empty string is 0.
    [None] stands for [NaN]. *)
Fixpoint digitsValue (s : string) (acc : Z) : option Z :=
  match s with
  | EmptyString => Some acc
  | String c s' =>
      match digitValue c with
      | Some d => digitsValue s' (10 * acc + d)
      | None => None
      end
  end.

Definition number (s : string) : option Z := digitsValue s 0.

(** [s.split(':')[1]]: [None] when there is no colon. *)
Fixpoint afterFirstColon (s : string) : option string :=
  match s with
  | EmptyString => None
  | String c s' =>
      if Ascii.eqb c ":"%char then Some (beforeColon s')
      else afterFirstColon s'
  end.

(** [new Date(year, month - 1, day, hour, minute)], given the local
    midnight of that day, on a day without a change of clock. *)
Definition dateAt (midnight : Z) (time : string) : option Z :=
  match number (beforeColon time), afterFirstColon time with
  | Some hour, Some minutes =>
      match number minutes with
      | Some minute => Some (midnight + (hour * 60 + minute) * 60000)
      | None => None
      end
  | _, _ => None
  end.

(** The body that [handleConfirmBooking] sends. *)
Definition requestBody (location vehicle midnight : Z)
    (startTime endTime : string) : option BookingBody :=
  match dateAt midnight startTime, dateAt midnight endTime with
  | Some startDateTime, Some endDateTime =>
      Some (mkBody location vehicle startDateTime endDateTime)
  | _, _ => None
  end.

(** [total = parkingFee + bookingFee] *)
Definition total (selectedLocation : option ParkingLocation.t)
    (startTime endTime : string) : Q :=
  let duration := calculateDuration startTime endTime in
  let parkingFee :=
    match selectedLocation with
    | Some location =>
        (ParkingLocation.hourlyRate location * inject_Z duration)%Q
    | None => 0%Q
    end in
  (parkingFee + 1.5)%Q.

(** [Math.max(x, 0)] *)
Definition atLeastZero (x : Q) : Q := if Qle_bool 0 x then x else 0%Q.

(** [TransportBookingModal.getBaseFare] *)
Definition getBaseFare (selectedTransport : option TransportationType.t)
    (isPrivate : bool) (passengerCount : Z)
    (useRewardPoints applyPromoCode : bool) (promoCode : string) : Q :=
  match selectedTransport with
  | None => 0%Q
  | Some transport =>
      let fare :=
        if isPrivate then (TransportationType.baseRate transport + 4)%Q
        else TransportationType.baseRate transport in
      let fare :=
        if isPrivate && (passengerCount >? 1)
        then (fare + inject_Z (passengerCount - 1) * 2)%Q
        else fare in
      let fare := if useRewardPoints then atLeastZero (fare - 5)%Q else fare in
      let fare :=
        if applyPromoCode && String.eqb promoCode "FIRST10"
        then (fare * 0.9)%Q
        else fare in
      fare
  end.

(** The filter of [BookingPanel]: does the booking show under the tab? *)
Definition showsUnder (activeTab : string) (clock : Z) (booking : ParkingBooking.t)
  : bool :=
  let bookingEndTime := ParkingBooking.endTime booking in
  if String.eqb activeTab "upcoming" then
    (clock <=? bookingEndTime)
    && negb (String.eqb (ParkingBooking.status booking) "canceled")
  else if String.eqb activeTab "past" then
    (bookingEndTime <? clock)
    || String.eqb (ParkingBooking.status booking) "completed"
    || String.eqb (ParkingBooking.status booking) "canceled"
  else if String.eqb activeTab "favorites" then
    match ParkingBooking.isFavorite booking with
    | Some true => true
    | _ => false
    end
  else false.

End Client.
(** * Notions used in the statements *)

(** ** The resolver of each backend *)

Definition resolver (bk : Backend) (locationId startTime endTime : Z)
    (st : Store) : list ParkingSpot.t :=
  fst (getAvailableParkingSpots (implementation bk)
         locationId startTime endTime st).

(** The statuses a backend counts as active: [MemStorage] excludes
    ["canceled"] and ["completed"], [DatabaseStorage] selects
    ["pending"] and ["confirmed"]. *)
Definition activeFor (bk : Backend) (status : string) : bool :=
  match bk with
  | Mem => negb (String.eqb status "canceled")
           && negb (String.eqb status "completed")
  | Database => String.eqb status "pending" || String.eqb status "confirmed"
  end.

(** A booking that stands in the way of [spot] for the request. *)
Definition conflicts (bk : Backend) (locationId startTime endTime : Z)
    (spot : ParkingSpot.t) (b : ParkingBooking.t) : bool :=
  (ParkingBooking.locationId b =? locationId)
  && activeFor bk (ParkingBooking.status b)
  && (ParkingBooking.spotId b =? ParkingSpot.id spot)
  && (ParkingBooking.startTime b <=? endTime)
  && (startTime <=? ParkingBooking.endTime b).


(** ** The error kinds as responses *)

Definition NoAvailability : Response :=
  message 400 "No available parking spots for the selected time".

Definition LocationNotFound : Response :=
  message 404 "Parking location not found".

(** The answer to a [ZodError]. *)
Definition InvalidBookingData : Response := message 400 "Invalid booking data".

Definition NotFound : Response := message 404 "Booking not found".

Definition Forbidden : Response :=
  message 403 "Not authorized to cancel this booking".


(** ** Words of the specification *)

(** Active booking: [pending] or [confirmed]. *)
Definition isActive (b : ParkingBooking.t) : bool :=
  String.eqb (ParkingBooking.status b) "pending"
  || String.eqb (ParkingBooking.status b) "confirmed".

(** The four statuses listed with the [status] column. *)
Definition knownStatus (status : string) : Prop :=
  status = "pending" \/ status = "confirmed"
  \/ status = "canceled" \/ status = "completed".

(** Overlap of the intervals [[s1, e1)] and [[s2, e2)]. *)
Definition overlap (s1 e1 s2 e2 : Z) : Prop := s1 < e2 /\ s2 < e1.

(** No double booking: two distinct active bookings of one spot never
    overlap. *)
Definition noDoubleBooking (st : Store) : Prop :=
  forall k1 k2 b1 b2,
    k1 <> k2 ->
    JsMap.get k1 (parkingBookings st) = Some b1 ->
    JsMap.get k2 (parkingBookings st) = Some b2 ->
    isActive b1 = true -> isActive b2 = true ->
    ParkingBooking.spotId b1 = ParkingBooking.spotId b2 ->
    ~ overlap (ParkingBooking.startTime b1) (ParkingBooking.endTime b1)
              (ParkingBooking.startTime b2) (ParkingBooking.endTime b2).

(** A spot with no active booking overlapping [[t0, t1)]. *)
Definition freeDuring (st : Store) (spot : ParkingSpot.t) (t0 t1 : Z) : Prop :=
  forall b,
    In b (JsMap.values (parkingBookings st)) ->
    ParkingBooking.spotId b = ParkingSpot.id spot ->
    isActive b = true ->
    ~ overlap (ParkingBooking.startTime b) (ParkingBooking.endTime b) t0 t1.

(** Availability correctness as the specification words it: the result
    is the set of the location's spots that are free during the
    interval, whatever their flags. *)
Definition listsFreeSpots (st : Store) (locationId t0 t1 : Z)
    (result : list ParkingSpot.t) : Prop :=
  forall spot,
    In spot result <->
    In spot (MemStorage.getParkingSpotsByLocationId locationId st)
    /\ freeDuring st spot t0 t1.

(** The two backends return the same set of spots. *)
Definition sameSpots (st : Store) (locationId t0 t1 : Z) : Prop :=
  forall spot,
    In spot (MemStorage.getAvailableParkingSpots locationId t0 t1 st) <->
    In spot (DatabaseStorage.getAvailableParkingSpots locationId t0 t1 st).



(** Both times of the body are [Date] instances: the booking data
    passes [insertParkingBookingSchema.parse]. *)
Definition accepted (body : BookingBody) : bool :=
  isDate (startTimeValue body) && isDate (endTimeValue body).




(** Invalid interval rejection as the specification words it: the
    request is refused before the resolver is consulted, so with an
    error that is not the resolver's [NoAvailability], and bookings and
    spots stay as they were. *)
Definition rejectedBeforeResolver (storage : IStorage) (st : Store)
    (user : Z) (env : Env) (body : BookingBody) : Prop :=
  let out := run (postBooking storage user env body) st in
  statusOf (fst out) <> 201
  /\ fst out <> NoAvailability
  /\ parkingBookings (snd out) = parkingBookings st
  /\ parkingSpots (snd out) = parkingSpots st.


(** A cancellation that either fails with a [404] or changes nothing. *)
Definition failsOrNoOp (storage : IStorage) (st : Store)
    (user bookingId : Z) : Prop :=
  let out := run (deleteBooking storage user bookingId) st in
  statusOf (fst out) = 404 \/ snd out = st.

(** The flag of the spot stored under a key. *)
Definition flagOf (st : Store) (spotId : Z) : option bool :=
  match JsMap.get spotId (parkingSpots st) with
  | Some spot => ParkingSpot.isAvailable spot
  | None => None
  end.

(** [{ ...existingSpot, isAvailable }] *)
Definition withAvailability (spot : ParkingSpot.t) (isAvailable : bool)
  : ParkingSpot.t :=
  ParkingSpot.mk (ParkingSpot.id spot) (ParkingSpot.locationId spot)
    (ParkingSpot.spotNumber spot) (ParkingSpot.level spot)
    (ParkingSpot.section spot) (Some isAvailable) (ParkingSpot.spotType spot).

(** [{ ...existingBooking, status: "canceled" }] *)
Definition canceled (b : ParkingBooking.t) : ParkingBooking.t :=
  MemStorage.mergeBooking b canceledUpdate.

(** The booking that [POST /api/bookings] stores for the spot it chose. *)
Definition newBooking (st : Store) (user : Z) (env : Env) (body : BookingBody)
    (spot0 : ParkingSpot.t) (location : ParkingLocation.t) : ParkingBooking.t :=
  ParkingBooking.mk (currentBookingIds st) user (vehicleId body)
    (ParkingSpot.id spot0) (locationId body) (startTime body) (endTime body)
    "confirmed" (generateBookingCode (randomBytes env))
    (fare (hoursOf (startTime body) (endTime body))
          (ParkingLocation.hourlyRate location))
    (Some (now env)) None.

(** The store once a booking has taken the next identifier. *)
Definition withNewBooking (st : Store) (b : ParkingBooking.t) : Store :=
  mkStore (parkingLocations st) (parkingSpots st)
          (JsMap.set (currentBookingIds st) b (parkingBookings st))
          (currentLocationIds st) (currentSpotIds st)
          (currentBookingIds st + 1).

(** What provisioning, creation and cancellation maintain: spot
    identifiers are below the counter and determine the location, and a
    booking carries the location of its spot. *)
Definition consistent (st : Store) : Prop :=
  (forall s, In s (JsMap.values (parkingSpots st)) ->
             ParkingSpot.id s < currentSpotIds st)
  /\ (forall s s',
        In s (JsMap.values (parkingSpots st)) ->
        In s' (JsMap.values (parkingSpots st)) ->
        ParkingSpot.id s = ParkingSpot.id s' ->
        ParkingSpot.locationId s = ParkingSpot.locationId s')
  /\ (forall b, In b (JsMap.values (parkingBookings st)) ->
                ParkingBooking.spotId b < currentSpotIds st)
  /\ (forall b s,
        In b (JsMap.values (parkingBookings st)) ->
        In s (JsMap.values (parkingSpots st)) ->
        ParkingSpot.id s = ParkingBooking.spotId b ->
        ParkingSpot.locationId s = ParkingBooking.locationId b).

(** The store after an insert into [parking_bookings] was refused: only
    the sequence of the key has moved. *)
Definition skipBookingId (st : Store) : Store :=
  mkStore (parkingLocations st) (parkingSpots st) (parkingBookings st)
          (currentLocationIds st) (currentSpotIds st)
          (currentBookingIds st + 1).

(** The request handed to the handler with [Date] instances in it. *)
Definition withDates (body : BookingBody) : BookingBody :=
  mkBookingBody (locationId body) (vehicleId body)
    (DateObject (startTime body)) (DateObject (endTime body)).

(** A body as [express.json()] delivers it: its times are strings. *)
Definition fromJson (body : BookingBody) : bool :=
  negb (isDate (startTimeValue body)) && negb (isDate (endTimeValue body)).

(** A body that [DatabaseStorage.updateParkingBooking] cannot write:
    it sets no column, or a string stands where a [timestamp] column
    wants a [Date]. *)
Definition unwritable (bk : Backend) (body : PartialParkingBooking.t) : bool :=
  match bk with
  | Mem => false
  | Database =>
      PartialParkingBooking.isEmpty body
      || PartialParkingBooking.hasStringTime body
  end.

Definition patchFromJson (body : PartialParkingBooking.t) : bool :=
  match PartialParkingBooking.startTime body with
  | Some (DateObject _) => false
  | _ => true
  end
  && match PartialParkingBooking.endTime body with
     | Some (DateObject _) => false
     | _ => true
     end
  && match PartialParkingBooking.createdAt body with
     | Some (Some (DateObject _)) => false
     | _ => true
     end.

(** A confirmed booking put in the store through the storage
    interface, the way [initializeDemoData] stores its booking:
    [createParkingBooking], then [updateParkingSpotAvailability] on the
    spot.  The amount is the fare at the hourly rate [rate]. *)
Definition reserve (storage : IStorage) (user : Z) (env : Env)
    (body : BookingBody) (spotId : Z) (rate : Q) (st : Store) : Store :=
  let bookingData :=
    InsertParkingBooking.mk user (vehicleId body) spotId (locationId body)
      (startTime body) (endTime body) (Some "confirmed")
      (generateBookingCode (randomBytes env))
      (fare (hoursOf (startTime body) (endTime body)) rate) None in
  snd (updateParkingSpotAvailability storage spotId false
         (snd (createParkingBooking storage (now env) bookingData st))).

(** ** Sequences of operations

    The operator provisions locations and spots; users create, modify
    and cancel bookings through the routes. *)

Inductive Op : Type :=
| ProvisionLocation (ins : InsertParkingLocation.t)
| ProvisionSpot (ins : InsertParkingSpot.t)
| CreateBooking (user : Z) (env : Env) (body : BookingBody)
| ModifyBooking (user bookingId : Z) (body : PartialParkingBooking.t)
| CancelBooking (user bookingId : Z).

Definition perform (storage : IStorage) (st : Store) (op : Op) : Store :=
  match op with
  | ProvisionLocation ins => snd (createParkingLocation storage ins st)
  | ProvisionSpot ins => snd (createParkingSpot storage ins st)
  | CreateBooking user env body => snd (run (postBooking storage user env body) st)
  | ModifyBooking user bookingId body =>
      snd (run (patchBooking storage user bookingId body) st)
  | CancelBooking user bookingId =>
      snd (run (deleteBooking storage user bookingId) st)
  end.

Definition performAll (storage : IStorage) (ops : list Op) (st : Store)
  : Store :=
  fold_left (perform storage) ops st.

Definition isModify (op : Op) : bool :=
  match op with
  | ModifyBooking _ _ _ => true
  | _ => false
  end.

(** The requests of the sequence came over HTTP: their bodies were
    parsed from JSON. *)
Definition overHttp (op : Op) : bool :=
  match op with
  | CreateBooking _ _ body => fromJson body
  | ModifyBooking _ _ body => patchFromJson body
  | _ => true
  end.

(** No [PATCH] of the sequence carries the key [id]. *)
Definition keepsKey (op : Op) : bool :=
  match op with
  | ModifyBooking _ _ body =>
      match PartialParkingBooking.id body with
      | Some _ => false
      | None => true
      end
  | _ => true
  end.

(** ** A one-spot car park *)

Module Scenario.

Definition hour : Z := 1000 * 60 * 60.

(** Hourly rate $5, one spot. *)
Definition lot : InsertParkingLocation.t :=
  InsertParkingLocation.mk "Central Metro Parking"
    "123 Main Street, City Center" 0 0 1 5 None None (Some true).

Definition spotA1 : InsertParkingSpot.t :=
  InsertParkingSpot.mk 1 "A1" (Some "1") (Some "A") (Some true)
    (Some "standard").

Definition env : Env := mkEnv (Byte.x12, Byte.x3a, Byte.xbc) 0.

Definition alice : Z := 7.
Definition bob : Z := 8.

Definition provisioned (storage : IStorage) : Store :=
  performAll storage [ProvisionLocation lot; ProvisionSpot spotA1]
             MemStorage.new.

(** 14:00 to 17:00, and 15:00 to 16:00 *)
Definition afternoon : BookingBody := mkBody 1 1 (14 * hour) (17 * hour).
Definition withinAfternoon : BookingBody := mkBody 1 1 (15 * hour) (16 * hour).

(** A request whose end is its start. *)
Definition instant : BookingBody := mkBody 1 1 (14 * hour) (14 * hour).

(** The store once Alice's booking of the afternoon is stored. *)
Definition booked (storage : IStorage) : Store :=
  reserve storage alice env afternoon 1 5 (provisioned storage).

(** Alice's booking is stored and she cancels it; Bob's booking of the
    freed spot is stored. *)
Definition rebooked (storage : IStorage) : Store :=
  reserve storage bob env withinAfternoon 1 5
    (performAll storage [CancelBooking alice 1] (booked storage)).

(** The same, and Alice cancels her canceled booking once more. *)
Definition released (storage : IStorage) : Store :=
  performAll storage [CancelBooking alice 1] (rebooked storage).

(** The spot as stored, with its flag. *)
Definition a1 (flag : bool) : ParkingSpot.t :=
  ParkingSpot.mk 1 1 "A1" (Some "1") (Some "A") (Some flag) (Some "standard").

(** [{ status: "confirmed" }] and [{ status: "expired" }] *)
Definition statusUpdate (status : string) : PartialParkingBooking.t :=
  PartialParkingBooking.mk None None None None None None None
    (Some status) None None None None.

(** Alice cancels her booking and sets a status of her own on it. *)
Definition expired (storage : IStorage) : Store :=
  performAll storage
    [CancelBooking alice 1; ModifyBooking alice 1 (statusUpdate "expired")]
    (booked storage).

(** The requests of a session over HTTP: Alice asks for the afternoon,
    cancels booking 1, Bob asks for an hour of it, Alice sets booking 1
    back to confirmed. *)
Definition session : list Op :=
  [ProvisionLocation lot; ProvisionSpot spotA1;
   CreateBooking alice env afternoon; CancelBooking alice 1;
   CreateBooking bob env withinAfternoon;
   ModifyBooking alice 1 (statusUpdate "confirmed")].

(** The same requests when the handler is given [Date] instances. *)
Definition sessionWithDates : list Op :=
  [ProvisionLocation lot; ProvisionSpot spotA1;
   CreateBooking alice env (withDates afternoon); CancelBooking alice 1;
   CreateBooking bob env (withDates withinAfternoon); CancelBooking alice 1].

(** Two spots at the car park. *)
Definition twoSpots (storage : IStorage) : Store :=
  performAll storage
    [ProvisionLocation lot; ProvisionSpot spotA1; ProvisionSpot spotA1]
    MemStorage.new.

(** A spot that names a location nobody created. *)
Definition orphanSpot : InsertParkingSpot.t :=
  InsertParkingSpot.mk 9 "Z1" None None (Some true) None.

Definition orphaned (storage : IStorage) : Store :=
  performAll storage [ProvisionSpot orphanSpot] MemStorage.new.

End Scenario.

(** ** The server after its start

    [registerRoutes] runs [initializeDemoData] on the empty storage.
    The demonstration user, whose identifier is 1, then cancels the
    demonstration booking, [DELETE /api/bookings/1], and sets it back
    to confirmed, [PATCH /api/bookings/1] with [{ status: "confirmed" }]. *)

Module Demo.

Definition clock : DemoClock :=
  mkDemoClock (16 * Scenario.hour) (19 * Scenario.hour) (9 * Scenario.hour).

Definition started (bk : Backend) : App :=
  snd (initializeDemoData bk clock (mkApp MemStorage.new MemRegistry.new)).

Definition reconfirmed (bk : Backend) : Store :=
  performAll (implementation bk)
    [CancelBooking 1 1; ModifyBooking 1 1 (Scenario.statusUpdate "confirmed")]
    (parking (started bk)).

(** Spot A2 of location 1, as stored after the cancellation. *)
Definition a2 : ParkingSpot.t :=
  ParkingSpot.mk 2 1 "A2" (Some "1") (Some "A") (Some true) (Some "standard").

End Demo.


(** ** Identifier discipline *)

(** The entries of a map are in increasing key order, every value is
    stored under its own identifier, and the identifiers in use are
    below the counter. *)
Definition keyed {V : Type} (idOf : V -> Z) (next : Z) (m : JsMap.t V) : Prop :=
  StronglySorted Z.lt (JsMap.keys m)
  /\ forall k v, In (k, v) m -> idOf v = k /\ k < next.

Definition wellFormed (st : Store) : Prop :=
  keyed ParkingLocation.id (currentLocationIds st) (parkingLocations st)
  /\ keyed ParkingSpot.id (currentSpotIds st) (parkingSpots st)
  /\ keyed ParkingBooking.id (currentBookingIds st) (parkingBookings st).

(** ** Requests in flight *)





(** ** Reading a booking code back *)

Definition isUpperHex (c : ascii) : bool :=
  existsb (Ascii.eqb c) (list_ascii_of_string "0123456789ABCDEF").

Definition hexValue (c : ascii) : option N :=
  let n := N_of_ascii c in
  if ((48 <=? n) && (n <=? 57))%N then Some (n - 48)%N
  else if ((65 <=? n) && (n <=? 70))%N then Some (n - 55)%N
  else None.

Definition unhex (c1 c2 : ascii) : option Byte.byte :=
  match hexValue c1, hexValue c2 with
  | Some hi, Some lo => Byte.of_N (16 * hi + lo)
  | _, _ => None
  end.

(** The three bytes a code of the form [PARK-XXXXXX] was made from. *)
Definition bytesOfBookingCode (code : string)
  : option (Byte.byte * Byte.byte * Byte.byte) :=
  match code with
  | String "P" (String "A" (String "R" (String "K" (String "-"
      (String a1 (String a2 (String b1 (String b2 (String c1 (String c2
         EmptyString)))))))))) =>
      match unhex a1 a2, unhex b1 b2, unhex c1 c2 with
      | Some a, Some b, Some c => Some (a, b, c)
      | _, _, _ => None
      end
  | _ => None
  end.

(** ** Registrations *)

(** Registrations served one after the other. *)
Definition registerAll (bk : Backend) (bodies : list InsertUser.t)
    (reg : Registry) : Registry :=
  fold_left (fun reg body => snd (register bk body None reg)) bodies reg.

Definition uniqueUsernames (reg : Registry) : Prop :=
  forall k1 k2 u1 u2,
    k1 <> k2 ->
    JsMap.get k1 (users reg) = Some u1 ->
    JsMap.get k2 (users reg) = Some u2 ->
    User.username u1 <> User.username u2.

Definition uniqueEmails (reg : Registry) : Prop :=
  forall k1 k2 u1 u2,
    k1 <> k2 ->
    JsMap.get k1 (users reg) = Some u1 ->
    JsMap.get k2 (users reg) = Some u2 ->
    User.email u1 <> User.email u2.

(** Two people who share a mailbox. *)
Definition sharedMailbox : list InsertUser.t :=
  [InsertUser.mk "ann" "secret-a" "Ann" "home@example.com" None;
   InsertUser.mk "ben" "secret-b" "Ben" "home@example.com" None].

(** ** The demonstration data, evaluated *)

(** The spots that [initializeDemoData] leaves in an empty storage. *)
Definition demoSpots (bk : Backend) : list ParkingSpot.t :=
  Eval vm_compute in
    JsMap.values
      (parkingSpots
         (parking
            (snd (initializeDemoData bk (mkDemoClock 0 0 0)
                    (mkApp MemStorage.new MemRegistry.new))))).

(** * Properties *)

(** ** Facts about insertion-ordered maps *)

Section JsMapFacts.
Context {V : Type}.
Implicit Types (m : JsMap.t V) (k : Z) (v : V).

Lemma get_set k k0 v m :
  JsMap.get k (JsMap.set k0 v m) = if k =? k0 then Some v else JsMap.get k m.
Proof.
  induction m as [|[k1 v1] m IH]; simpl.
  - destruct (k =? k0); reflexivity.
  - destruct (k0 =? k1) eqn:E01; simpl.
    + apply Z.eqb_eq in E01; subst k1.
      destruct (k =? k0); reflexivity.
    + rewrite IH. destruct (k =? k1) eqn:E1; [|reflexivity].
      apply Z.eqb_eq in E1; subst k1.
      destruct (k =? k0) eqn:E0; [|reflexivity].
      apply Z.eqb_eq in E0; subst k0. rewrite Z.eqb_refl in E01. discriminate.
Qed.

Lemma get_set_same k v m : JsMap.get k (JsMap.set k v m) = Some v.
Proof. rewrite get_set, Z.eqb_refl. reflexivity. Qed.

Lemma get_set_other k k0 v m :
  k <> k0 -> JsMap.get k (JsMap.set k0 v m) = JsMap.get k m.
Proof.
  intros Hne. rewrite get_set.
  destruct (k =? k0) eqn:E; [apply Z.eqb_eq in E; contradiction | reflexivity].
Qed.

Lemma get_In k v m : JsMap.get k m = Some v -> In v (JsMap.values m).
Proof.
  induction m as [|[k1 v1] m IH]; simpl; [discriminate|].
  destruct (k =? k1).
  - intros [= ->]. now left.
  - intros H. right. now apply IH.
Qed.

Lemma In_values_set x k v m :
  In x (JsMap.values (JsMap.set k v m)) -> x = v \/ In x (JsMap.values m).
Proof.
  induction m as [|[k1 v1] m IH]; simpl.
  - intros [H|[]]. now left.
  - destruct (k =? k1); simpl.
    + intros [H|H]; [now left | right; now right].
    + intros [H|H]; [right; now left|].
      destruct (IH H) as [H'|H']; [now left | right; now right].
Qed.

(** Storing again the value a key already has changes nothing. *)
Lemma set_get_same k v m : JsMap.get k m = Some v -> JsMap.set k v m = m.
Proof.
  induction m as [|[k1 v1] m IH]; simpl; [discriminate|].
  destruct (k =? k1) eqn:E.
  - apply Z.eqb_eq in E; subst k1. intros [= ->]. reflexivity.
  - intros H. now rewrite IH.
Qed.


End JsMapFacts.

(** ** The resolver of each backend *)

Lemma resolver_Mem l s e st :
  resolver Mem l s e st = MemStorage.getAvailableParkingSpots l s e st.
Proof. reflexivity. Qed.

Lemma resolver_Database l s e st :
  resolver Database l s e st = DatabaseStorage.getAvailableParkingSpots l s e st.
Proof. reflexivity. Qed.

Lemma resolver_reads bk l s e st :
  getAvailableParkingSpots (implementation bk) l s e st
  = (resolver bk l s e st, st).
Proof. destruct bk; reflexivity. Qed.

Lemma spots_reads bk l st :
  getParkingSpotsByLocationId (implementation bk) l st
  = (MemStorage.getParkingSpotsByLocationId l st, st).
Proof. destruct bk; reflexivity. Qed.

(** Both resolvers keep exactly the flagged spots of the location that
    no booking conflicts with. *)
Lemma In_resolver bk l s e st spot :
  In spot (resolver bk l s e st) <->
  In spot (JsMap.values (parkingSpots st))
  /\ ParkingSpot.locationId spot = l
  /\ ParkingSpot.isAvailable spot = Some true
  /\ forall b, In b (JsMap.values (parkingBookings st)) ->
               conflicts bk l s e spot b = false.
Proof.
  assert (Htruthy : forall x, truthy x = true <-> x = Some true).
  { intros [[|]|]; simpl; split; congruence. }
  destruct bk.
  - rewrite resolver_Mem. unfold MemStorage.getAvailableParkingSpots,
      MemStorage.getParkingSpotsByLocationId.
    rewrite !filter_In, Htruthy, Z.eqb_eq, negb_true_iff.
    split.
    + intros [[[Hin Hl] Hav] Hno]. repeat split; try assumption.
      intros b Hb. unfold conflicts, activeFor.
      destruct (_ && _ && _ && _ && _) eqn:C; [|reflexivity].
      rewrite !andb_true_iff in C.
      destruct C as [[[[Cl [Ca1 Ca2]] Cs] Cst] Cen].
      assert (Hex : existsb
        (fun booking =>
           (ParkingBooking.spotId booking =? ParkingSpot.id spot)
           && ((ParkingBooking.startTime booking <=? e)
               && (s <=? ParkingBooking.endTime booking)))
        (filter (fun booking =>
           (ParkingBooking.locationId booking =? l)
           && negb (String.eqb (ParkingBooking.status booking) "canceled")
           && negb (String.eqb (ParkingBooking.status booking) "completed"))
           (JsMap.values (parkingBookings st))) = true).
      { apply existsb_exists. exists b. split.
        - apply filter_In. split; [assumption|].
          now rewrite Cl, Ca1, Ca2.
        - now rewrite Cs, Cst, Cen. }
      congruence.
    + intros (Hin & Hl & Hav & Hno). repeat split; try assumption.
      destruct (existsb _ _) eqn:Hex; [|reflexivity].
      apply existsb_exists in Hex. destruct Hex as (b & Hb & Hc).
      apply filter_In in Hb. destruct Hb as [Hb Hf].
      specialize (Hno b Hb). unfold conflicts, activeFor in Hno.
      rewrite !andb_true_iff in Hf, Hc.
      destruct Hf as [[F1 F2] F3]. destruct Hc as [C1 [C2 C3]].
      rewrite F1, F2, F3, C1, C2, C3 in Hno. discriminate.
  - rewrite resolver_Database. unfold DatabaseStorage.getAvailableParkingSpots,
      DatabaseStorage.getParkingSpotsByLocationId.
    rewrite !filter_In, Htruthy, Z.eqb_eq, negb_true_iff.
    split.
    + intros [[[Hin Hl] Hav] Hno]. repeat split; try assumption.
      intros b Hb. unfold conflicts, activeFor.
      destruct (_ && _ && _ && _ && _) eqn:C; [|reflexivity].
      rewrite !andb_true_iff in C.
      destruct C as [[[[Cl Ca] Cs] Cst] Cen].
      rewrite <- Hno. symmetry. apply existsb_exists.
      exists (ParkingBooking.spotId b). split.
      * apply in_map. apply filter_In. split; [assumption|].
        now rewrite Cl, Ca, Cst, Cen.
      * apply Z.eqb_eq. apply Z.eqb_eq in Cs. congruence.
    + intros (Hin & Hl & Hav & Hno). repeat split; try assumption.
      destruct (existsb _ _) eqn:Hex; [|reflexivity].
      apply existsb_exists in Hex. destruct Hex as (i & Hi & Hc).
      apply in_map_iff in Hi. destruct Hi as (b & <- & Hb).
      apply filter_In in Hb. destruct Hb as [Hb Hf].
      specialize (Hno b Hb). unfold conflicts, activeFor in Hno.
      rewrite !andb_true_iff in Hf.
      destruct Hf as [[[F1 F2] F3] F4].
      apply Z.eqb_eq in Hc. rewrite Hc, Z.eqb_refl in Hno.
      rewrite F1, F2, F3, F4 in Hno. discriminate.
Qed.

Lemma activeFor_Mem status :
  activeFor Mem status = true <-> status <> "canceled" /\ status <> "completed".
Proof.
  unfold activeFor. rewrite andb_true_iff, !negb_true_iff.
  split; intros [H1 H2]; split;
    first [now apply String.eqb_neq | now apply String.eqb_neq in H1
          | now apply String.eqb_neq in H2].
Qed.

Lemma activeFor_Database status :
  activeFor Database status = true <-> status = "pending" \/ status = "confirmed".
Proof.
  unfold activeFor. rewrite orb_true_iff, !String.eqb_eq. reflexivity.
Qed.

Lemma activeFor_known status :
  knownStatus status -> activeFor Mem status = activeFor Database status.
Proof. intros [->|[->|[->| ->]]]; reflexivity. Qed.

(** What the specification calls active is active for both backends. *)
Lemma isActive_activeFor bk b :
  isActive b = true -> activeFor bk (ParkingBooking.status b) = true.
Proof.
  unfold isActive. rewrite orb_true_iff, !String.eqb_eq.
  intros [H|H]; rewrite H; destruct bk; reflexivity.
Qed.

Lemma conflicts_false bk l s e spot b :
  conflicts bk l s e spot b = false <->
  (ParkingBooking.locationId b = l ->
   activeFor bk (ParkingBooking.status b) = true ->
   ParkingBooking.spotId b = ParkingSpot.id spot ->
   ~ (ParkingBooking.startTime b <= e /\ s <= ParkingBooking.endTime b)).
Proof.
  unfold conflicts. split.
  - intros C Hl Ha Hs [H1 H2].
    apply Z.eqb_eq in Hl, Hs. apply Z.leb_le in H1, H2.
    rewrite Hl, Ha, Hs, H1, H2 in C. discriminate.
  - intros H. destruct (_ && _ && _ && _ && _) eqn:C; [|reflexivity].
    rewrite !andb_true_iff in C. destruct C as [[[[Cl Ca] Cs] Cst] Cen].
    exfalso. apply H.
    + now apply Z.eqb_eq.
    + assumption.
    + now apply Z.eqb_eq.
    + split; now apply Z.leb_le.
Qed.


(** ** Availability *)

(** C2, as stated, fails.  Alice holds the only spot from 14:00 to
    17:00, so its flag is false; a request for 18:00 to 19:00 overlaps no
    booking, yet the resolver returns no spot. *)
Lemma stale_flag_hides_free_spot :
  MemStorage.getAvailableParkingSpots 1
    (18 * Scenario.hour) (19 * Scenario.hour) (Scenario.booked memStorage) = []
  /\ ~ listsFreeSpots (Scenario.booked memStorage)
         1 (18 * Scenario.hour) (19 * Scenario.hour)
         (MemStorage.getAvailableParkingSpots 1
            (18 * Scenario.hour) (19 * Scenario.hour)
            (Scenario.booked memStorage)).
Proof.
  split; [reflexivity|].
  intros H.
  destruct (H (Scenario.a1 false)) as [_ Hback].
  assert (Hin : In (Scenario.a1 false) []).
  { apply Hback. split.
    - vm_compute. now left.
    - intros b Hb _ _ [_ Hlate]. vm_compute in Hb.
      destruct Hb as [<-|[]]. vm_compute in Hlate. discriminate. }
  destruct Hin.
Qed.

(** C2, amended.  [MemStorage.getAvailableParkingSpots] returns exactly
    the spots of the location whose flag is true and that no booking of
    the location and of the spot, with a status other than canceled and
    completed, meets on the closed interval from [t0] to [t1]. *)
Theorem available_spots_mem st l t0 t1 spot :
  In spot (MemStorage.getAvailableParkingSpots l t0 t1 st) <->
  In spot (MemStorage.getParkingSpotsByLocationId l st)
  /\ ParkingSpot.isAvailable spot = Some true
  /\ forall b,
       In b (JsMap.values (parkingBookings st)) ->
       ParkingBooking.locationId b = l ->
       ParkingBooking.status b <> "canceled" ->
       ParkingBooking.status b <> "completed" ->
       ParkingBooking.spotId b = ParkingSpot.id spot ->
       ~ (ParkingBooking.startTime b <= t1 /\ t0 <= ParkingBooking.endTime b).
Proof.
  rewrite <- resolver_Mem, In_resolver.
  unfold MemStorage.getParkingSpotsByLocationId.
  rewrite filter_In, Z.eqb_eq.
  split.
  - intros (Hin & Hl & Hav & Hno). repeat split; try assumption.
    intros b Hb Hbl Hc1 Hc2 Hs.
    apply (proj1 (conflicts_false Mem l t0 t1 spot b) (Hno b Hb)); auto.
    now apply activeFor_Mem.
  - intros ((Hin & Hl) & Hav & Hno). repeat split; try assumption.
    intros b Hb. apply conflicts_false. intros Hbl Ha Hs.
    apply activeFor_Mem in Ha. destruct Ha. now apply (Hno b).
Qed.



(** C9, as stated, fails.  Alice cancels her booking and then gives it
    the status ["expired"] through [PATCH]: [MemStorage] still counts it
    and returns no spot, [DatabaseStorage] returns the spot. *)
Lemma backends_differ_on_unknown_status :
  ~ sameSpots (Scenario.expired storage)
      1 (15 * Scenario.hour) (16 * Scenario.hour).
Proof.
  intros H.
  destruct (H (Scenario.a1 true)) as [_ Hback].
  assert (Hin : In (Scenario.a1 true) (MemStorage.getAvailableParkingSpots 1
                         (15 * Scenario.hour) (16 * Scenario.hour)
                         (Scenario.expired storage))).
  { apply Hback. vm_compute. now left. }
  vm_compute in Hin. exact Hin.
Qed.

(** C9, amended.  When every booking has one of the four statuses
    pending, confirmed, canceled and completed, the two resolvers
    return the same set of spots. *)
Theorem backends_agree_on_known_statuses st l t0 t1 :
  (forall b, In b (JsMap.values (parkingBookings st)) ->
             knownStatus (ParkingBooking.status b)) ->
  sameSpots st l t0 t1.
Proof.
  intros Hknown spot.
  rewrite <- resolver_Mem, <- resolver_Database, !In_resolver.
  assert (Heq : forall b, In b (JsMap.values (parkingBookings st)) ->
    conflicts Mem l t0 t1 spot b = conflicts Database l t0 t1 spot b).
  { intros b Hb. unfold conflicts.
    now rewrite (activeFor_known _ (Hknown b Hb)). }
  split; intros (Hin & Hl & Hav & Hno); repeat split; try assumption;
    intros b Hb; specialize (Hno b Hb);
    [rewrite <- Heq | rewrite Heq]; assumption.
Qed.

Lemma backends_agree_on_known_statuses_witness :
  sameSpots (Scenario.booked storage)
    1 (15 * Scenario.hour) (16 * Scenario.hour).
Proof.
  apply (backends_agree_on_known_statuses (Scenario.booked storage)).
  intros b Hb. vm_compute in Hb. destruct Hb as [<-|[]].
  right; left. reflexivity.
Defined.


(** ** The handlers, served alone *)

Lemma withBookings_same st : withBookings st (parkingBookings st) = st.
Proof. destruct st; reflexivity. Qed.

Lemma run_postBooking bk user env body st :
  run (postBooking (implementation bk) user env body) st =
  match resolver bk (locationId body) (startTime body) (endTime body) st with
  | [] => (NoAvailability, st)
  | spot0 :: _ =>
      match JsMap.get (locationId body) (parkingLocations st) with
      | None => (LocationNotFound, st)
      | Some location =>
          if accepted body then
            let b := newBooking st user env body spot0 location in
            match bk, JsMap.get (currentBookingIds st) (parkingBookings st) with
            | Database, Some _ =>
                (message 500 "Failed to create booking", skipBookingId st)
            | _, _ =>
                match JsMap.get (ParkingSpot.id spot0) (parkingSpots st) with
                | None =>
                    (message 500 "Failed to create booking", withNewBooking st b)
                | Some existing =>
                    (json 201 b,
                     withSpots (withNewBooking st b)
                       (JsMap.set (ParkingSpot.id spot0)
                          (withAvailability existing false) (parkingSpots st)))
                end
            end
          else (InvalidBookingData, st)
      end
  end.
Proof.
  unfold postBooking. cbn [run]. rewrite resolver_reads.
  destruct (resolver bk _ _ _ st) as [|spot0 rest]; [reflexivity|].
  unfold accepted, startTime, endTime.
  destruct body as [l v [s|s] [e|e]];
    cbn [locationId vehicleId startTimeValue endTimeValue isDate andb
         instantOf];
    destruct bk; cbn;
    unfold MemStorage.getParkingLocationById,
           DatabaseStorage.getParkingLocationById;
    (destruct (JsMap.get l (parkingLocations st)); [|reflexivity]);
    cbn; try reflexivity;
    unfold DatabaseStorage.createParkingBooking; cbn;
    try (destruct (JsMap.get (currentBookingIds st) (parkingBookings st));
         [reflexivity|]);
    cbn;
    unfold MemStorage.updateParkingSpotAvailability,
           DatabaseStorage.updateParkingSpotAvailability; cbn;
    destruct (JsMap.get (ParkingSpot.id spot0) (parkingSpots st));
    reflexivity.
Qed.

(** A body parsed from JSON is refused at the latest by the validation
    of the booking data: nothing is stored. *)
Lemma run_postBooking_json bk user env body st :
  fromJson body = true ->
  run (postBooking (implementation bk) user env body) st =
  match resolver bk (locationId body) (startTime body) (endTime body) st with
  | [] => (NoAvailability, st)
  | spot0 :: _ =>
      match JsMap.get (locationId body) (parkingLocations st) with
      | None => (LocationNotFound, st)
      | Some location => (InvalidBookingData, st)
      end
  end.
Proof.
  intros Hjson. rewrite run_postBooking.
  assert (Hacc : accepted body = false).
  { unfold fromJson in Hjson. unfold accepted.
    destruct (isDate (startTimeValue body)); [discriminate | reflexivity]. }
  now rewrite Hacc.
Qed.

Lemma run_deleteBooking bk user bookingId st :
  run (deleteBooking (implementation bk) user bookingId) st =
  match JsMap.get bookingId (parkingBookings st) with
  | None => (NotFound, st)
  | Some b =>
      if negb (ParkingBooking.userId b =? user) then (Forbidden, st)
      else
        let st1 :=
          withBookings st
            (JsMap.set bookingId (canceled b) (parkingBookings st)) in
        match JsMap.get (ParkingBooking.spotId b) (parkingSpots st) with
        | None => (message 500 "Failed to cancel booking", st1)
        | Some spot =>
            (noBody 204,
             withSpots st1
               (JsMap.set (ParkingBooking.spotId b)
                  (withAvailability spot true) (parkingSpots st)))
        end
  end.
Proof.
  unfold deleteBooking.
  destruct bk; cbn;
    unfold MemStorage.getParkingBookingById,
           DatabaseStorage.getParkingBookingById;
    (destruct (JsMap.get bookingId (parkingBookings st)) as [b|] eqn:Hb;
     [|reflexivity]);
    (destruct (negb (ParkingBooking.userId b =? user)); [reflexivity|]);
    cbn;
    unfold MemStorage.updateParkingBooking,
           DatabaseStorage.updateParkingBooking;
    rewrite Hb; cbn; rewrite ?Z.eqb_refl; cbn;
    unfold MemStorage.updateParkingSpotAvailability,
           DatabaseStorage.updateParkingSpotAvailability; cbn;
    destruct (JsMap.get (ParkingBooking.spotId b) (parkingSpots st));
    reflexivity.
Qed.

Lemma run_patchBooking bk user bookingId body st :
  run (patchBooking (implementation bk) user bookingId body) st =
  match JsMap.get bookingId (parkingBookings st) with
  | None => (NotFound, st)
  | Some b =>
      if negb (ParkingBooking.userId b =? user)
      then (message 403 "Not authorized to modify this booking", st)
      else
        match updateParkingBooking (implementation bk) bookingId body st with
        | (Throw _, st') => (message 500 "Failed to update booking", st')
        | (Ok updated, st') => (json 200 updated, st')
        end
  end.
Proof.
  unfold patchBooking.
  destruct bk; cbn;
    unfold MemStorage.getParkingBookingById,
           DatabaseStorage.getParkingBookingById;
    (destruct (JsMap.get bookingId (parkingBookings st)) as [b|] eqn:Hb;
     [|reflexivity]);
    (destruct (negb (ParkingBooking.userId b =? user)); [reflexivity|]);
    cbn.
  - destruct (MemStorage.updateParkingBooking bookingId body st)
      as [[updated|text] st']; reflexivity.
  - destruct (DatabaseStorage.updateParkingBooking bookingId body st)
      as [[updated|text] st']; reflexivity.
Qed.

(** [MemStorage] writes the body over the booking, under the same key. *)
Lemma updateParkingBooking_Mem bookingId body st b :
  JsMap.get bookingId (parkingBookings st) = Some b ->
  MemStorage.updateParkingBooking bookingId body st
  = (Ok (MemStorage.mergeBooking b body),
     withBookings st
       (JsMap.set bookingId (MemStorage.mergeBooking b body)
          (parkingBookings st))).
Proof. intros Hb. unfold MemStorage.updateParkingBooking. now rewrite Hb. Qed.

(** [DatabaseStorage] does the same for a body that sets a column, has
    no string in a [timestamp] column and leaves the key alone. *)
Lemma updateParkingBooking_Database bookingId body st b :
  JsMap.get bookingId (parkingBookings st) = Some b ->
  PartialParkingBooking.isEmpty body = false ->
  PartialParkingBooking.hasStringTime body = false ->
  PartialParkingBooking.id body = None ->
  DatabaseStorage.updateParkingBooking bookingId body st
  = (Ok (MemStorage.mergeBooking b body),
     withBookings st
       (JsMap.set bookingId (MemStorage.mergeBooking b body)
          (parkingBookings st))).
Proof.
  intros Hb He Hs Hid. unfold DatabaseStorage.updateParkingBooking.
  rewrite He, Hs, Hb, Hid. cbn [spread]. now rewrite Z.eqb_refl.
Qed.

(** [Math.ceil]: the least number of whole hours that covers the
    duration. *)
Lemma hoursOf_ceiling s e :
  3600000 * (hoursOf s e - 1) < e - s <= 3600000 * hoursOf s e.
Proof.
  change (hoursOf s e) with (- (- ((e - s) * 1) / 3600000)).
  rewrite Z.mul_1_r.
  pose proof (Z.div_mod (- (e - s)) 3600000 ltac:(lia)) as Hdm.
  pose proof (Z.mod_pos_bound (- (e - s)) 3600000 ltac:(lia)) as Hb.
  lia.
Qed.

Lemma hoursOf_nonpositive s e : e <= s -> hoursOf s e <= 0.
Proof. intros H. pose proof (hoursOf_ceiling s e). lia. Qed.

(** ** Creating a booking *)

(** C4, as stated, fails.  The handler makes no check of the interval
    and asks the resolver first: with Alice's booking of the only spot
    stored, a request that ends when it starts is answered
    [NoAvailability], the error of the resolver. *)
Lemma instant_request_reaches_resolver :
  ~ rejectedBeforeResolver storage (Scenario.booked storage)
      Scenario.alice Scenario.env Scenario.instant.
Proof. intros (_ & H & _). apply H. vm_compute. reflexivity. Qed.

(** The answers of [POST /api/bookings]. *)
Lemma postBooking_answers bk st user env body :
  let out := run (postBooking (implementation bk) user env body) st in
  fst out = NoAvailability \/ fst out = LocationNotFound
  \/ fst out = InvalidBookingData
  \/ fst out = message 500 "Failed to create booking"
  \/ exists b, fst out = json 201 b.
Proof.
  cbv zeta. rewrite run_postBooking.
  destruct (resolver bk _ _ _ st) as [|spot0 rest]; [now left|].
  destruct (JsMap.get (locationId body) (parkingLocations st))
    as [location|]; [|right; now left].
  destruct (accepted body); [|right; right; now left].
  cbn zeta.
  destruct bk, (JsMap.get (currentBookingIds st) (parkingBookings st)),
    (JsMap.get (ParkingSpot.id spot0) (parkingSpots st)); cbn [fst];
    first [ right; right; right; now left
          | right; right; right; right; eexists; reflexivity ].
Qed.

(** C4, amended.  [POST /api/bookings] makes no check of the interval
    and has no error for it: a request whose end is not after its start
    goes to the resolver like any other, with a number of hours that is
    not positive.  It is answered [NoAvailability] exactly when the
    resolver returns no spot, and [LocationNotFound] exactly when the
    resolver returns a spot and the location is missing, the store
    being unchanged; its other answers are those of any request. *)
Theorem no_interval_validation bk st user env body :
  endTime body <= startTime body ->
  let out := run (postBooking (implementation bk) user env body) st in
  let offered :=
    resolver bk (locationId body) (startTime body) (endTime body) st in
  hoursOf (startTime body) (endTime body) <= 0
  /\ (fst out = NoAvailability <-> offered = [])
  /\ (fst out = LocationNotFound <->
      offered <> []
      /\ JsMap.get (locationId body) (parkingLocations st) = None)
  /\ (fst out = NoAvailability \/ fst out = LocationNotFound -> snd out = st)
  /\ (fst out = NoAvailability \/ fst out = LocationNotFound
      \/ fst out = InvalidBookingData
      \/ fst out = message 500 "Failed to create booking"
      \/ exists b, fst out = json 201 b).
Proof.
  intros Hle out offered.
  split; [now apply hoursOf_nonpositive|].
  assert (Hanswers := postBooking_answers bk st user env body).
  cbv zeta in Hanswers. fold out in Hanswers.
  assert (Hrun := run_postBooking bk user env body st).
  fold out offered in Hrun.
  assert (Hcases :
    (offered = [] /\ out = (NoAvailability, st))
    \/ (offered <> []
        /\ JsMap.get (locationId body) (parkingLocations st) = None
        /\ out = (LocationNotFound, st))
    \/ (offered <> []
        /\ JsMap.get (locationId body) (parkingLocations st) <> None
        /\ fst out <> NoAvailability /\ fst out <> LocationNotFound)).
  { destruct offered as [|spot0 rest]; [left; now split|].
    right.
    destruct (JsMap.get (locationId body) (parkingLocations st))
      as [location|]; [right | left; repeat split; [discriminate | exact Hrun]].
    split; [discriminate|]. split; [discriminate|].
    rewrite Hrun. destruct (accepted body); [|split; discriminate].
    cbn zeta.
    destruct bk, (JsMap.get (currentBookingIds st) (parkingBookings st)),
      (JsMap.get (ParkingSpot.id spot0) (parkingSpots st));
      split; discriminate. }
  split; [|split; [|split; [|exact Hanswers]]].
  - destruct Hcases as [[H0 ->]|[(H0 & Hl & ->)|(H0 & Hl & Hn & _)]];
      cbn [fst]; split; try tauto; try discriminate.
  - destruct Hcases as [[H0 ->]|[(H0 & Hl & ->)|(H0 & Hl & _ & Hn)]];
      cbn [fst]; split; try tauto; try discriminate.
  - destruct Hcases as [[H0 ->]|[(H0 & Hl & ->)|(H0 & Hl & Hn & Hn')]];
      cbn [fst snd]; try reflexivity.
    intros [H|H]; contradiction.
Qed.

Lemma no_interval_validation_witness :
  fst (run (postBooking storage Scenario.alice Scenario.env Scenario.instant)
           (Scenario.booked storage))
  = NoAvailability.
Proof.
  assert (Hle : endTime Scenario.instant <= startTime Scenario.instant)
    by (vm_compute; discriminate).
  destruct (no_interval_validation Database (Scenario.booked storage)
              Scenario.alice Scenario.env Scenario.instant Hle)
    as (_ & H & _).
  apply H. reflexivity.
Defined.

(** C5.  The request of the scenario, sent as the client sends it, is not
    served.  At the one-spot car park at $5 an hour, Alice's request
    for 14:00 to 17:00 is answered [400], "Invalid booking data": the
    handler hands the two strings of the body to
    [insertParkingBookingSchema.parse], which wants [Date] instances.
    No booking is stored and the flag of the spot stays true, so that
    Bob's request for 15:00 to 16:00, which follows, is not answered
    [NoAvailability] but refused in the same way. *)
Theorem client_booking_refused bk :
  let st := Scenario.provisioned (implementation bk) in
  let first :=
    run (postBooking (implementation bk) Scenario.alice Scenario.env
           Scenario.afternoon) st in
  first = (InvalidBookingData, st)
  /\ run (postBooking (implementation bk) Scenario.bob Scenario.env
            Scenario.withinAfternoon) (snd first)
     = (InvalidBookingData, st)
  /\ JsMap.values (parkingBookings (snd first)) = []
  /\ flagOf (snd first) 1 = Some true.
Proof. destruct bk; vm_compute; repeat split. Qed.

(** C10.  For a location without spots, whether or not a location
    record exists, [POST /api/bookings] answers [NoAvailability] and
    leaves the store as it was; it answers [LocationNotFound] only when
    a spot with a true flag names the location and no location record
    exists. *)
Theorem unknown_location_precedence bk st user env body :
  let out := run (postBooking (implementation bk) user env body) st in
  (MemStorage.getParkingSpotsByLocationId (locationId body) st = [] ->
   out = (NoAvailability, st))
  /\ (fst out = LocationNotFound ->
      JsMap.get (locationId body) (parkingLocations st) = None
      /\ exists spot,
           In spot (JsMap.values (parkingSpots st))
           /\ ParkingSpot.locationId spot = locationId body
           /\ ParkingSpot.isAvailable spot = Some true).
Proof.
  cbv zeta. rewrite run_postBooking. split.
  - intros Hnone.
    destruct (resolver bk _ _ _ st) as [|spot0 rest] eqn:Hres; [reflexivity|].
    exfalso.
    assert (Hin : In spot0 (resolver bk (locationId body) (startTime body)
                              (endTime body) st))
      by (rewrite Hres; now left).
    apply In_resolver in Hin. destruct Hin as (Hin & Hl & _).
    assert (Hin' : In spot0 (MemStorage.getParkingSpotsByLocationId
                               (locationId body) st)).
    { apply filter_In. split; [assumption | now apply Z.eqb_eq]. }
    rewrite Hnone in Hin'. destruct Hin'.
  - destruct (resolver bk _ _ _ st) as [|spot0 rest] eqn:Hres;
      [discriminate|].
    destruct (JsMap.get (locationId body) (parkingLocations st))
      as [location|].
    + destruct (accepted body); [|discriminate]. cbn zeta.
      destruct bk, (JsMap.get (currentBookingIds st) (parkingBookings st)),
        (JsMap.get (ParkingSpot.id spot0) (parkingSpots st));
        discriminate.
    + intros _. split; [reflexivity|].
      assert (Hin : In spot0 (resolver bk (locationId body) (startTime body)
                                (endTime body) st))
        by (rewrite Hres; now left).
      apply In_resolver in Hin. destruct Hin as (Hin & Hl & Hav & _).
      now exists spot0.
Qed.

Lemma unknown_location_precedence_witness :
  run (postBooking storage Scenario.alice Scenario.env
         (mkBody 9 1 (14 * Scenario.hour) (17 * Scenario.hour)))
      (Scenario.provisioned storage)
  = (NoAvailability, Scenario.provisioned storage)
  /\ (JsMap.get 9 (parkingLocations (Scenario.orphaned storage)) = None
      /\ exists spot,
           In spot (JsMap.values (parkingSpots (Scenario.orphaned storage)))
           /\ ParkingSpot.locationId spot = 9
           /\ ParkingSpot.isAvailable spot = Some true).
Proof.
  split.
  - exact (proj1 (unknown_location_precedence Database
                    (Scenario.provisioned storage) Scenario.alice Scenario.env
                    (mkBody 9 1 (14 * Scenario.hour) (17 * Scenario.hour)))
                 eq_refl).
  - exact (proj2 (unknown_location_precedence Database
                    (Scenario.orphaned storage) Scenario.alice Scenario.env
                    (mkBody 9 1 (14 * Scenario.hour) (17 * Scenario.hour)))
                 eq_refl).
Defined.

(** ** Cancelling a booking *)

(** C7.  [DELETE /api/bookings/:id] answers [NotFound] exactly when no
    booking has the identifier, and [Forbidden] exactly when the booking
    exists and belongs to another user; in both cases the store is
    unchanged.  Otherwise the booking becomes canceled, every other
    booking and every other spot stays as it was, and the flag of the
    referenced spot is set to true and the answer is [204], whatever
    other bookings the spot has. *)
Theorem cancel_semantics bk st user bookingId :
  let out := run (deleteBooking (implementation bk) user bookingId) st in
  (fst out = NotFound <-> JsMap.get bookingId (parkingBookings st) = None)
  /\ (fst out = Forbidden <->
      exists b, JsMap.get bookingId (parkingBookings st) = Some b
                /\ ParkingBooking.userId b <> user)
  /\ (fst out = NotFound \/ fst out = Forbidden -> snd out = st)
  /\ forall b,
       JsMap.get bookingId (parkingBookings st) = Some b ->
       ParkingBooking.userId b = user ->
       JsMap.get bookingId (parkingBookings (snd out)) = Some (canceled b)
       /\ ParkingBooking.status (canceled b) = "canceled"
       /\ (forall k, k <> bookingId ->
             JsMap.get k (parkingBookings (snd out))
             = JsMap.get k (parkingBookings st))
       /\ (forall k, k <> ParkingBooking.spotId b ->
             JsMap.get k (parkingSpots (snd out))
             = JsMap.get k (parkingSpots st))
       /\ (forall spot,
             JsMap.get (ParkingBooking.spotId b) (parkingSpots st) = Some spot ->
             fst out = noBody 204
             /\ JsMap.get (ParkingBooking.spotId b) (parkingSpots (snd out))
                = Some (withAvailability spot true))
       /\ parkingLocations (snd out) = parkingLocations st.
Proof.
  cbv zeta. rewrite run_deleteBooking.
  destruct (JsMap.get bookingId (parkingBookings st)) as [b|] eqn:Hb.
  - destruct (ParkingBooking.userId b =? user) eqn:Hu; cbn [negb].
    + apply Z.eqb_eq in Hu. cbn zeta.
      assert (Hcases :
        forall r st1,
          r <> NotFound -> r <> Forbidden ->
          (r = NotFound <-> Some b = None)
          /\ (r = Forbidden <->
              exists b0, Some b = Some b0 /\ ParkingBooking.userId b0 <> user)
          /\ (r = NotFound \/ r = Forbidden -> st1 = st)).
      { intros r st1 H1 H2. split; [split; [contradiction|discriminate]|].
        split.
        - split; [contradiction|]. intros (b0 & [= <-] & Hne). contradiction.
        - intros [?|?]; contradiction. }
      destruct (JsMap.get (ParkingBooking.spotId b) (parkingSpots st))
        as [spot|] eqn:Hs; cbn [fst snd].
      * destruct (Hcases (noBody 204)
                    (withSpots
                       (withBookings st
                          (JsMap.set bookingId (canceled b) (parkingBookings st)))
                       (JsMap.set (ParkingBooking.spotId b)
                          (withAvailability spot true) (parkingSpots st))))
          as (C1 & C2 & C3); try discriminate.
        split; [exact C1|]. split; [exact C2|]. split; [exact C3|].
        intros b0 [= <-] _. cbn.
        split; [apply get_set_same|]. split; [reflexivity|].
        split; [intros k Hk; now apply get_set_other|].
        split; [intros k Hk; now apply get_set_other|].
        split; [|reflexivity].
        intros spot0 Hspot0.
        assert (spot0 = spot) by congruence. subst spot0.
        split; [reflexivity | apply get_set_same].
      * destruct (Hcases (message 500 "Failed to cancel booking")
                    (withBookings st
                       (JsMap.set bookingId (canceled b) (parkingBookings st))))
          as (C1 & C2 & C3); try discriminate.
        split; [exact C1|]. split; [exact C2|]. split; [exact C3|].
        intros b0 [= <-] _. cbn.
        split; [apply get_set_same|]. split; [reflexivity|].
        split; [intros k Hk; now apply get_set_other|].
        split; [reflexivity|].
        split; [|reflexivity].
        intros spot0 Hspot0. congruence.
    + apply Z.eqb_neq in Hu. cbn [fst snd].
      split; [split; discriminate|].
      split; [split; [intros _; now exists b | reflexivity]|].
      split; [reflexivity|].
      intros b0 [= <-] Hown. contradiction.
  - cbn [fst snd].
    split; [split; reflexivity|].
    split; [split; [discriminate | intros (b0 & Hb0 & _); discriminate]|].
    split; [reflexivity|].
    intros b0 Hb0. discriminate.
Qed.

Lemma cancel_semantics_witness :
  let out := run (deleteBooking storage Scenario.alice 1)
                 (Scenario.booked storage) in
  JsMap.get 1 (parkingBookings (snd out))
  = Some (canceled
            (ParkingBooking.mk 1 7 1 1 1 (14 * Scenario.hour)
               (17 * Scenario.hour) "confirmed" "PARK-123ABC" 16.5%Q
               (Some 0) None))
  /\ JsMap.get 1 (parkingSpots (snd out))
     = Some (withAvailability (Scenario.a1 false) true).
Proof.
  pose (mine := ParkingBooking.mk 1 7 1 1 1 (14 * Scenario.hour)
                  (17 * Scenario.hour) "confirmed" "PARK-123ABC" 16.5%Q
                  (Some 0) None).
  destruct (cancel_semantics Database (Scenario.booked storage)
              Scenario.alice 1) as (_ & _ & _ & H).
  destruct (H mine eq_refl eq_refl) as (Hget & _ & _ & _ & Hflag & _).
  split.
  - exact Hget.
  - exact (proj2 (Hflag (Scenario.a1 false) eq_refl)).
Defined.

(** C8, as stated, fails.  Alice's booking is canceled and a booking
    of Bob's for the freed spot is stored, the flag being false again;
    Alice cancels once more: the answer is [204], not a [404], and the
    flag of the spot that Bob holds goes from false to true. *)
Lemma recancel_releases_rebooked_spot :
  ~ failsOrNoOp storage (Scenario.rebooked storage) Scenario.alice 1
  /\ flagOf (Scenario.rebooked storage) 1 = Some false
  /\ flagOf (snd (run (deleteBooking storage Scenario.alice 1)
                      (Scenario.rebooked storage))) 1 = Some true.
Proof.
  split; [|split; reflexivity].
  intros [H|H].
  - vm_compute in H. discriminate.
  - apply (f_equal (fun st => flagOf st 1)) in H.
    vm_compute in H. discriminate.
Qed.

Lemma canceled_twice b :
  ParkingBooking.status b = "canceled" -> canceled b = b.
Proof. destruct b; cbn. intros ->. reflexivity. Qed.

(** C8, amended.  A second cancellation, by its owner, of a booking
    that is already canceled and whose spot exists is answered [204]
    again.  It changes no booking, no location and no other spot, and
    it sets the flag of the referenced spot to true, also when that
    flag was false. *)
Theorem recancel_sets_flag_again bk st user bookingId b spot :
  JsMap.get bookingId (parkingBookings st) = Some b ->
  ParkingBooking.status b = "canceled" ->
  ParkingBooking.userId b = user ->
  JsMap.get (ParkingBooking.spotId b) (parkingSpots st) = Some spot ->
  let out := run (deleteBooking (implementation bk) user bookingId) st in
  out = (noBody 204,
         withSpots st
           (JsMap.set (ParkingBooking.spotId b) (withAvailability spot true)
              (parkingSpots st)))
  /\ flagOf (snd out) (ParkingBooking.spotId b) = Some true.
Proof.
  intros Hb Hst Hu Hs. cbv zeta. rewrite run_deleteBooking, Hb.
  apply Z.eqb_eq in Hu. rewrite Hu. cbn [negb]. cbn zeta. rewrite Hs.
  rewrite (canceled_twice b Hst), (set_get_same _ _ _ Hb), withBookings_same.
  split; [reflexivity|].
  unfold flagOf. cbn. rewrite get_set_same. reflexivity.
Qed.

Lemma recancel_sets_flag_again_witness :
  flagOf (Scenario.released storage) 1 = Some true.
Proof.
  exact (proj2 (recancel_sets_flag_again Database (Scenario.rebooked storage)
                  Scenario.alice 1
                  (ParkingBooking.mk 1 7 1 1 1 (14 * Scenario.hour)
                     (17 * Scenario.hour) "canceled" "PARK-123ABC" 16.5%Q
                     (Some 0) None)
                  (Scenario.a1 false) eq_refl eq_refl eq_refl eq_refl)).
Defined.

(** ** Two requests in flight *)




(** *** Awaited calls, one at a time *)


Section Settling.
Variable inv : Store -> Prop.
Variable ok : Response -> Prop.




End Settling.



(** *** Two requests for the only spot of a location *)

Section Race.
Variable bk : Backend.
Variable st : Store.
Variable spot : ParkingSpot.t.
Variable l : Z.
Hypothesis Hone : MemStorage.getParkingSpotsByLocationId l st = [spot].
Hypothesis Hget : JsMap.get (ParkingSpot.id spot) (parkingSpots st) = Some spot.
Hypothesis Hav : ParkingSpot.isAvailable spot = Some true.
Hypothesis Hnone :
  forall b, In b (JsMap.values (parkingBookings st)) ->
            ParkingBooking.spotId b <> ParkingSpot.id spot.
Hypothesis Hlot : JsMap.get l (parkingLocations st) <> None.
Hypothesis Hfresh :
  forall k, currentBookingIds st <= k ->
            JsMap.get k (parkingBookings st) = None.


Section Call.
Variable user : Z.
Variable env : Env.
Variable body : BookingBody.
Hypothesis Hl : locationId body = l.






End Call.


End Race.



(** ** No double booking *)





Section Preservation.
Variable bk : Backend.

Lemma isActive_canceled b : isActive (canceled b) = false.
Proof. reflexivity. Qed.

(** Changing the flag of a stored spot. *)
Lemma flag_update_preserves st k existing flag :
  JsMap.get k (parkingSpots st) = Some existing ->
  consistent st /\ noDoubleBooking st ->
  let st' := withSpots st
               (JsMap.set k (withAvailability existing flag) (parkingSpots st)) in
  consistent st' /\ noDoubleBooking st'.
Proof.
  intros Hget [(I1 & I2 & I3 & I4) Hndb] st'.
  assert (Hfrom : forall s, In s (JsMap.values (parkingSpots st')) ->
            exists s0, In s0 (JsMap.values (parkingSpots st))
                       /\ ParkingSpot.id s = ParkingSpot.id s0
                       /\ ParkingSpot.locationId s = ParkingSpot.locationId s0).
  { intros s Hs. apply In_values_set in Hs. destruct Hs as [->|Hs].
    - exists existing. split; [now apply (get_In k)|]. split; reflexivity.
    - exists s. now repeat split. }
  split; [|exact Hndb].
  repeat split.
  - intros s Hs. destruct (Hfrom s Hs) as (s0 & H0 & Hid & _).
    rewrite Hid. now apply I1.
  - intros s s' Hs Hs' Heq.
    destruct (Hfrom s Hs) as (s0 & H0 & Hid & Hl).
    destruct (Hfrom s' Hs') as (s0' & H0' & Hid' & Hl').
    rewrite Hl, Hl'. apply I2; [assumption | assumption | congruence].
  - exact I3.
  - intros b s Hb Hs Heq.
    destruct (Hfrom s Hs) as (s0 & H0 & Hid & Hl).
    rewrite Hl. apply I4; [assumption | assumption | congruence].
Qed.

(** Setting the status of a stored booking to canceled. *)
Lemma cancel_preserves st k b :
  JsMap.get k (parkingBookings st) = Some b ->
  consistent st /\ noDoubleBooking st ->
  let st' := withBookings st
               (JsMap.set k (canceled b) (parkingBookings st)) in
  consistent st' /\ noDoubleBooking st'.
Proof.
  intros Hget [(I1 & I2 & I3 & I4) Hndb] st'.
  assert (Hfrom : forall b', In b' (JsMap.values (parkingBookings st')) ->
            exists b0, In b0 (JsMap.values (parkingBookings st))
                       /\ ParkingBooking.spotId b' = ParkingBooking.spotId b0
                       /\ ParkingBooking.locationId b'
                          = ParkingBooking.locationId b0).
  { intros b' Hb'. apply In_values_set in Hb'. destruct Hb' as [->|Hb'].
    - exists b. split; [now apply (get_In k)|]. split; reflexivity.
    - exists b'. now repeat split. }
  split.
  - repeat split; try assumption.
    + intros b' Hb'. destruct (Hfrom b' Hb') as (b0 & H0 & Hs & _).
      rewrite Hs. now apply I3.
    + intros b' s Hb' Hs Heq. destruct (Hfrom b' Hb') as (b0 & H0 & Hsp & Hl).
      rewrite Hl. apply I4; [assumption | assumption | congruence].
  - intros k1 k2 b1 b2 Hne H1 H2 A1 A2 Hsame. cbn in H1, H2.
    rewrite get_set in H1, H2.
    destruct (k1 =? k).
    { injection H1 as <-. rewrite isActive_canceled in A1. discriminate. }
    destruct (k2 =? k).
    { injection H2 as <-. rewrite isActive_canceled in A2. discriminate. }
    now apply (Hndb k1 k2).
Qed.

(** Storing the booking of a spot that the resolver returned. *)
Lemma new_booking_preserves st user env body spot0 rest location :
  resolver bk (locationId body) (startTime body) (endTime body) st
  = spot0 :: rest ->
  consistent st /\ noDoubleBooking st ->
  let st' := withNewBooking st (newBooking st user env body spot0 location) in
  consistent st' /\ noDoubleBooking st'.
Proof.
  intros Hres [(I1 & I2 & I3 & I4) Hndb] st'.
  assert (Hin : In spot0 (resolver bk (locationId body) (startTime body)
                            (endTime body) st))
    by (rewrite Hres; now left).
  apply In_resolver in Hin. destruct Hin as (Hspot & Hl & _ & Hfree).
  assert (Hclear : forall b,
            In b (JsMap.values (parkingBookings st)) ->
            isActive b = true ->
            ParkingBooking.spotId b = ParkingSpot.id spot0 ->
            ~ (ParkingBooking.startTime b <= endTime body
               /\ startTime body <= ParkingBooking.endTime b)).
  { intros b Hb Ha Hs.
    apply (proj1 (conflicts_false bk _ _ _ spot0 b) (Hfree b Hb)).
    - rewrite <- (I4 b spot0 Hb Hspot (eq_sym Hs)). exact Hl.
    - now apply isActive_activeFor.
    - exact Hs. }
  split.
  - repeat split; try assumption.
    + intros b Hb. apply In_values_set in Hb. destruct Hb as [->|Hb].
      * cbn. now apply I1.
      * now apply I3.
    + intros b s Hb Hs Heq. apply In_values_set in Hb.
      destruct Hb as [->|Hb].
      * cbn in *. rewrite <- Hl. now apply I2.
      * now apply I4.
  - intros k1 k2 b1 b2 Hne H1 H2 A1 A2 Hsame [O1 O2]. cbn in H1, H2.
    rewrite get_set in H1, H2.
    destruct (k1 =? currentBookingIds st) eqn:E1;
      destruct (k2 =? currentBookingIds st) eqn:E2.
    + apply Z.eqb_eq in E1, E2. congruence.
    + injection H1 as <-. cbn in *.
      apply (Hclear b2); [now apply (get_In k2) | assumption | congruence |].
      split; lia.
    + injection H2 as <-. cbn in *.
      apply (Hclear b1); [now apply (get_In k1) | assumption | congruence |].
      split; lia.
    + apply (Hndb k1 k2 b1 b2); try assumption. now split.
Qed.

(** Adding a spot under the next identifier. *)
Lemma new_spot_preserves st ins :
  consistent st /\ noDoubleBooking st ->
  let st' := snd (createParkingSpot (implementation bk) ins st) in
  consistent st' /\ noDoubleBooking st'.
Proof.
  intros [(I1 & I2 & I3 & I4) Hndb] st'.
  assert (Hshape : exists spot,
            ParkingSpot.id spot = currentSpotIds st
            /\ st' = mkStore (parkingLocations st)
                       (JsMap.set (currentSpotIds st) spot (parkingSpots st))
                       (parkingBookings st) (currentLocationIds st)
                       (currentSpotIds st + 1) (currentBookingIds st)).
  { subst st'. destruct bk; cbn; eexists; (split; [|reflexivity]);
      reflexivity. }
  destruct Hshape as (spot & Hid & ->).
  split; [|exact Hndb].
  repeat split; cbn.
  - intros s Hs. apply In_values_set in Hs. destruct Hs as [->|Hs].
    + lia.
    + specialize (I1 s Hs). lia.
  - intros s s' Hs Hs' Heq.
    apply In_values_set in Hs. apply In_values_set in Hs'.
    destruct Hs as [->|Hs]; destruct Hs' as [->|Hs'].
    + reflexivity.
    + specialize (I1 s' Hs'). lia.
    + specialize (I1 s Hs). lia.
    + now apply I2.
  - intros b Hb. specialize (I3 b Hb). lia.
  - intros b s Hb Hs Heq. apply In_values_set in Hs.
    destruct Hs as [->|Hs].
    + specialize (I3 b Hb). lia.
    + now apply I4.
Qed.

Lemma perform_preserves op st :
  isModify op = false ->
  consistent st /\ noDoubleBooking st ->
  consistent (perform (implementation bk) st op)
  /\ noDoubleBooking (perform (implementation bk) st op).
Proof.
  intros Hop Hinv. destruct op as [ins|ins|user env body|?|user bookingId];
    cbn [perform]; [| |  | discriminate |].
  - destruct Hinv as [(I1 & I2 & I3 & I4) Hndb].
    destruct bk; cbn; (split; [repeat split|]); assumption.
  - now apply new_spot_preserves.
  - rewrite run_postBooking.
    destruct (resolver bk _ _ _ st) as [|spot0 rest] eqn:Hres;
      [exact Hinv|].
    destruct (JsMap.get (locationId body) (parkingLocations st))
      as [location|]; [|exact Hinv].
    destruct (accepted body); [|exact Hinv].
    cbn zeta.
    pose proof (new_booking_preserves st user env body spot0 rest location
                  Hres Hinv) as Hnew. cbv zeta in Hnew.
    assert (Hstored :
      consistent
        (snd match JsMap.get (ParkingSpot.id spot0) (parkingSpots st) with
             | None =>
                 (message 500 "Failed to create booking",
                  withNewBooking st
                    (newBooking st user env body spot0 location))
             | Some existing =>
                 (json 201 (newBooking st user env body spot0 location),
                  withSpots
                    (withNewBooking st
                       (newBooking st user env body spot0 location))
                    (JsMap.set (ParkingSpot.id spot0)
                       (withAvailability existing false) (parkingSpots st)))
             end)
      /\ noDoubleBooking
           (snd match JsMap.get (ParkingSpot.id spot0) (parkingSpots st) with
                | None =>
                    (message 500 "Failed to create booking",
                     withNewBooking st
                       (newBooking st user env body spot0 location))
                | Some existing =>
                    (json 201 (newBooking st user env body spot0 location),
                     withSpots
                       (withNewBooking st
                          (newBooking st user env body spot0 location))
                       (JsMap.set (ParkingSpot.id spot0)
                          (withAvailability existing false)
                          (parkingSpots st)))
                end)).
    { destruct (JsMap.get (ParkingSpot.id spot0) (parkingSpots st))
        as [existing|] eqn:Hspot; cbn [snd]; [|exact Hnew].
      apply (flag_update_preserves
               (withNewBooking st (newBooking st user env body spot0 location))
               (ParkingSpot.id spot0) existing false Hspot Hnew). }
    destruct bk; [exact Hstored|].
    destruct (JsMap.get (currentBookingIds st) (parkingBookings st));
      [exact Hinv | exact Hstored].
  - rewrite run_deleteBooking.
    destruct (JsMap.get bookingId (parkingBookings st)) as [b|] eqn:Hb;
      [|exact Hinv].
    destruct (negb (ParkingBooking.userId b =? user)); [exact Hinv|].
    cbn zeta.
    pose proof (cancel_preserves st bookingId b Hb Hinv) as Hcan.
    cbv zeta in Hcan.
    destruct (JsMap.get (ParkingBooking.spotId b) (parkingSpots st))
      as [spot|] eqn:Hspot; cbn [snd]; [|exact Hcan].
    apply (flag_update_preserves
             (withBookings st
                (JsMap.set bookingId (canceled b) (parkingBookings st)))
             (ParkingBooking.spotId b) spot true Hspot Hcan).
Qed.

Lemma performAll_preserves ops : forall st,
  forallb (fun op => negb (isModify op)) ops = true ->
  consistent st /\ noDoubleBooking st ->
  consistent (performAll (implementation bk) ops st)
  /\ noDoubleBooking (performAll (implementation bk) ops st).
Proof.
  induction ops as [|op ops IH]; intros st Hops Hinv; [exact Hinv|].
  cbn in Hops. apply andb_true_iff in Hops. destruct Hops as [Hop Hops].
  apply negb_true_iff in Hop.
  cbn [performAll fold_left]. apply IH; [assumption|].
  now apply perform_preserves.
Qed.

End Preservation.

Lemma new_store_consistent : consistent MemStorage.new /\ noDoubleBooking MemStorage.new.
Proof.
  split.
  - repeat split; cbn; intros; contradiction.
  - intros k1 k2 b1 b2 _ H1. discriminate.
Qed.

(** X28.  The invariant that creation and cancellation keep, whatever
    the bodies of the requests, [Date] instances included: in every
    state reached from the empty store by provisioning, [POST
    /api/bookings] and [DELETE /api/bookings/:id], served one after the
    other, no two distinct bookings of one spot that are pending or
    confirmed overlap.  [PATCH] is left out: it stores whatever spot,
    interval and status it is given. *)
Theorem no_double_booking_without_modify bk ops :
  forallb (fun op => negb (isModify op)) ops = true ->
  noDoubleBooking (performAll (implementation bk) ops MemStorage.new).
Proof.
  intros Hops.
  apply (performAll_preserves bk ops MemStorage.new Hops new_store_consistent).
Qed.

Lemma no_double_booking_without_modify_witness :
  noDoubleBooking
    (performAll storage Scenario.sessionWithDates MemStorage.new).
Proof.
  apply (no_double_booking_without_modify Database Scenario.sessionWithDates).
  reflexivity.
Defined.

(** * Further properties of the storage and of the routes *)

(** ** Keyed maps *)

Section KeyedFacts.
Context {V : Type} (idOf : V -> Z).
Implicit Types (m : JsMap.t V) (k : Z) (v : V).

Lemma get_In_entry k v m : JsMap.get k m = Some v -> In (k, v) m.
Proof.
  induction m as [|[k1 v1] m IH]; simpl; [discriminate|].
  destruct (k =? k1) eqn:E.
  - apply Z.eqb_eq in E. subst k1. intros [= ->]. now left.
  - intros H. right. now apply IH.
Qed.

Lemma get_None_keys k m : JsMap.get k m = None <-> ~ In k (JsMap.keys m).
Proof.
  induction m as [|[k1 v1] m IH]; simpl.
  - split; [intros _ [] | reflexivity].
  - destruct (k =? k1) eqn:E.
    + apply Z.eqb_eq in E. subst k1. split; [discriminate|].
      intros H. exfalso. apply H. now left.
    + apply Z.eqb_neq in E. rewrite IH. split.
      * intros H [H'|H']; [congruence | contradiction].
      * intros H H'. apply H. now right.
Qed.

Lemma set_fresh k v m :
  JsMap.get k m = None -> JsMap.set k v m = (m ++ [(k, v)])%list.
Proof.
  induction m as [|[k1 v1] m IH]; simpl; [reflexivity|].
  destruct (k =? k1); [discriminate|]. intros H. now rewrite IH.
Qed.

Lemma keys_set_present k v v0 m :
  JsMap.get k m = Some v0 -> JsMap.keys (JsMap.set k v m) = JsMap.keys m.
Proof.
  induction m as [|[k1 v1] m IH]; simpl; [discriminate|].
  destruct (k =? k1) eqn:E; simpl.
  - apply Z.eqb_eq in E. now subst k1.
  - intros H. now rewrite IH.
Qed.

Lemma In_set_entry k v k' v' m :
  In (k', v') (JsMap.set k v m) -> (k', v') = (k, v) \/ In (k', v') m.
Proof.
  induction m as [|[k1 v1] m IH]; simpl.
  - intros [H|[]]. left. now symmetry.
  - destruct (k =? k1); simpl.
    + intros [H|H]; [left; now symmetry | right; now right].
    + intros [H|H]; [right; now left|].
      destruct (IH H) as [H'|H']; [now left | right; now right].
Qed.

Lemma set_set k v v' m :
  JsMap.set k v (JsMap.set k v' m) = JsMap.set k v m.
Proof.
  induction m as [|[k1 v1] m IH]; simpl.
  - now rewrite Z.eqb_refl.
  - destruct (k =? k1) eqn:E; simpl.
    + now rewrite Z.eqb_refl.
    + now rewrite E, IH.
Qed.

Lemma values_app m m' :
  JsMap.values (m ++ m')%list = (JsMap.values m ++ JsMap.values m')%list.
Proof. apply map_app. Qed.

Lemma sorted_keys_unique k v m :
  StronglySorted Z.lt (JsMap.keys m) -> In (k, v) m -> JsMap.get k m = Some v.
Proof.
  induction m as [|[k1 v1] m IH]; simpl; [intros _ []|].
  intros Hs Hin. apply StronglySorted_inv in Hs. destruct Hs as [Hs Hall].
  destruct Hin as [[= -> ->]|Hin].
  - now rewrite Z.eqb_refl.
  - destruct (k =? k1) eqn:E.
    + apply Z.eqb_eq in E. subst k1. exfalso.
      rewrite Forall_forall in Hall.
      assert (Hk : In k (JsMap.keys m))
        by (apply (in_map fst) in Hin; exact Hin).
      specialize (Hall k Hk). lia.
    + now apply IH.
Qed.

Lemma keyed_get next k v m :
  keyed idOf next m -> JsMap.get k m = Some v -> idOf v = k /\ k < next.
Proof. intros [_ H] Hget. apply H. now apply get_In_entry. Qed.

Lemma keyed_value next v m :
  keyed idOf next m -> In v (JsMap.values m) -> JsMap.get (idOf v) m = Some v.
Proof.
  intros [Hs H] Hin. apply in_map_iff in Hin.
  destruct Hin as ([k v'] & Heq & Hin). simpl in Heq. subst v'.
  destruct (H k v Hin) as [-> _]. now apply sorted_keys_unique.
Qed.

Lemma keyed_unused next k m :
  keyed idOf next m -> next <= k -> JsMap.get k m = None.
Proof.
  intros [_ H] Hle. destruct (JsMap.get k m) as [v|] eqn:Hget; [|reflexivity].
  apply get_In_entry in Hget. destruct (H k v Hget). lia.
Qed.

Lemma sorted_snoc (l : list Z) next :
  StronglySorted Z.lt l -> Forall (fun k => k < next) l ->
  StronglySorted Z.lt (l ++ [next])%list.
Proof.
  induction 1 as [|k ks Hs IH Hks]; intros Hall; simpl.
  - constructor; constructor.
  - inversion Hall; subst. constructor.
    + now apply IH.
    + apply Forall_app. split; [assumption|]. constructor; [lia|constructor].
Qed.

Lemma keyed_set_new next v m :
  keyed idOf next m -> idOf v = next ->
  keyed idOf (next + 1) (JsMap.set next v m).
Proof.
  intros Hk Hid.
  rewrite (set_fresh next v m) by (apply (keyed_unused next); [assumption|lia]).
  destruct Hk as [Hs H]. split.
  - unfold JsMap.keys in *. rewrite map_app. simpl.
    apply sorted_snoc; [assumption|].
    apply Forall_forall. intros k Hin. apply in_map_iff in Hin.
    destruct Hin as ([k' v'] & Heq & Hin). simpl in Heq. subst k'.
    now destruct (H k v' Hin).
  - intros k v' Hin. apply in_app_or in Hin. destruct Hin as [Hin|[[= <- <-]|[]]].
    + destruct (H k v' Hin). split; [assumption|lia].
    + split; [assumption|lia].
Qed.

Lemma keyed_set_present next k v v0 m :
  keyed idOf next m -> JsMap.get k m = Some v0 -> idOf v = k ->
  keyed idOf next (JsMap.set k v m).
Proof.
  intros [Hs H] Hget Hid. split.
  - now rewrite (keys_set_present k v v0 m Hget).
  - intros k' v' Hin. apply In_set_entry in Hin.
    destruct Hin as [[= -> ->]|Hin].
    + split; [assumption|]. apply get_In_entry in Hget. now destruct (H k v0 Hget).
    + now apply H.
Qed.

Lemma keyed_empty next : keyed idOf next (@JsMap.empty V).
Proof. split; [constructor | intros k v []]. Qed.

(** The values of a keyed map are listed by increasing identifier. *)
Lemma keyed_values_sorted next m :
  keyed idOf next m ->
  StronglySorted (fun a b => idOf a < idOf b) (JsMap.values m).
Proof.
  intros [Hs H]. induction m as [|[k v] m IH]; simpl; [constructor|].
  simpl in Hs. apply StronglySorted_inv in Hs. destruct Hs as [Hs Hall].
  constructor.
  - apply IH; [assumption|]. intros k' v' Hin. apply H. now right.
  - apply Forall_forall. intros v' Hin. apply in_map_iff in Hin.
    destruct Hin as ([k' v''] & Heq & Hin). simpl in Heq. subst v''.
    destruct (H k v (or_introl eq_refl)) as [-> _].
    destruct (H k' v' (or_intror Hin)) as [-> _].
    rewrite Forall_forall in Hall. apply Hall.
    apply (in_map fst) in Hin. exact Hin.
Qed.

End KeyedFacts.

Lemma StronglySorted_filter {A : Type} (R : A -> A -> Prop) (f : A -> bool) l :
  StronglySorted R l -> StronglySorted R (filter f l).
Proof.
  induction 1 as [|a l Hs IH Hall]; simpl; [constructor|].
  destruct (f a); [|assumption]. constructor; [assumption|].
  rewrite Forall_forall in *. intros x Hx. apply filter_In in Hx.
  apply Hall. tauto.
Qed.

(** ** Identifiers *)

Section WellFormed.
Variable bk : Backend.

Lemma wellFormed_new : wellFormed MemStorage.new.
Proof. split; [|split]; apply keyed_empty. Qed.

Lemma wellFormed_withNewBooking st b :
  wellFormed st -> ParkingBooking.id b = currentBookingIds st ->
  wellFormed (withNewBooking st b).
Proof.
  intros (Hl & Hs & Hb) Hid. split; [|split]; cbn;
    [exact Hl | exact Hs | now apply (keyed_set_new ParkingBooking.id)].
Qed.

Lemma wellFormed_flag st k existing flag :
  wellFormed st -> JsMap.get k (parkingSpots st) = Some existing ->
  wellFormed (withSpots st
                (JsMap.set k (withAvailability existing flag) (parkingSpots st))).
Proof.
  intros (Hl & Hs & Hb) Hget. split; [|split]; cbn;
    [exact Hl | | exact Hb].
  apply (keyed_set_present ParkingSpot.id _ k _ existing); try assumption.
  apply (keyed_get ParkingSpot.id _ _ _ _ Hs Hget).
Qed.

Lemma wellFormed_setBooking st k b body :
  wellFormed st -> JsMap.get k (parkingBookings st) = Some b ->
  PartialParkingBooking.id body = None ->
  wellFormed (withBookings st
                (JsMap.set k (MemStorage.mergeBooking b body)
                   (parkingBookings st))).
Proof.
  intros (Hl & Hs & Hb) Hget Hid. split; [|split]; cbn;
    [exact Hl | exact Hs |].
  apply (keyed_set_present ParkingBooking.id _ k _ b); try assumption.
  unfold MemStorage.mergeBooking. cbn [ParkingBooking.id]. rewrite Hid.
  apply (keyed_get ParkingBooking.id _ _ _ _ Hb Hget).
Qed.

Lemma wellFormed_skipBookingId st : wellFormed st -> wellFormed (skipBookingId st).
Proof.
  intros (Hl & Hs & [Hsorted Hb]). split; [|split]; cbn;
    [exact Hl | exact Hs |].
  split; [exact Hsorted|]. intros k v Hin. destruct (Hb k v Hin). split; lia.
Qed.

(** The update of a booking by a body without the key [id]. *)
Lemma wellFormed_update st bookingId body b :
  wellFormed st -> JsMap.get bookingId (parkingBookings st) = Some b ->
  PartialParkingBooking.id body = None ->
  wellFormed (snd (updateParkingBooking (implementation bk) bookingId body st)).
Proof.
  intros Hwf Hget Hid. destruct bk; cbn [implementation updateParkingBooking databaseStorage
                                         memStorage storage].
  - rewrite (updateParkingBooking_Mem bookingId body st b Hget). cbn [snd].
    now apply wellFormed_setBooking.
  - unfold DatabaseStorage.updateParkingBooking.
    destruct (PartialParkingBooking.isEmpty body); [exact Hwf|].
    destruct (PartialParkingBooking.hasStringTime body); [exact Hwf|].
    rewrite Hget, Hid. cbn [spread]. rewrite Z.eqb_refl. cbn [snd].
    now apply wellFormed_setBooking.
Qed.

Lemma perform_wellFormed st op :
  keepsKey op = true ->
  wellFormed st -> wellFormed (perform (implementation bk) st op).
Proof.
  intros Hkey Hwf.
  destruct op as [ins|ins|user env body|user bookingId body|user bookingId];
    cbn [perform].
  - destruct Hwf as (Hl & Hs & Hb).
    destruct bk; (split; [|split]); cbn;
      [now apply (keyed_set_new ParkingLocation.id) | exact Hs | exact Hb
      |now apply (keyed_set_new ParkingLocation.id) | exact Hs | exact Hb].
  - destruct Hwf as (Hl & Hs & Hb).
    destruct bk; (split; [|split]); cbn;
      [exact Hl | now apply (keyed_set_new ParkingSpot.id) | exact Hb
      |exact Hl | now apply (keyed_set_new ParkingSpot.id) | exact Hb].
  - rewrite run_postBooking.
    destruct (resolver bk _ _ _ st) as [|spot0 rest]; [exact Hwf|].
    destruct (JsMap.get (locationId body) (parkingLocations st))
      as [location|]; [|exact Hwf].
    destruct (accepted body); [|exact Hwf].
    cbn zeta.
    rewrite (keyed_unused ParkingBooking.id (currentBookingIds st)
               (currentBookingIds st) (parkingBookings st))
      by (try apply Hwf; lia).
    assert (Hnew : wellFormed
                     (withNewBooking st
                        (newBooking st user env body spot0 location)))
      by now apply wellFormed_withNewBooking.
    assert (Hstored :
      wellFormed
        (snd match JsMap.get (ParkingSpot.id spot0) (parkingSpots st) with
             | None =>
                 (message 500 "Failed to create booking",
                  withNewBooking st
                    (newBooking st user env body spot0 location))
             | Some existing =>
                 (json 201 (newBooking st user env body spot0 location),
                  withSpots
                    (withNewBooking st
                       (newBooking st user env body spot0 location))
                    (JsMap.set (ParkingSpot.id spot0)
                       (withAvailability existing false) (parkingSpots st)))
             end)).
    { destruct (JsMap.get (ParkingSpot.id spot0) (parkingSpots st))
        as [existing|] eqn:Hspot; cbn [snd]; [|exact Hnew].
      now apply (wellFormed_flag
                   (withNewBooking st
                      (newBooking st user env body spot0 location))). }
    destruct bk; exact Hstored.
  - rewrite run_patchBooking.
    destruct (JsMap.get bookingId (parkingBookings st)) as [b|] eqn:Hb;
      [|exact Hwf].
    destruct (negb (ParkingBooking.userId b =? user)); [exact Hwf|].
    cbn [keepsKey] in Hkey.
    assert (Hid : PartialParkingBooking.id body = None)
      by (destruct (PartialParkingBooking.id body); [discriminate|reflexivity]).
    pose proof (wellFormed_update st bookingId body b Hwf Hb Hid) as Hup.
    destruct (updateParkingBooking (implementation bk) bookingId body st)
      as [[updated|text] st']; exact Hup.
  - rewrite run_deleteBooking.
    destruct (JsMap.get bookingId (parkingBookings st)) as [b|] eqn:Hb;
      [|exact Hwf].
    destruct (negb (ParkingBooking.userId b =? user)); [exact Hwf|].
    cbn zeta.
    assert (Hcan : wellFormed
                     (withBookings st
                        (JsMap.set bookingId (canceled b) (parkingBookings st))))
      by now apply (wellFormed_setBooking st bookingId b canceledUpdate).
    destruct (JsMap.get (ParkingBooking.spotId b) (parkingSpots st))
      as [spot|] eqn:Hspot; cbn [snd]; [|exact Hcan].
    now apply (wellFormed_flag
                 (withBookings st
                    (JsMap.set bookingId (canceled b) (parkingBookings st)))).
Qed.

Lemma performAll_wellFormed ops : forall st,
  forallb keepsKey ops = true ->
  wellFormed st -> wellFormed (performAll (implementation bk) ops st).
Proof.
  induction ops as [|op ops IH]; intros st Hkey Hwf; [exact Hwf|].
  cbn in Hkey. apply andb_true_iff in Hkey. destruct Hkey as [Hop Hkey].
  cbn [performAll fold_left]. apply IH; [exact Hkey|].
  now apply perform_wellFormed.
Qed.

End WellFormed.

(** X1.  Whatever provisioning, creation, modification and
    cancellation operations were served since the empty store, as long
    as no body of a [PATCH] carries the key [id] (the handler passes
    the body on as it is, and both backends would write that key):
    every location, spot and booking is found under its own identifier,
    and no identifier from the counter upwards is in use, so that the
    next creation overwrites nothing. *)
Theorem identifiers_never_collide bk ops :
  forallb keepsKey ops = true ->
  let st := performAll (implementation bk) ops MemStorage.new in
  (forall k b, JsMap.get k (parkingBookings st) = Some b ->
               ParkingBooking.id b = k /\ k < currentBookingIds st)
  /\ (forall k s, JsMap.get k (parkingSpots st) = Some s ->
                  ParkingSpot.id s = k /\ k < currentSpotIds st)
  /\ (forall k l, JsMap.get k (parkingLocations st) = Some l ->
                  ParkingLocation.id l = k /\ k < currentLocationIds st)
  /\ (forall k, currentBookingIds st <= k ->
                JsMap.get k (parkingBookings st) = None)
  /\ (forall k, currentSpotIds st <= k ->
                JsMap.get k (parkingSpots st) = None).
Proof.
  intros Hkey. cbv zeta.
  destruct (performAll_wellFormed bk ops MemStorage.new Hkey wellFormed_new)
    as (Hl & Hs & Hb).
  split; [intros k b; apply (keyed_get ParkingBooking.id); assumption|].
  split; [intros k s; apply (keyed_get ParkingSpot.id); assumption|].
  split; [intros k l; apply (keyed_get ParkingLocation.id); assumption|].
  split; intros k Hk.
  - now apply (keyed_unused ParkingBooking.id _ _ _ Hb).
  - now apply (keyed_unused ParkingSpot.id _ _ _ Hs).
Qed.

Lemma identifiers_never_collide_witness :
  JsMap.get 3
    (parkingBookings
       (performAll storage
          (Scenario.sessionWithDates
           ++ [ModifyBooking Scenario.bob 2 (Scenario.statusUpdate "pending")])
          MemStorage.new)) = None.
Proof.
  apply (identifiers_never_collide Database
           (Scenario.sessionWithDates
            ++ [ModifyBooking Scenario.bob 2 (Scenario.statusUpdate "pending")])
           eq_refl).
  vm_compute. discriminate.
Defined.

(** ** The resolver and the handlers on well-formed stores *)

Lemma resolver_sorted l s e st :
  wellFormed st ->
  StronglySorted (fun a b => ParkingSpot.id a < ParkingSpot.id b)
                 (MemStorage.getAvailableParkingSpots l s e st).
Proof.
  intros (_ & Hs & _).
  pose proof (keyed_values_sorted ParkingSpot.id _ _ Hs) as Hsorted.
  unfold MemStorage.getAvailableParkingSpots,
    MemStorage.getParkingSpotsByLocationId.
  now repeat apply StronglySorted_filter.
Qed.

(** X2.  With [MemStorage], whose maps list their entries in the order
    of insertion, the resolver answers on a well-formed store with the
    eligible spots by increasing identifier, so that the spot
    [availableSpots[0]] for which [POST /api/bookings] creates its
    booking is the eligible spot with the lowest identifier.
    ([DatabaseStorage] selects without [ORDER BY]; nothing is stated of
    the order of its answer.) *)
Theorem booking_takes_lowest_spot st user env body spot0 rest :
  wellFormed st ->
  MemStorage.getAvailableParkingSpots
    (locationId body) (startTime body) (endTime body) st = spot0 :: rest ->
  (forall spot, In spot rest -> ParkingSpot.id spot0 < ParkingSpot.id spot)
  /\ (forall b st',
        run (postBooking memStorage user env body) st = (json 201 b, st') ->
        ParkingBooking.spotId b = ParkingSpot.id spot0).
Proof.
  intros Hwf Hres.
  pose proof (resolver_sorted (locationId body) (startTime body)
                (endTime body) st Hwf) as Hsorted.
  rewrite Hres in Hsorted.
  apply StronglySorted_inv in Hsorted. destruct Hsorted as [_ Hall].
  split.
  - intros spot Hin. rewrite Forall_forall in Hall. now apply Hall.
  - intros b st' Hrun.
    change memStorage with (implementation Mem) in Hrun.
    rewrite run_postBooking, resolver_Mem, Hres in Hrun.
    destruct (JsMap.get (locationId body) (parkingLocations st));
      [|discriminate].
    destruct (accepted body); [|discriminate].
    cbn zeta in Hrun.
    destruct (JsMap.get (ParkingSpot.id spot0) (parkingSpots st));
      [|discriminate].
    injection Hrun as <- _. reflexivity.
Qed.

Lemma booking_takes_lowest_spot_witness :
  ParkingSpot.id (Scenario.a1 true)
  < ParkingSpot.id
      (ParkingSpot.mk 2 1 "A1" (Some "1") (Some "A") (Some true)
         (Some "standard")).
Proof.
  refine (proj1 (booking_takes_lowest_spot (Scenario.twoSpots memStorage)
            Scenario.alice Scenario.env Scenario.afternoon
            (Scenario.a1 true)
            [ParkingSpot.mk 2 1 "A1" (Some "1") (Some "A") (Some true)
               (Some "standard")]
            (performAll_wellFormed Mem
               [ProvisionLocation Scenario.lot; ProvisionSpot Scenario.spotA1;
                ProvisionSpot Scenario.spotA1]
               MemStorage.new eq_refl wellFormed_new)
            eq_refl) _ _).
  left. reflexivity.
Defined.

(** X3.  Widening the requested interval can only remove spots from
    the answer of the resolver, in both backends. *)
Theorem wider_interval_fewer_spots bk st l t0 t1 t0' t1' spot :
  t0' <= t0 -> t1 <= t1' ->
  In spot (resolver bk l t0' t1' st) -> In spot (resolver bk l t0 t1 st).
Proof.
  intros H0 H1. rewrite !In_resolver.
  intros (Hin & Hl & Hav & Hno). repeat split; try assumption.
  intros b Hb. specialize (Hno b Hb).
  apply conflicts_false. intros Hbl Ha Hs [Hst Hen].
  apply (proj1 (conflicts_false bk l t0' t1' spot b) Hno); try assumption.
  split; lia.
Qed.

Lemma wider_interval_fewer_spots_witness :
  In (Scenario.a1 true)
     (resolver Database 1 (15 * Scenario.hour) (16 * Scenario.hour)
        (Scenario.provisioned storage)).
Proof.
  apply (wider_interval_fewer_spots Database (Scenario.provisioned storage) 1
           (15 * Scenario.hour) (16 * Scenario.hour)
           (14 * Scenario.hour) (17 * Scenario.hour)).
  - vm_compute. discriminate.
  - vm_compute. discriminate.
  - vm_compute. now left.
Defined.

(** What a [201] of [POST /api/bookings] tells on a well-formed store. *)
Lemma postBooking_created bk st user env body b st' :
  wellFormed st ->
  run (postBooking (implementation bk) user env body) st = (json 201 b, st') ->
  exists spot0 rest location,
    resolver bk (locationId body) (startTime body) (endTime body) st
    = spot0 :: rest
    /\ JsMap.get (ParkingSpot.id spot0) (parkingSpots st) = Some spot0
    /\ ParkingSpot.isAvailable spot0 = Some true
    /\ b = newBooking st user env body spot0 location
    /\ st' = withSpots (withNewBooking st b)
               (JsMap.set (ParkingSpot.id spot0)
                  (withAvailability spot0 false) (parkingSpots st)).
Proof.
  intros (_ & Hs & Hbk) Hrun. rewrite run_postBooking in Hrun.
  destruct (resolver bk _ _ _ st) as [|spot0 rest] eqn:Hres; [discriminate|].
  destruct (JsMap.get (locationId body) (parkingLocations st))
    as [location|]; [|discriminate].
  destruct (accepted body); [|discriminate].
  cbn zeta in Hrun.
  assert (Hin : In spot0 (resolver bk (locationId body) (startTime body)
                            (endTime body) st))
    by (rewrite Hres; now left).
  apply In_resolver in Hin. destruct Hin as (Hin & _ & Hav & _).
  rewrite (keyed_unused ParkingBooking.id _ _ _ Hbk (Z.le_refl _)),
    (keyed_value ParkingSpot.id _ _ _ Hs Hin) in Hrun.
  assert (Hrun' :
    (json 201 (newBooking st user env body spot0 location),
     withSpots (withNewBooking st (newBooking st user env body spot0 location))
       (JsMap.set (ParkingSpot.id spot0) (withAvailability spot0 false)
          (parkingSpots st))) = (json 201 b, st'))
    by (destruct bk; exact Hrun).
  clear Hrun. injection Hrun' as <- <-.
  exists spot0, rest, location.
  split; [reflexivity|]. split; [now apply (keyed_value ParkingSpot.id _ _ _ Hs)|].
  repeat split. exact Hav.
Qed.

Lemma withAvailability_back spot flag :
  ParkingSpot.isAvailable spot = Some true ->
  withAvailability (withAvailability spot flag) true = spot.
Proof. destruct spot; cbn. intros ->. reflexivity. Qed.

(** A booking that a backend does not count changes no answer of its
    resolver. *)
Lemma resolver_append_inactive bk l t0 t1 st st' c :
  parkingSpots st' = parkingSpots st ->
  JsMap.values (parkingBookings st')
  = (JsMap.values (parkingBookings st) ++ [c])%list ->
  activeFor bk (ParkingBooking.status c) = false ->
  resolver bk l t0 t1 st' = resolver bk l t0 t1 st.
Proof.
  intros Hspots Hbookings Hinactive. destruct bk.
  - rewrite !resolver_Mem.
    unfold MemStorage.getAvailableParkingSpots,
      MemStorage.getParkingSpotsByLocationId.
    rewrite Hspots, Hbookings, filter_app. cbn [filter].
    unfold activeFor in Hinactive.
    rewrite <- andb_assoc, Hinactive, andb_false_r, app_nil_r. reflexivity.
  - rewrite !resolver_Database.
    unfold DatabaseStorage.getAvailableParkingSpots,
      DatabaseStorage.getParkingSpotsByLocationId.
    rewrite Hspots, Hbookings, filter_app. cbn [filter].
    unfold activeFor in Hinactive.
    rewrite Hinactive, andb_false_r. cbn [andb]. rewrite app_nil_r.
    reflexivity.
Qed.

(** X4.  On a well-formed store, cancelling a booking for which
    [POST /api/bookings] has just answered [201] (its request carried
    [Date] instances) is answered [204] and gives back the spots as
    they were: every spot and every location is stored as before, both
    resolvers offer the same spots for every request as before the
    booking, and the booking stays on record as canceled. *)
Theorem book_then_cancel_restores bk st user env body b st1 :
  wellFormed st ->
  run (postBooking (implementation bk) user env body) st = (json 201 b, st1) ->
  let out :=
    run (deleteBooking (implementation bk) user (ParkingBooking.id b)) st1 in
  fst out = noBody 204
  /\ (forall k, JsMap.get k (parkingSpots (snd out))
                = JsMap.get k (parkingSpots st))
  /\ (forall k, JsMap.get k (parkingLocations (snd out))
                = JsMap.get k (parkingLocations st))
  /\ JsMap.get (ParkingBooking.id b) (parkingBookings (snd out))
     = Some (canceled b)
  /\ (forall k, k <> ParkingBooking.id b ->
        JsMap.get k (parkingBookings (snd out))
        = JsMap.get k (parkingBookings st))
  /\ forall bk' l t0 t1 spot,
       In spot (resolver bk' l t0 t1 (snd out))
       <-> In spot (resolver bk' l t0 t1 st).
Proof.
  intros Hwf Hrun.
  destruct (postBooking_created bk st user env body b st1 Hwf Hrun)
    as (spot0 & rest & location & _ & Hget & Hav & Hb & ->).
  cbv zeta. rewrite run_deleteBooking. cbn [parkingBookings withSpots
    withNewBooking parkingSpots].
  assert (Hid : ParkingBooking.id b = currentBookingIds st)
    by (rewrite Hb; reflexivity).
  assert (Huser : ParkingBooking.userId b = user) by (rewrite Hb; reflexivity).
  assert (Hspot : ParkingBooking.spotId b = ParkingSpot.id spot0)
    by (rewrite Hb; reflexivity).
  rewrite Hid, get_set_same, Huser, Z.eqb_refl. cbn [negb]. cbn zeta.
  rewrite Hspot, get_set_same. cbn [fst snd].
  rewrite !set_set, (withAvailability_back spot0 false Hav),
    (set_get_same _ _ _ Hget).
  destruct Hwf as (_ & _ & Hbk).
  assert (Hfresh : JsMap.get (currentBookingIds st) (parkingBookings st) = None)
    by (apply (keyed_unused ParkingBooking.id _ _ _ Hbk); lia).
  split; [reflexivity|]. split; [reflexivity|]. split; [reflexivity|].
  split; [cbn; apply get_set_same|].
  split.
  - intros k Hk. cbn. now apply get_set_other.
  - intros bk' l t0 t1 spot.
    rewrite (resolver_append_inactive bk' l t0 t1 st _ (canceled b));
      [reflexivity | reflexivity | | destruct bk'; reflexivity].
    unfold JsMap.values. cbn.
    rewrite (set_fresh _ _ _ Hfresh), map_app. reflexivity.
Qed.

Lemma book_then_cancel_restores_witness :
  In (Scenario.a1 true)
     (resolver Database 1 (14 * Scenario.hour) (17 * Scenario.hour)
        (snd (run (deleteBooking storage Scenario.alice 1)
                (Scenario.booked storage))))
  <-> In (Scenario.a1 true)
         (resolver Database 1 (14 * Scenario.hour) (17 * Scenario.hour)
            (Scenario.provisioned storage)).
Proof.
  pose proof (book_then_cancel_restores Database (Scenario.provisioned storage)
                Scenario.alice Scenario.env (withDates Scenario.afternoon)
                (newBooking (Scenario.provisioned storage) Scenario.alice
                   Scenario.env Scenario.afternoon (Scenario.a1 true)
                   (ParkingLocation.mk 1 "Central Metro Parking"
                      "123 Main Street, City Center" 0 0 1 5 None (Some 0)
                      (Some true)))
                (Scenario.booked storage)
                (performAll_wellFormed Database
                   [ProvisionLocation Scenario.lot;
                    ProvisionSpot Scenario.spotA1]
                   MemStorage.new eq_refl wellFormed_new)
                eq_refl) as H.
  exact (proj2 (proj2 (proj2 (proj2 (proj2 H)))) Database 1
           (14 * Scenario.hour) (17 * Scenario.hour) (Scenario.a1 true)).
Defined.

(** X5.  On a well-formed store, once [POST /api/bookings] has
    answered [201] (its request carried [Date] instances), neither
    resolver offers the booked spot for any location and any interval:
    the flag hides it whatever the request. *)
Theorem booked_spot_not_offered bk st user env body b st' :
  wellFormed st ->
  run (postBooking (implementation bk) user env body) st = (json 201 b, st') ->
  forall bk' l t0 t1 spot,
    In spot (resolver bk' l t0 t1 st') ->
    ParkingSpot.id spot <> ParkingBooking.spotId b.
Proof.
  intros Hwf Hrun bk' l t0 t1 spot Hin Heq.
  assert (Hwf' : wellFormed st').
  { change st' with (snd (json 201 b, st')). rewrite <- Hrun.
    apply (perform_wellFormed bk st (CreateBooking user env body) eq_refl Hwf). }
  destruct (postBooking_created bk st user env body b st' Hwf Hrun)
    as (spot0 & rest & location & _ & Hget & Hav & Hb & Hst).
  apply In_resolver in Hin. destruct Hin as (Hin & _ & Hflag & _).
  destruct Hwf' as (_ & Hs' & _).
  pose proof (keyed_value ParkingSpot.id _ _ _ Hs' Hin) as Hstored.
  rewrite Heq, Hb, Hst in Hstored. cbn in Hstored.
  rewrite get_set_same in Hstored. injection Hstored as <-.
  discriminate.
Qed.

Lemma booked_spot_not_offered_witness :
  ParkingSpot.id
    (ParkingSpot.mk 2 1 "A1" (Some "1") (Some "A") (Some true) (Some "standard"))
  <> 1.
Proof.
  refine (booked_spot_not_offered Mem (Scenario.twoSpots memStorage)
            Scenario.alice Scenario.env (withDates Scenario.afternoon)
            (newBooking (Scenario.twoSpots memStorage) Scenario.alice
               Scenario.env Scenario.afternoon (Scenario.a1 true)
               (ParkingLocation.mk 1 "Central Metro Parking"
                  "123 Main Street, City Center" 0 0 1 5 None (Some 0)
                  (Some true)))
            (performAll memStorage
               [CreateBooking Scenario.alice Scenario.env
                  (withDates Scenario.afternoon)]
               (Scenario.twoSpots memStorage))
            (performAll_wellFormed Mem
               [ProvisionLocation Scenario.lot; ProvisionSpot Scenario.spotA1;
                ProvisionSpot Scenario.spotA1]
               MemStorage.new eq_refl wellFormed_new)
            eq_refl
            Mem 1 (14 * Scenario.hour) (17 * Scenario.hour)
            (ParkingSpot.mk 2 1 "A1" (Some "1") (Some "A") (Some true)
               (Some "standard")) _).
  apply (nth_error_In _ 0). vm_compute. reflexivity.
Defined.

(** X6.  On a well-formed store [POST /api/bookings] is all or
    nothing: either it answers [201] and the booking is stored, or it
    answers [NoAvailability], [LocationNotFound] or
    [400 Invalid booking data] and the store is unchanged.  No [500]
    comes from the state of the store. *)
Theorem booking_all_or_nothing bk st user env body :
  wellFormed st ->
  let out := run (postBooking (implementation bk) user env body) st in
  (exists b,
     fst out = json 201 b
     /\ JsMap.get (ParkingBooking.id b) (parkingBookings (snd out)) = Some b)
  \/ (snd out = st
      /\ (fst out = NoAvailability \/ fst out = LocationNotFound
          \/ fst out = InvalidBookingData)).
Proof.
  intros (_ & Hs & Hbk). cbv zeta. rewrite run_postBooking.
  destruct (resolver bk _ _ _ st) as [|spot0 rest] eqn:Hres;
    [right; split; [reflexivity | now left]|].
  destruct (JsMap.get (locationId body) (parkingLocations st))
    as [location|]; [|right; split; [reflexivity | right; now left]].
  destruct (accepted body);
    [|right; split; [reflexivity | right; now right]].
  cbn zeta.
  assert (Hin : In spot0 (resolver bk (locationId body) (startTime body)
                            (endTime body) st))
    by (rewrite Hres; now left).
  apply In_resolver in Hin. destruct Hin as (Hin & _).
  rewrite (keyed_unused ParkingBooking.id _ _ _ Hbk (Z.le_refl _)),
    (keyed_value ParkingSpot.id _ _ _ Hs Hin).
  left. destruct bk; (eexists; split; [reflexivity|]; cbn; apply get_set_same).
Qed.

Lemma booking_all_or_nothing_witness :
  let out := run (postBooking storage Scenario.bob Scenario.env
                    Scenario.withinAfternoon) (Scenario.provisioned storage) in
  (exists b,
     fst out = json 201 b
     /\ JsMap.get (ParkingBooking.id b) (parkingBookings (snd out)) = Some b)
  \/ (snd out = Scenario.provisioned storage
      /\ (fst out = NoAvailability \/ fst out = LocationNotFound
          \/ fst out = InvalidBookingData)).
Proof.
  exact (booking_all_or_nothing Database (Scenario.provisioned storage)
           Scenario.bob Scenario.env Scenario.withinAfternoon
           (performAll_wellFormed Database
              [ProvisionLocation Scenario.lot; ProvisionSpot Scenario.spotA1]
              MemStorage.new eq_refl wellFormed_new)).
Defined.

(** ** Modifying a booking *)

Lemma mergeBooking_twice b body :
  MemStorage.mergeBooking (MemStorage.mergeBooking b body) body
  = MemStorage.mergeBooking b body.
Proof.
  assert (Hspread : forall (A : Type) (x : A) (u : option A),
            spread (spread x u) u = spread x u)
    by (intros A x [a|]; reflexivity).
  destruct b, body. unfold MemStorage.mergeBooking.
  cbn [ParkingBooking.id ParkingBooking.userId ParkingBooking.vehicleId
       ParkingBooking.spotId ParkingBooking.locationId ParkingBooking.startTime
       ParkingBooking.endTime ParkingBooking.status ParkingBooking.bookingCode
       ParkingBooking.totalAmount ParkingBooking.createdAt
       ParkingBooking.isFavorite
       PartialParkingBooking.id
       PartialParkingBooking.userId PartialParkingBooking.vehicleId
       PartialParkingBooking.spotId PartialParkingBooking.locationId
       PartialParkingBooking.startTime PartialParkingBooking.endTime
       PartialParkingBooking.status PartialParkingBooking.bookingCode
       PartialParkingBooking.totalAmount PartialParkingBooking.createdAt
       PartialParkingBooking.isFavorite].
  now rewrite !Hspread.
Qed.

Lemma get_rekey_gone {V : Type} k k' (v : V) m :
  k' <> k -> JsMap.get k (JsMap.rekey k k' v m) = None.
Proof.
  intros Hne. induction m as [|[k1 v1] m IH]; [reflexivity|].
  unfold JsMap.rekey in *. cbn [map fst].
  destruct (k1 =? k) eqn:E; cbn [JsMap.get].
  - assert (Hk : (k =? k') = false) by (apply Z.eqb_neq; congruence).
    rewrite Hk. exact IH.
  - rewrite Z.eqb_sym, E. exact IH.
Qed.

Lemma updateParkingBooking_of_Mem bookingId body st :
  updateParkingBooking (implementation Mem) bookingId body st
  = MemStorage.updateParkingBooking bookingId body st.
Proof. reflexivity. Qed.

Lemma updateParkingBooking_of_Database bookingId body st :
  updateParkingBooking (implementation Database) bookingId body st
  = DatabaseStorage.updateParkingBooking bookingId body st.
Proof. reflexivity. Qed.

(** What [PATCH /api/bookings/:id] leaves in the store. *)
Lemma patchBooking_store bk user bookingId body st :
  snd (run (patchBooking (implementation bk) user bookingId body) st) =
  match JsMap.get bookingId (parkingBookings st) with
  | None => st
  | Some b =>
      if negb (ParkingBooking.userId b =? user) then st
      else snd (updateParkingBooking (implementation bk) bookingId body st)
  end.
Proof.
  rewrite run_patchBooking.
  destruct (JsMap.get bookingId (parkingBookings st)) as [b|]; [|reflexivity].
  destruct (negb (ParkingBooking.userId b =? user)); [reflexivity|].
  destruct (updateParkingBooking (implementation bk) bookingId body st)
    as [[updated|text] st']; reflexivity.
Qed.

(** A storage failure leaves the store as it was. *)
Lemma updateParkingBooking_Throw bk bookingId body st text st' :
  updateParkingBooking (implementation bk) bookingId body st = (Throw text, st') ->
  st' = st.
Proof.
  destruct bk; cbn [implementation updateParkingBooking memStorage
                    databaseStorage storage].
  - unfold MemStorage.updateParkingBooking.
    destruct (JsMap.get bookingId (parkingBookings st)); congruence.
  - unfold DatabaseStorage.updateParkingBooking.
    destruct (PartialParkingBooking.isEmpty body); [congruence|].
    destruct (PartialParkingBooking.hasStringTime body); [congruence|].
    destruct (JsMap.get bookingId (parkingBookings st)); [|congruence].
    destruct (_ =? bookingId); [congruence|].
    destruct (JsMap.get _ (parkingBookings st)); congruence.
Qed.

(** X7.  [PATCH /api/bookings/:id] answers [404] exactly when no
    booking has the identifier and [403] exactly when the booking
    belongs to another user; whenever its answer is not [200] the store
    is unchanged.  The body is one whose fields have the types of the
    columns, a time being a string or a [Date].  For the owner,
    [DatabaseStorage] fails on a body that sets nothing or carries a
    time as a string, and the answer is [500]; otherwise, with
    [MemStorage], or when the body leaves the key [id] and the amount
    alone, the booking is stored with the fields of the body written
    over it and the answer is [200], no other booking changing.  No
    spot, no flag and no location ever changes, also when the body
    sets the status to canceled. *)
Theorem patch_semantics bk st user bookingId body :
  let out := run (patchBooking (implementation bk) user bookingId body) st in
  (fst out = NotFound <-> JsMap.get bookingId (parkingBookings st) = None)
  /\ (fst out = message 403 "Not authorized to modify this booking" <->
      exists b, JsMap.get bookingId (parkingBookings st) = Some b
                /\ ParkingBooking.userId b <> user)
  /\ (statusOf (fst out) <> 200 -> snd out = st)
  /\ (forall b,
        JsMap.get bookingId (parkingBookings st) = Some b ->
        ParkingBooking.userId b = user ->
        if unwritable bk body
        then fst out = message 500 "Failed to update booking"
        else
          (bk = Mem
           \/ (PartialParkingBooking.id body = None
               /\ PartialParkingBooking.totalAmount body = None) ->
           fst out = json 200 (MemStorage.mergeBooking b body)
           /\ JsMap.get bookingId (parkingBookings (snd out))
              = Some (MemStorage.mergeBooking b body)
           /\ forall k, k <> bookingId ->
                JsMap.get k (parkingBookings (snd out))
                = JsMap.get k (parkingBookings st)))
  /\ parkingSpots (snd out) = parkingSpots st
  /\ parkingLocations (snd out) = parkingLocations st.
Proof.
  cbv zeta.
  assert (Hkeeps : forall st',
            st' = snd (updateParkingBooking (implementation bk) bookingId
                         body st) ->
            parkingSpots st' = parkingSpots st
            /\ parkingLocations st' = parkingLocations st).
  { intros st' ->.
    destruct bk; cbn [implementation updateParkingBooking memStorage
                      databaseStorage storage].
    - unfold MemStorage.updateParkingBooking.
      destruct (JsMap.get bookingId (parkingBookings st)); split; reflexivity.
    - unfold DatabaseStorage.updateParkingBooking.
      destruct (PartialParkingBooking.isEmpty body); [split; reflexivity|].
      destruct (PartialParkingBooking.hasStringTime body);
        [split; reflexivity|].
      destruct (JsMap.get bookingId (parkingBookings st));
        [|split; reflexivity].
      destruct (_ =? bookingId); [split; reflexivity|].
      destruct (JsMap.get _ (parkingBookings st)); split; reflexivity. }
  rewrite run_patchBooking.
  destruct (JsMap.get bookingId (parkingBookings st)) as [b|] eqn:Hb.
  - destruct (ParkingBooking.userId b =? user) eqn:Hu; cbn [negb fst snd].
    + apply Z.eqb_eq in Hu.
      destruct (updateParkingBooking (implementation bk) bookingId body st)
        as [[updated|text] st'] eqn:Hup; cbn [fst snd].
      * split; [split; discriminate|].
        split; [split; [discriminate|]|].
        { intros (b0 & [= <-] & Hne). contradiction. }
        split; [intros H; now contradiction H|].
        split; [|exact (Hkeeps st' eq_refl)].
        intros b0 [= <-] _.
        destruct bk; cbn [unwritable implementation updateParkingBooking
                          memStorage databaseStorage storage] in *.
        -- intros _.
           rewrite (updateParkingBooking_Mem bookingId body st b Hb) in Hup.
           injection Hup as <- <-. split; [reflexivity|]. cbn.
           split; [apply get_set_same|]. intros k Hk. now apply get_set_other.
        -- unfold DatabaseStorage.updateParkingBooking in Hup.
           destruct (PartialParkingBooking.isEmpty body); [discriminate|].
           destruct (PartialParkingBooking.hasStringTime body); [discriminate|].
           cbn [orb]. intros [Hmem|[Hid _]]; [discriminate|].
           rewrite Hb, Hid in Hup. cbn [spread] in Hup.
           rewrite Z.eqb_refl in Hup.
           injection Hup as <- <-. split; [reflexivity|]. cbn.
           split; [apply get_set_same|]. intros k Hk. now apply get_set_other.
      * apply updateParkingBooking_Throw in Hup as Hst. subst st'.
        split; [split; discriminate|].
        split; [split; [discriminate|]|].
        { intros (b0 & [= <-] & Hne). contradiction. }
        split; [reflexivity|].
        split; [|split; reflexivity].
        intros b0 [= <-] _.
        destruct bk; cbn [unwritable implementation updateParkingBooking
                          memStorage databaseStorage storage] in *.
        -- rewrite (updateParkingBooking_Mem bookingId body st b Hb) in Hup.
           discriminate.
        -- unfold DatabaseStorage.updateParkingBooking in Hup.
           destruct (PartialParkingBooking.isEmpty body); [reflexivity|].
           destruct (PartialParkingBooking.hasStringTime body); [reflexivity|].
           cbn [orb]. intros [Hmem|[Hid _]]; [discriminate|].
           rewrite Hb, Hid in Hup. cbn [spread] in Hup.
           rewrite Z.eqb_refl in Hup. discriminate.
    + apply Z.eqb_neq in Hu.
      split; [split; discriminate|].
      split; [split; [intros _; now exists b | reflexivity]|].
      split; [reflexivity|].
      split; [|split; reflexivity].
      intros b0 [= <-] Hown. contradiction.
  - cbn [fst snd].
    split; [split; reflexivity|].
    split; [split; [discriminate | intros (b0 & Hb0 & _); discriminate]|].
    split; [reflexivity|].
    split; [|split; reflexivity].
    intros b0 Hb0. discriminate.
Qed.

Lemma patch_semantics_witness :
  let out := run (patchBooking storage Scenario.alice 1
                    (Scenario.statusUpdate "canceled"))
                 (Scenario.booked storage) in
  statusOf (fst out) = 200
  /\ flagOf (snd out) 1 = Some false.
Proof.
  destruct (patch_semantics Database (Scenario.booked storage) Scenario.alice 1
              (Scenario.statusUpdate "canceled"))
    as (_ & _ & _ & Hown & Hspots & _).
  destruct (Hown (newBooking (Scenario.provisioned storage) Scenario.alice
                    Scenario.env Scenario.afternoon (Scenario.a1 true)
                    (ParkingLocation.mk 1 "Central Metro Parking"
                       "123 Main Street, City Center" 0 0 1 5 None (Some 0)
                       (Some true)))
                 eq_refl eq_refl (or_intror (conj eq_refl eq_refl)))
    as (Hresp & _).
  cbv zeta. split.
  - change (implementation Database) with storage in Hresp.
    rewrite Hresp. reflexivity.
  - unfold flagOf. change (implementation Database) with storage in Hspots.
    rewrite Hspots. reflexivity.
Defined.

(** X8.  [PATCH /api/bookings/:id] is idempotent on the store: sending
    the same body twice leaves the store as sending it once, for every
    body whose fields have the types of the columns (a time being a
    string or a [Date]), the key [id] among them, also when the body
    gives the booking to another user or another key, and also when the
    storage refuses it. *)
Theorem patch_idempotent bk st user bookingId body :
  let once := snd (run (patchBooking (implementation bk) user bookingId body) st) in
  snd (run (patchBooking (implementation bk) user bookingId body) once) = once.
Proof.
  cbv zeta. rewrite (patchBooking_store bk user bookingId body st).
  destruct (JsMap.get bookingId (parkingBookings st)) as [b|] eqn:Hb;
    [|now rewrite patchBooking_store, Hb].
  destruct (negb (ParkingBooking.userId b =? user)) eqn:Hu;
    [now rewrite patchBooking_store, Hb, Hu|].
  assert (Hwritten :
    (bk = Database ->
     PartialParkingBooking.isEmpty body = false
     /\ PartialParkingBooking.hasStringTime body = false
     /\ spread bookingId (PartialParkingBooking.id body) = bookingId) ->
    let once := withBookings st
                  (JsMap.set bookingId (MemStorage.mergeBooking b body)
                     (parkingBookings st)) in
    snd (run (patchBooking (implementation bk) user bookingId body) once)
    = once).
  { intros Hdb once.
    rewrite patchBooking_store. subst once. cbn [parkingBookings withBookings].
    rewrite get_set_same.
    destruct (negb (ParkingBooking.userId (MemStorage.mergeBooking b body)
                    =? user)); [reflexivity|].
    destruct bk.
    - rewrite updateParkingBooking_of_Mem.
      unfold MemStorage.updateParkingBooking.
      cbn [parkingBookings withBookings]. rewrite get_set_same. cbn [snd].
      unfold withBookings. cbn.
      now rewrite set_set, mergeBooking_twice.
    - destruct (Hdb eq_refl) as (He & Hs & Hid').
      rewrite updateParkingBooking_of_Database.
      unfold DatabaseStorage.updateParkingBooking.
      rewrite He, Hs. cbn [parkingBookings withBookings].
      rewrite get_set_same, Hid', Z.eqb_refl. cbn [snd].
      unfold withBookings. cbn.
      now rewrite set_set, mergeBooking_twice. }
  assert (Hrefused :
    snd (updateParkingBooking (implementation bk) bookingId body st) = st ->
    snd (run (patchBooking (implementation bk) user bookingId body) st) = st).
  { intros Hst. now rewrite patchBooking_store, Hb, Hu. }
  destruct bk.
  - rewrite updateParkingBooking_of_Mem,
      (updateParkingBooking_Mem bookingId body st b Hb). cbn [snd].
    apply Hwritten. discriminate.
  - rewrite updateParkingBooking_of_Database in *.
    unfold DatabaseStorage.updateParkingBooking in *.
    destruct (PartialParkingBooking.isEmpty body) eqn:He;
      [now apply Hrefused|].
    destruct (PartialParkingBooking.hasStringTime body) eqn:Hs;
      [now apply Hrefused|].
    rewrite Hb in *.
    destruct (spread bookingId (PartialParkingBooking.id body) =? bookingId)
      eqn:Hkey.
    { cbn [snd]. apply Z.eqb_eq in Hkey. apply Hwritten. now intros _. }
    apply Z.eqb_neq in Hkey.
    destruct (JsMap.get (spread bookingId (PartialParkingBooking.id body))
                (parkingBookings st)) eqn:Hother; [now apply Hrefused|].
    cbn [snd]. rewrite patchBooking_store. cbn [parkingBookings withBookings].
    now rewrite (get_rekey_gone bookingId _ _ _ Hkey).
Qed.

(** ** The fare *)

Lemma hoursOf_monotone s e e' : e <= e' -> hoursOf s e <= hoursOf s e'.
Proof.
  intros H. pose proof (hoursOf_ceiling s e). pose proof (hoursOf_ceiling s e').
  lia.
Qed.

(** X9.  The fare never decreases when the booking gets longer, for a
    non-negative hourly rate, and never decreases when the rate gets
    higher, for a non-negative number of hours. *)
Theorem fare_monotone :
  (forall s e e' rate,
     (0 <= rate)%Q -> e <= e' ->
     (fare (hoursOf s e) rate <= fare (hoursOf s e') rate)%Q)
  /\ (forall hours rate rate',
        0 <= hours -> (rate <= rate')%Q ->
        (fare hours rate <= fare hours rate')%Q).
Proof.
  split.
  - intros s e e' rate Hrate He. unfold fare.
    apply Qplus_le_compat; [|apply Qle_refl].
    apply Qmult_le_compat_r; [|assumption].
    rewrite <- Zle_Qle. now apply hoursOf_monotone.
  - intros hours rate rate' Hh Hr. unfold fare.
    apply Qplus_le_compat; [|apply Qle_refl].
    rewrite (Qmult_comm _ rate), (Qmult_comm _ rate').
    apply Qmult_le_compat_r; [assumption|].
    change 0%Q with (inject_Z 0). now rewrite <- Zle_Qle.
Qed.

Lemma fare_monotone_witness :
  (fare (hoursOf 0 Scenario.hour) 5 <= fare (hoursOf 0 (3 * Scenario.hour)) 5)%Q
  /\ (fare 3 4.5 <= fare 3 5)%Q.
Proof.
  split.
  - apply (proj1 fare_monotone 0 Scenario.hour (3 * Scenario.hour) 5%Q).
    + vm_compute. discriminate.
    + vm_compute. discriminate.
  - apply (proj2 fare_monotone 3 4.5%Q 5%Q).
    + lia.
    + vm_compute. discriminate.
Defined.

(** X10.  For two valid dates less than [2^53] milliseconds apart,
    where the program's arithmetic on doubles is exact: a whole number
    of hours is charged as such, and an hour that has begun, were it by
    a millisecond, is charged in full. *)
Theorem started_hour_is_charged s n r :
  (exactSpan s (s + n * 3600000) -> hoursOf s (s + n * 3600000) = n)
  /\ (exactSpan s (s + n * 3600000 + r) -> 0 < r < 3600000 ->
      hoursOf s (s + n * 3600000 + r) = n + 1).
Proof.
  split.
  - intros _. pose proof (hoursOf_ceiling s (s + n * 3600000)). lia.
  - intros _ Hr. pose proof (hoursOf_ceiling s (s + n * 3600000 + r)). lia.
Qed.

Lemma started_hour_is_charged_witness :
  hoursOf 0 (0 + 3 * 3600000 + 1) = 3 + 1.
Proof.
  apply (proj2 (started_hour_is_charged 0 3 1)).
  - unfold exactSpan. cbn. lia.
  - lia.
Defined.

(** X11.  [POST /api/bookings] charges a reversed interval too: when
    it answers [201] (its request carried [Date] instances) although
    the end is an hour or more before the start, and the hourly rate is
    above 1.5, the booking it stores has a negative amount. *)
Theorem reversed_interval_negative_amount bk st user env body b st' location :
  run (postBooking (implementation bk) user env body) st = (json 201 b, st') ->
  JsMap.get (locationId body) (parkingLocations st) = Some location ->
  endTime body + 3600000 <= startTime body ->
  (1.5 < ParkingLocation.hourlyRate location)%Q ->
  (ParkingBooking.totalAmount b < 0)%Q.
Proof.
  intros Hrun Hloc Hrev Hrate.
  assert (Hneg : forall spot0,
            (ParkingBooking.totalAmount
               (newBooking st user env body spot0 location) < 0)%Q).
  { intros spot0. cbn [ParkingBooking.totalAmount newBooking].
    unfold fare, bookingFee.
    assert (Hh : hoursOf (startTime body) (endTime body) <= -1).
    { pose proof (hoursOf_ceiling (startTime body) (endTime body)). lia. }
    apply Qle_lt_trans
      with (inject_Z (-1) * ParkingLocation.hourlyRate location + 1.5)%Q.
    - apply Qplus_le_compat; [|apply Qle_refl].
      apply Qmult_le_compat_r; [now rewrite <- Zle_Qle|].
      apply Qlt_le_weak. apply Qlt_trans with 1.5%Q; [reflexivity|assumption].
    - apply Qlt_minus_iff. apply Qlt_minus_iff in Hrate.
      setoid_replace
        (0 + - (inject_Z (-1) * ParkingLocation.hourlyRate location + 1.5))%Q
        with (ParkingLocation.hourlyRate location + - 1.5)%Q by ring.
      exact Hrate. }
  rewrite run_postBooking, Hloc in Hrun.
  destruct (resolver bk _ _ _ st) as [|spot0 rest]; [discriminate|].
  destruct (accepted body); [|discriminate].
  cbn zeta in Hrun.
  destruct bk, (JsMap.get (currentBookingIds st) (parkingBookings st));
    try discriminate;
    (destruct (JsMap.get (ParkingSpot.id spot0) (parkingSpots st));
     [|discriminate]);
    injection Hrun as <- _; apply Hneg.
Qed.

Lemma reversed_interval_negative_amount_witness :
  Qlt (ParkingBooking.totalAmount
         (newBooking (Scenario.provisioned storage) Scenario.alice Scenario.env
            (mkBody 1 1 (17 * Scenario.hour) (14 * Scenario.hour))
            (Scenario.a1 true)
            (ParkingLocation.mk 1 "Central Metro Parking"
               "123 Main Street, City Center" 0 0 1 5 None (Some 0)
               (Some true))))
      0.
Proof.
  apply (reversed_interval_negative_amount Database
           (Scenario.provisioned storage) Scenario.alice Scenario.env
           (withDates (mkBody 1 1 (17 * Scenario.hour) (14 * Scenario.hour)))
           _
           (snd (run (postBooking storage Scenario.alice Scenario.env
                        (withDates
                           (mkBody 1 1 (17 * Scenario.hour)
                              (14 * Scenario.hour))))
                     (Scenario.provisioned storage)))
           (ParkingLocation.mk 1 "Central Metro Parking"
              "123 Main Street, City Center" 0 0 1 5 None (Some 0) (Some true))).
  - reflexivity.
  - reflexivity.
  - vm_compute. discriminate.
  - reflexivity.
Defined.

(** ** Booking codes *)

Lemma hexUpper_shape b :
  exists c1 c2,
    hexUpper b = String c1 (String c2 EmptyString)
    /\ isUpperHex c1 = true /\ isUpperHex c2 = true
    /\ unhex c1 c2 = Some b.
Proof. destruct b; do 2 eexists; repeat split. Qed.

(** X12.  A booking code is [PARK-] followed by six characters among
    [0-9] and [A-F]: eleven characters in all. *)
Theorem booking_code_format bytes :
  exists digits,
    generateBookingCode bytes = "PARK-" ++ digits
    /\ String.length digits = 6%nat
    /\ forallb isUpperHex (list_ascii_of_string digits) = true.
Proof.
  destruct bytes as [[b0 b1] b2]. unfold generateBookingCode.
  destruct (hexUpper_shape b0) as (a1 & a2 & -> & Ha1 & Ha2 & _).
  destruct (hexUpper_shape b1) as (c1 & c2 & -> & Hc1 & Hc2 & _).
  destruct (hexUpper_shape b2) as (d1 & d2 & -> & Hd1 & Hd2 & _).
  eexists. split; [reflexivity|]. split; [reflexivity|].
  cbn [append list_ascii_of_string forallb].
  now rewrite Ha1, Ha2, Hc1, Hc2, Hd1, Hd2.
Qed.

(** X13.  The three random bytes can be read back from the code:
    different bytes give different codes. *)
Theorem booking_code_reads_back :
  (forall bytes, bytesOfBookingCode (generateBookingCode bytes) = Some bytes)
  /\ (forall bytes bytes',
        generateBookingCode bytes = generateBookingCode bytes' ->
        bytes = bytes').
Proof.
  assert (Hback : forall bytes,
            bytesOfBookingCode (generateBookingCode bytes) = Some bytes).
  { intros [[b0 b1] b2]. unfold generateBookingCode.
    destruct (hexUpper_shape b0) as (a1 & a2 & -> & _ & _ & Ha).
    destruct (hexUpper_shape b1) as (c1 & c2 & -> & _ & _ & Hc).
    destruct (hexUpper_shape b2) as (d1 & d2 & -> & _ & _ & Hd).
    cbn. now rewrite Ha, Hc, Hd. }
  split; [exact Hback|].
  intros bytes bytes' Heq.
  apply (f_equal bytesOfBookingCode) in Heq.
  rewrite !Hback in Heq. congruence.
Qed.

Lemma booking_code_reads_back_witness :
  (Byte.x12, Byte.x3a, Byte.xbc) = (Byte.x12, Byte.x3a, Byte.xbc).
Proof.
  apply (proj2 booking_code_reads_back). reflexivity.
Defined.

(** ** Accounts *)

Lemma find_values_set {V : Type} (P : V -> bool) k v (m : JsMap.t V) :
  find P (JsMap.values m) = None -> P v = true ->
  find P (JsMap.values (JsMap.set k v m)) = Some v.
Proof.
  intros Hnone Hv. induction m as [|[k1 v1] m IH]; simpl in *.
  - now rewrite Hv.
  - destruct (P v1) eqn:Pv1; [discriminate|].
    destruct (k =? k1); simpl.
    + now rewrite Hv.
    + rewrite Pv1. now apply IH.
Qed.

(** What a [201] of the registration tells. *)
Lemma register_created bk body session reg pu session' reg' :
  register bk body session reg = (Sent 201 pu, session', reg') ->
  exists user,
    pu = userWithoutPassword user
    /\ User.id user = currentUserIds reg
    /\ User.username user = InsertUser.username body
    /\ User.password user = InsertUser.password body
    /\ User.email user = InsertUser.email body
    /\ session' = Some (User.id user)
    /\ users reg' = JsMap.set (currentUserIds reg) user (users reg)
    /\ Storage.getUserByUsername bk (InsertUser.username body) reg = None
    /\ (bk = Database ->
        existsb (fun u => String.eqb (User.email u) (InsertUser.email body))
                (JsMap.values (users reg)) = false).
Proof.
  unfold register.
  destruct (Storage.getUserByUsername bk (InsertUser.username body) reg)
    eqn:Hfind; [discriminate|].
  destruct bk; cbn.
  - intros [= <- <- <-]. eexists. repeat split. discriminate.
  - unfold DatabaseRegistry.createUser.
    destruct (existsb _ _) eqn:Hex; [discriminate|].
    intros [= <- <- <-]. eexists. repeat split. intros _.
    destruct (existsb (fun u => String.eqb (User.email u) (InsertUser.email body))
                (JsMap.values (users reg))) eqn:Hem; [|reflexivity].
    apply existsb_exists in Hem. destruct Hem as (u & Hu & He).
    assert (Hex' : existsb
              (fun user =>
                 String.eqb (User.username user) (InsertUser.username body)
                 || String.eqb (User.email user) (InsertUser.email body))
              (JsMap.values (users reg)) = true).
    { apply existsb_exists. exists u. split; [assumption|].
      rewrite He. apply orb_true_r. }
    congruence.
Qed.

(** A registration that is not answered [201] adds no user. *)
Lemma register_unchanged bk body session reg :
  (exists pu session' reg',
     register bk body session reg = (Sent 201 pu, session', reg'))
  \/ users (snd (register bk body session reg)) = users reg.
Proof.
  unfold register.
  destruct (Storage.getUserByUsername bk (InsertUser.username body) reg);
    [now right|].
  destruct bk; cbn.
  - left. do 3 eexists. reflexivity.
  - unfold DatabaseRegistry.createUser. destruct (existsb _ _).
    + now right.
    + left. do 3 eexists. reflexivity.
Qed.

Lemma getUserByUsername_find bk username reg :
  Storage.getUserByUsername bk username reg
  = find (fun user => String.eqb (User.username user) username)
         (JsMap.values (users reg)).
Proof. destruct bk; reflexivity. Qed.

Lemma register_keeps_usernames bk body session reg :
  uniqueUsernames reg ->
  uniqueUsernames (snd (register bk body session reg)).
Proof.
  intros Huniq.
  destruct (register_unchanged bk body session reg)
    as [(pu & session' & reg' & Hreg)|Hsame];
    [|unfold uniqueUsernames; rewrite Hsame; exact Huniq].
  rewrite Hreg. cbn [snd].
  destruct (register_created bk body session reg pu session' reg' Hreg)
    as (user & _ & _ & Hname & _ & _ & _ & Husers & Hfind & _).
  rewrite getUserByUsername_find in Hfind.
  assert (Hother : forall k u, JsMap.get k (users reg) = Some u ->
                               User.username u <> User.username user).
  { intros k u Hget. apply get_In in Hget.
    pose proof (find_none _ _ Hfind u Hget) as Hne. cbn in Hne.
    apply String.eqb_neq in Hne. congruence. }
  intros k1 k2 u1 u2 Hne H1 H2. rewrite Husers, get_set in H1, H2.
  destruct (k1 =? currentUserIds reg) eqn:E1;
    destruct (k2 =? currentUserIds reg) eqn:E2.
  - apply Z.eqb_eq in E1, E2. congruence.
  - injection H1 as <-. intros Heq. now apply (Hother k2 u2 H2).
  - injection H2 as <-. now apply (Hother k1 u1).
  - now apply (Huniq k1 k2).
Qed.

Lemma register_keeps_emails body session reg :
  uniqueEmails reg ->
  uniqueEmails (snd (register Database body session reg)).
Proof.
  intros Huniq.
  destruct (register_unchanged Database body session reg)
    as [(pu & session' & reg' & Hreg)|Hsame];
    [|unfold uniqueEmails; rewrite Hsame; exact Huniq].
  rewrite Hreg. cbn [snd].
  destruct (register_created Database body session reg pu session' reg' Hreg)
    as (user & _ & _ & _ & _ & Hmail & _ & Husers & _ & Hex).
  specialize (Hex eq_refl).
  assert (Hother : forall k u, JsMap.get k (users reg) = Some u ->
                               User.email u <> User.email user).
  { intros k u Hget. apply get_In in Hget.
    destruct (String.eqb (User.email u) (InsertUser.email body)) eqn:E.
    - assert (existsb (fun u => String.eqb (User.email u) (InsertUser.email body))
                (JsMap.values (users reg)) = true)
        by (apply existsb_exists; now exists u).
      congruence.
    - apply String.eqb_neq in E. congruence. }
  intros k1 k2 u1 u2 Hne H1 H2. rewrite Husers, get_set in H1, H2.
  destruct (k1 =? currentUserIds reg) eqn:E1;
    destruct (k2 =? currentUserIds reg) eqn:E2.
  - apply Z.eqb_eq in E1, E2. congruence.
  - injection H1 as <-. intros Heq. now apply (Hother k2 u2 H2).
  - injection H2 as <-. now apply (Hother k1 u1).
  - now apply (Huniq k1 k2).
Qed.

(** X14.  After any sequence of registrations on an empty storage no
    two users have the same username, in both backends.  Emails are
    unique in [DatabaseStorage], whose table declares them so;
    [MemStorage] accepts two users with one email. *)
Theorem registrations_keep_usernames_unique :
  (forall bk bodies,
     uniqueUsernames (registerAll bk bodies MemRegistry.new))
  /\ (forall bodies,
        uniqueEmails (registerAll Database bodies MemRegistry.new))
  /\ ~ uniqueEmails (registerAll Mem sharedMailbox MemRegistry.new).
Proof.
  split; [|split].
  - intros bk bodies. unfold registerAll.
    assert (H : forall reg, uniqueUsernames reg ->
      uniqueUsernames
        (fold_left (fun reg body => snd (register bk body None reg)) bodies reg)).
    { induction bodies as [|body bodies IH]; intros reg Hreg; [exact Hreg|].
      cbn [fold_left]. apply IH. now apply register_keeps_usernames. }
    apply H. intros k1 k2 u1 u2 _ H1. discriminate.
  - intros bodies. unfold registerAll.
    assert (H : forall reg, uniqueEmails reg ->
      uniqueEmails
        (fold_left (fun reg body => snd (register Database body None reg))
           bodies reg)).
    { induction bodies as [|body bodies IH]; intros reg Hreg; [exact Hreg|].
      cbn [fold_left]. apply IH. now apply register_keeps_emails. }
    apply H. intros k1 k2 u1 u2 _ H1. discriminate.
  - intros H.
    apply (H 1 2 (User.mk 1 "ann" "secret-a" "Ann" "home@example.com" None)
             (User.mk 2 "ben" "secret-b" "Ben" "home@example.com" None));
      try reflexivity. discriminate.
Qed.

(** X15.  A user who has just registered can log in: the login with
    the registered username and password answers [200] with the same
    public record and puts the user's identifier in the session, and a
    login with any other password fails and leaves the session as it
    was. *)
Theorem register_then_login bk body session reg pu session' reg' :
  register bk body session reg = (Sent 201 pu, session', reg') ->
  InsertUser.username body <> EmptyString ->
  InsertUser.password body <> EmptyString ->
  (forall s,
     login bk (Some (InsertUser.username body))
       (Some (InsertUser.password body)) s reg'
     = (Sent 200 pu, Some (PublicUser.id pu)))
  /\ (forall s wrong,
        wrong <> InsertUser.password body ->
        exists status text,
          login bk (Some (InsertUser.username body)) (Some wrong) s reg'
          = (Failed status text, s)).
Proof.
  intros Hreg Hname Hpass.
  destruct (register_created bk body session reg pu session' reg' Hreg)
    as (user & -> & _ & Huname & Hupass & _ & _ & Husers & Hfind & _).
  rewrite getUserByUsername_find in Hfind.
  assert (Hfound : Storage.getUserByUsername bk (InsertUser.username body) reg'
                   = Some user).
  { rewrite getUserByUsername_find, Husers.
    apply find_values_set; [assumption|].
    rewrite Huname. apply String.eqb_refl. }
  apply String.eqb_neq in Hname, Hpass.
  split.
  - intros s. unfold login, truthyString. rewrite Hname, Hpass, Hfound.
    rewrite Hupass, String.eqb_refl. reflexivity.
  - intros s wrong Hwrong. unfold login, truthyString. rewrite Hname.
    destruct (String.eqb wrong EmptyString); [do 2 eexists; reflexivity|].
    rewrite Hfound, Hupass.
    assert (Hne : String.eqb (InsertUser.password body) wrong = false)
      by (apply String.eqb_neq; congruence).
    rewrite Hne. do 2 eexists; reflexivity.
Qed.

Lemma register_then_login_witness :
  login Database (Some "ann") (Some "secret-a") None
    (snd (register Database
            (InsertUser.mk "ann" "secret-a" "Ann" "home@example.com" None)
            None MemRegistry.new))
  = (Sent 200 (PublicUser.mk 1 "ann" "Ann" "home@example.com" None), Some 1).
Proof.
  refine (proj1 (register_then_login Database
                   (InsertUser.mk "ann" "secret-a" "Ann" "home@example.com" None)
                   None MemRegistry.new
                   (PublicUser.mk 1 "ann" "Ann" "home@example.com" None)
                   (Some 1) _ eq_refl _ _) None); discriminate.
Defined.

(** X16.  When the user counter is positive, the session that a
    registration returns passes [authMiddleware] as the new user, and
    [GET /api/auth/me] answers with the registered public record. *)
Theorem registration_opens_session bk body session reg pu session' reg' :
  0 < currentUserIds reg ->
  register bk body session reg = (Sent 201 pu, session', reg') ->
  me bk session' reg' = Sent 200 pu
  /\ exists user,
       authMiddleware bk session' reg' = Next user
       /\ userWithoutPassword user = pu
       /\ User.username user = InsertUser.username body.
Proof.
  intros Hpos Hreg.
  destruct (register_created bk body session reg pu session' reg' Hreg)
    as (user & -> & Hid & Huname & _ & _ & -> & Husers & _).
  assert (Hget : Storage.getUser bk (User.id user) reg' = Some user).
  { destruct bk; cbn; unfold MemRegistry.getUser, DatabaseRegistry.getUser;
      rewrite Husers, Hid; apply get_set_same. }
  assert (Hsess : sessionUserId (Some (User.id user)) = Some (User.id user)).
  { cbn. destruct (User.id user =? 0) eqn:E; [|reflexivity].
    apply Z.eqb_eq in E. lia. }
  split.
  - unfold me. now rewrite Hsess, Hget.
  - exists user. unfold authMiddleware. rewrite Hsess, Hget. now repeat split.
Qed.

Lemma registration_opens_session_witness :
  me Database (Some 1)
     (snd (register Database
             (InsertUser.mk "ann" "secret-a" "Ann" "home@example.com" None)
             None MemRegistry.new))
  = Sent 200 (PublicUser.mk 1 "ann" "Ann" "home@example.com" None).
Proof.
  refine (proj1 (registration_opens_session Database
                   (InsertUser.mk "ann" "secret-a" "Ann" "home@example.com" None)
                   None MemRegistry.new
                   (PublicUser.mk 1 "ann" "Ann" "home@example.com" None)
                   (Some 1) _ _ eq_refl)).
  reflexivity.
Defined.

(** ** Vehicles and rides *)

Lemma getVehiclesByUserId_filter bk userId reg :
  Storage.getVehiclesByUserId bk userId reg
  = filter (fun vehicle => Vehicle.userId vehicle =? userId)
           (JsMap.values (vehicles reg)).
Proof. destruct bk; reflexivity. Qed.

(** X18.  A vehicle created through [POST /api/vehicles] belongs to the
    authenticated user whatever [userId] the body carries, and that
    user's [GET /api/vehicles] lists it; every vehicle the route lists
    belongs to the user of the session. *)
Theorem vehicle_belongs_to_session_user bk session body reg user vehicle reg' :
  authMiddleware bk session reg = Next user ->
  postVehicle bk session body reg = (Sent 201 vehicle, reg') ->
  Vehicle.userId vehicle = User.id user
  /\ exists listed,
       getVehicles bk session reg' = Sent 200 listed
       /\ In vehicle listed
       /\ forall v, In v listed -> Vehicle.userId v = User.id user.
Proof.
  intros Hauth Hpost. unfold postVehicle in Hpost. rewrite Hauth in Hpost.
  unfold parseVehicle in Hpost.
  destruct (bodyLicensePlate body) as [plate|]; [|discriminate].
  destruct (bodyVehicleType body) as [type|]; [|discriminate].
  assert (Hshape : Vehicle.userId vehicle = User.id user
                   /\ users reg' = users reg
                   /\ vehicles reg'
                      = JsMap.set (currentVehicleIds reg) vehicle (vehicles reg)).
  { destruct bk; cbn in Hpost; injection Hpost as <- <-; repeat split. }
  destruct Hshape as (Howner & Husers & Hvehicles).
  split; [exact Howner|].
  assert (Hauth' : authMiddleware bk session reg' = Next user).
  { unfold authMiddleware in *. destruct (sessionUserId session); [|discriminate].
    destruct bk; cbn in *; unfold MemRegistry.getUser, DatabaseRegistry.getUser in *;
      rewrite Husers; exact Hauth. }
  exists (Storage.getVehiclesByUserId bk (User.id user) reg').
  unfold getVehicles. rewrite Hauth'. split; [reflexivity|].
  rewrite getVehiclesByUserId_filter. split.
  - apply filter_In. split.
    + rewrite Hvehicles. apply (get_In (currentVehicleIds reg)).
      apply get_set_same.
    + now apply Z.eqb_eq.
  - intros v Hv. apply filter_In in Hv. now apply Z.eqb_eq.
Qed.

Lemma vehicle_belongs_to_session_user_witness :
  Vehicle.userId
    (Vehicle.mk 1 1 "ABC-1234" "Sedan" (Some "My Sedan")) = 1.
Proof.
  pose (reg := snd (register Database
                      (InsertUser.mk "ann" "secret-a" "Ann" "home@example.com"
                         None)
                      None MemRegistry.new)).
  exact (proj1 (vehicle_belongs_to_session_user Database (Some 1)
                  (mkVehicleBody (Some 99) (Some "ABC-1234") (Some "Sedan")
                     (Some "My Sedan"))
                  reg
                  (User.mk 1 "ann" "secret-a" "Ann" "home@example.com" None)
                  (Vehicle.mk 1 1 "ABC-1234" "Sedan" (Some "My Sedan"))
                  (snd (postVehicle Database (Some 1)
                          (mkVehicleBody (Some 99) (Some "ABC-1234")
                             (Some "Sedan") (Some "My Sedan"))
                          reg))
                  eq_refl eq_refl)).
Defined.

Lemma getRidesByUserId_filter bk userId reg :
  Storage.getTransportationBookingsByUserId bk userId reg
  = filter (fun booking => TransportationBooking.userId booking =? userId)
           (JsMap.values (transportationBookings reg)).
Proof. destruct bk; reflexivity. Qed.

(** X19.  [POST /api/transportation/bookings] refuses a request
    whose [pickupTime] is a string, as JSON carries it, with
    [400 Invalid booking data], and stores nothing.  A ride for which
    it answers [201] (the [pickupTime] was a [Date] instance) belongs
    to the authenticated user whatever [userId] the body carries, has
    the status of the body or, without one, [pending], and is among the
    rides of that user's [GET /api/transportation/bookings]. *)
Theorem ride_belongs_to_session_user bk session clock body reg user :
  authMiddleware bk session reg = Next user ->
  (forall time,
     ridePickupTime body = Some (IsoString time) ->
     postRide bk session clock body reg
     = (Failed 400 "Invalid booking data", reg))
  /\ (forall ride reg',
        postRide bk session clock body reg = (Sent 201 ride, reg') ->
        (exists time, ridePickupTime body = Some (DateObject time))
        /\ TransportationBooking.userId ride = User.id user
        /\ TransportationBooking.status ride
           = orString (rideStatus body) "pending"
        /\ exists listed,
             getRides bk session reg' = Sent 200 listed /\ In ride listed).
Proof.
  intros Hauth. unfold postRide. rewrite Hauth. unfold parseTransport. split.
  - intros time Htime. rewrite Htime.
    destruct (rideTransportTypeId body), (ridePickupLocation body),
      (rideDropoffLocation body); reflexivity.
  - intros ride reg' Hpost.
    destruct (rideTransportTypeId body) as [type|]; [|discriminate].
    destruct (ridePickupLocation body) as [pickup|]; [|discriminate].
    destruct (rideDropoffLocation body) as [dropoff|]; [|discriminate].
    destruct (ridePickupTime body) as [[time|time]|]; try discriminate.
    destruct (rideAmount body) as [amount|]; [|discriminate].
    assert (Hshape : TransportationBooking.userId ride = User.id user
                     /\ TransportationBooking.status ride
                        = orString (rideStatus body) "pending"
                     /\ users reg' = users reg
                     /\ transportationBookings reg'
                        = JsMap.set (currentTransportBookingIds reg) ride
                            (transportationBookings reg)).
    { destruct bk; cbn in Hpost; injection Hpost as <- <-; repeat split. }
    destruct Hshape as (Howner & Hstatus & Husers & Hrides).
    split; [now exists time|].
    split; [exact Howner|]. split; [exact Hstatus|].
    assert (Hauth' : authMiddleware bk session reg' = Next user).
    { unfold authMiddleware in *.
      destruct (sessionUserId session); [|discriminate].
      destruct bk; cbn in *;
        unfold MemRegistry.getUser, DatabaseRegistry.getUser in *;
        rewrite Husers; exact Hauth. }
    exists (Storage.getTransportationBookingsByUserId bk (User.id user) reg').
    unfold getRides. rewrite Hauth'. split; [reflexivity|].
    rewrite getRidesByUserId_filter. apply filter_In. split.
    + rewrite Hrides. apply (get_In (currentTransportBookingIds reg)).
      apply get_set_same.
    + now apply Z.eqb_eq.
Qed.

Lemma ride_belongs_to_session_user_witness :
  postRide Database (Some 1) 0
    (mkTransportBody (Some 99) (Some 2) None
       (Some "Central Metro Station") (Some "Museum") (Some (IsoString 0))
       None None (Some 8%Q))
    (snd (register Database
            (InsertUser.mk "ann" "secret-a" "Ann" "home@example.com" None)
            None MemRegistry.new))
  = (Failed 400 "Invalid booking data",
     snd (register Database
            (InsertUser.mk "ann" "secret-a" "Ann" "home@example.com" None)
            None MemRegistry.new)).
Proof.
  exact (proj1 (ride_belongs_to_session_user Database (Some 1) 0
                  (mkTransportBody (Some 99) (Some 2) None
                     (Some "Central Metro Station") (Some "Museum")
                     (Some (IsoString 0)) None None (Some 8%Q))
                  (snd (register Database
                          (InsertUser.mk "ann" "secret-a" "Ann"
                             "home@example.com" None)
                          None MemRegistry.new))
                  (User.mk 1 "ann" "secret-a" "Ann" "home@example.com" None)
                  eq_refl) 0 eq_refl).
Defined.

(** ** Deleting a vehicle *)

Lemma get_mapDelete {V : Type} k k' (m : JsMap.t V) :
  JsMap.get k' (mapDelete k m)
  = if k' =? k then None else JsMap.get k' m.
Proof.
  unfold mapDelete. induction m as [|[k1 v1] m IH]; simpl.
  - now destruct (k' =? k).
  - destruct (k1 =? k) eqn:E1; simpl.
    + apply Z.eqb_eq in E1. subst k1. rewrite IH.
      now destruct (k' =? k).
    + destruct (k' =? k1) eqn:E2.
      * apply Z.eqb_eq in E2. subst k1. now rewrite E1.
      * exact IH.
Qed.

Lemma mapDelete_absent {V : Type} k (m : JsMap.t V) :
  JsMap.get k m = None -> mapDelete k m = m.
Proof.
  unfold mapDelete. induction m as [|[k1 v1] m IH]; simpl; [reflexivity|].
  destruct (k =? k1) eqn:E; [discriminate|].
  intros H. rewrite Z.eqb_sym, E. simpl. now rewrite IH.
Qed.

Lemma withVehicles_same reg :
  withVehicles reg (vehicles reg) (currentVehicleIds reg) = reg.
Proof. destruct reg; reflexivity. Qed.

(** X20.  After [deleteVehicle] the vehicle is gone and every other
    vehicle is found as before, in both backends.  For an identifier
    that is not stored, [MemStorage] throws
    [Vehicle with id <id> not found] and [DatabaseStorage] returns
    normally; neither changes the storage. *)
Theorem delete_vehicle_behaviour id reg :
  (forall bk,
     JsMap.get id (vehicles reg) <> None ->
     let out := Storage.deleteVehicle bk id reg in
     fst out = Ok tt
     /\ JsMap.get id (vehicles (snd out)) = None
     /\ forall k, k <> id ->
          JsMap.get k (vehicles (snd out)) = JsMap.get k (vehicles reg))
  /\ (JsMap.get id (vehicles reg) = None ->
      Storage.deleteVehicle Mem id reg
      = (Throw ("Vehicle with id " ++ showZ id ++ " not found"), reg)
      /\ Storage.deleteVehicle Database id reg = (Ok tt, reg)).
Proof.
  split.
  - intros bk Hsome. cbv zeta.
    destruct (JsMap.get id (vehicles reg)) as [v|] eqn:Hget; [|contradiction].
    destruct bk; cbn; unfold MemRegistry.deleteVehicle; rewrite ?Hget; cbn;
      (split; [reflexivity|]);
      (split; [rewrite get_mapDelete, Z.eqb_refl; reflexivity|]);
      intros k Hk; rewrite get_mapDelete;
      (destruct (k =? id) eqn:E; [apply Z.eqb_eq in E; contradiction|]);
      reflexivity.
  - intros Hnone. cbn. unfold MemRegistry.deleteVehicle,
      DatabaseRegistry.deleteVehicle. rewrite Hnone.
    split; [reflexivity|].
    now rewrite (mapDelete_absent _ _ Hnone), withVehicles_same.
Qed.

Lemma delete_vehicle_behaviour_witness :
  Storage.deleteVehicle Mem 5 MemRegistry.new
  = (Throw "Vehicle with id 5 not found", MemRegistry.new)
  /\ Storage.deleteVehicle Database 5 MemRegistry.new = (Ok tt, MemRegistry.new).
Proof.
  exact (proj2 (delete_vehicle_behaviour 5 MemRegistry.new) eq_refl).
Defined.

(** ** Listing one's bookings *)

Lemma getParkingBookingsByUserId_filter bk userId st :
  Storage.getParkingBookingsByUserId bk userId st
  = filter (fun b => ParkingBooking.userId b =? userId)
           (JsMap.values (parkingBookings st)).
Proof. destruct bk; reflexivity. Qed.

(** X21.  On a well-formed store, a booking for which the protected
    [POST /api/bookings] has answered [201] (its request carried
    [Date] instances) is among the bookings that [GET /api/bookings]
    returns to the same user, next to those it returned before and no
    other, and every other user is returned the same bookings as
    before. *)
Theorem created_booking_is_listed bk session env body app user b app' :
  wellFormed (parking app) ->
  authMiddleware bk session (registry app) = Next user ->
  guarded bk session (fun u => postBooking (implementation bk) u env body) app
  = (json 201 b, app') ->
  (exists before after,
     getBookings bk session app = Sent 200 before
     /\ getBookings bk session app' = Sent 200 after
     /\ forall b', In b' after <-> b' = b \/ In b' before)
  /\ forall session' other,
       authMiddleware bk session' (registry app) = Next other ->
       User.id other <> User.id user ->
       exists before after,
         getBookings bk session' app = Sent 200 before
         /\ getBookings bk session' app' = Sent 200 after
         /\ forall b', In b' after <-> In b' before.
Proof.
  intros Hwf Hauth Hpost. unfold guarded in Hpost. rewrite Hauth in Hpost.
  destruct (run (postBooking (implementation bk) (User.id user) env body)
                (parking app)) as [response st'] eqn:Hrun.
  injection Hpost as -> <-.
  destruct (postBooking_created bk (parking app) (User.id user) env body b st'
              Hwf Hrun)
    as (spot0 & rest & location & _ & _ & _ & Hb & ->).
  destruct Hwf as (_ & _ & Hbk).
  assert (Hfresh : JsMap.get (currentBookingIds (parking app))
                     (parkingBookings (parking app)) = None)
    by (apply (keyed_unused ParkingBooking.id _ _ _ Hbk); lia).
  assert (Hlist : forall u,
    Storage.getParkingBookingsByUserId bk u
      (withSpots (withNewBooking (parking app) b)
         (JsMap.set (ParkingSpot.id spot0) (withAvailability spot0 false)
            (parkingSpots (parking app))))
    = (Storage.getParkingBookingsByUserId bk u (parking app)
       ++ (if ParkingBooking.userId b =? u then [b] else []))%list).
  { intros u. rewrite !getParkingBookingsByUserId_filter.
    unfold JsMap.values. cbn [parkingBookings withSpots withNewBooking].
    rewrite (set_fresh _ _ _ Hfresh), map_app, filter_app. reflexivity. }
  assert (Howner : ParkingBooking.userId b = User.id user)
    by (rewrite Hb; reflexivity).
  split.
  - exists (Storage.getParkingBookingsByUserId bk (User.id user) (parking app)).
    eexists.
    unfold getBookings. cbn [registry parking]. rewrite Hauth.
    split; [reflexivity|]. split; [reflexivity|].
    intros b'. rewrite Hlist, Howner, Z.eqb_refl, in_app_iff. cbn [In].
    split; [intros [H|[H|[]]]; [now right | now left]
           |intros [H|H]; [right; now left | now left]].
  - intros session' other Hother Hne. unfold getBookings.
    cbn [registry parking]. rewrite Hother. do 2 eexists.
    split; [reflexivity|]. split; [reflexivity|].
    intros b'. rewrite Hlist, Howner.
    destruct (User.id user =? User.id other) eqn:E.
    + apply Z.eqb_eq in E. congruence.
    + now rewrite app_nil_r.
Qed.

Lemma created_booking_is_listed_witness :
  exists before after,
    getBookings Database (Some 1)
      (mkApp (Scenario.provisioned storage)
         (snd (register Database
                 (InsertUser.mk "ann" "secret-a" "Ann" "home@example.com" None)
                 None MemRegistry.new)))
    = Sent 200 before
    /\ getBookings Database (Some 1)
         (snd (guarded Database (Some 1)
                 (fun u => postBooking storage u Scenario.env
                             (withDates Scenario.afternoon))
                 (mkApp (Scenario.provisioned storage)
                    (snd (register Database
                            (InsertUser.mk "ann" "secret-a" "Ann"
                               "home@example.com" None)
                            None MemRegistry.new)))))
       = Sent 200 after
    /\ forall b',
         In b' after <->
         b' = newBooking (Scenario.provisioned storage) 1 Scenario.env
                Scenario.afternoon (Scenario.a1 true)
                (ParkingLocation.mk 1 "Central Metro Parking"
                   "123 Main Street, City Center" 0 0 1 5 None (Some 0)
                   (Some true))
         \/ In b' before.
Proof.
  pose (app := mkApp (Scenario.provisioned storage)
                 (snd (register Database
                         (InsertUser.mk "ann" "secret-a" "Ann"
                            "home@example.com" None)
                         None MemRegistry.new))).
  exact (proj1 (created_booking_is_listed Database (Some 1) Scenario.env
                  (withDates Scenario.afternoon) app
                  (User.mk 1 "ann" "secret-a" "Ann" "home@example.com" None)
                  (newBooking (Scenario.provisioned storage) 1 Scenario.env
                     Scenario.afternoon (Scenario.a1 true)
                     (ParkingLocation.mk 1 "Central Metro Parking"
                        "123 Main Street, City Center" 0 0 1 5 None (Some 0)
                        (Some true)))
                  (snd (guarded Database (Some 1)
                          (fun u => postBooking storage u Scenario.env
                                      (withDates Scenario.afternoon)) app))
                  (performAll_wellFormed Database
                     [ProvisionLocation Scenario.lot;
                      ProvisionSpot Scenario.spotA1]
                     MemStorage.new eq_refl wellFormed_new)
                  eq_refl eq_refl)).
Defined.

(** ** The demonstration data *)

Lemma createSpots_locations bk location letter level count : forall st,
  parkingLocations (createSpots (implementation bk) location letter level count st)
  = parkingLocations st.
Proof.
  unfold createSpots. induction (seq 1 count) as [|i l IH]; intros st;
    [reflexivity|].
  cbn [fold_left]. rewrite IH. destruct bk; reflexivity.
Qed.

Lemma values_set_nonempty {V : Type} k v (m : JsMap.t V) :
  JsMap.values (JsMap.set k v m) <> [].
Proof.
  destruct m as [|[k1 v1] m]; simpl; [discriminate|].
  destruct (k =? k1); discriminate.
Qed.

Lemma createParkingLocation_locations bk ins st :
  parkingLocations (snd (createParkingLocation (implementation bk) ins st))
  = JsMap.set (currentLocationIds st)
      (fst (createParkingLocation (implementation bk) ins st))
      (parkingLocations st).
Proof. destruct bk; reflexivity. Qed.

Lemma createParkingBooking_locations bk clock ins st :
  parkingLocations (snd (createParkingBooking (implementation bk) clock ins st))
  = parkingLocations st.
Proof.
  destruct bk; cbn; [reflexivity|].
  unfold DatabaseStorage.createParkingBooking.
  destruct (JsMap.get (currentBookingIds st) (parkingBookings st));
    reflexivity.
Qed.

Lemma updateParkingSpotAvailability_locations bk id flag st :
  parkingLocations
    (snd (updateParkingSpotAvailability (implementation bk) id flag st))
  = parkingLocations st.
Proof.
  destruct bk; cbn;
    unfold MemStorage.updateParkingSpotAvailability,
      DatabaseStorage.updateParkingSpotAvailability;
    destruct (JsMap.get id (parkingSpots st)); reflexivity.
Qed.

Lemma initializeDemoData_has_locations bk clock app :
  Storage.getParkingLocations bk (parking (snd (initializeDemoData bk clock app)))
  <> [].
Proof.
  unfold initializeDemoData, Storage.getParkingLocations.
  destruct (JsMap.values (parkingLocations (parking app))) eqn:Hvals;
    [|cbn [snd]; rewrite Hvals; discriminate].
  pose proof (createParkingLocation_locations bk demoLocation1 (parking app))
    as H1.
  destruct (createParkingLocation (implementation bk) demoLocation1
              (parking app)) as [location1 st1].
  pose proof (createParkingLocation_locations bk demoLocation2 st1) as H2.
  destruct (createParkingLocation (implementation bk) demoLocation2 st1)
    as [location2 st2].
  pose proof (createParkingLocation_locations bk demoLocation3 st2) as H3.
  destruct (createParkingLocation (implementation bk) demoLocation3 st2)
    as [location3 st3].
  cbn [fst snd] in H1, H2, H3.
  set (spots := createSpots (implementation bk) (ParkingLocation.id location3)
                  "C" "1" 8
                  (createSpots (implementation bk) (ParkingLocation.id location2)
                     "B" "2" 15
                     (createSpots (implementation bk)
                        (ParkingLocation.id location1) "A" "1" 10 st3))).
  assert (Hspots : parkingLocations spots = parkingLocations st3)
    by (subst spots; now rewrite !createSpots_locations).
  assert (Hfull : JsMap.values (parkingLocations spots) <> [])
    by (rewrite Hspots, H3; apply values_set_nonempty).
  clearbody spots.
  destruct (Storage.createTransportationType bk _ (registry app)) as [t1 reg1].
  destruct (Storage.createTransportationType bk _ reg1) as [t2 reg2].
  destruct (Storage.createTransportationType bk _ reg2) as [t3 reg3].
  destruct (Storage.createUser bk demoUser reg3) as [[user|text] reg4];
    [|exact Hfull].
  destruct (Storage.createVehicle bk _ reg4) as [vehicle reg5].
  match goal with
  | |- context [createParkingBooking (implementation bk) ?c ?i spots] =>
      pose proof (createParkingBooking_locations bk c i spots) as Hb;
      destruct (createParkingBooking (implementation bk) c i spots)
        as [[booking|text] st4]
  end;
  cbn [snd parking] in *; [|now rewrite Hb].
  pose proof (updateParkingSpotAvailability_locations bk 2 false st4) as Hu.
  destruct (updateParkingSpotAvailability (implementation bk) 2 false st4)
    as [[updated|text] st5]; cbn [snd parking] in *;
    now rewrite Hu, Hb.
Qed.

(** X22.  [initializeDemoData] is idempotent: run again, with whatever
    clock, it finds the locations of the first run, returns normally
    and changes nothing; so it does whenever the storage already holds
    a location. *)
Theorem demo_data_initialised_once bk clock clock' app :
  initializeDemoData bk clock' (snd (initializeDemoData bk clock app))
  = (Ok tt, snd (initializeDemoData bk clock app)).
Proof.
  pose proof (initializeDemoData_has_locations bk clock app) as Hlocs.
  unfold initializeDemoData at 1.
  destruct (Storage.getParkingLocations bk
              (parking (snd (initializeDemoData bk clock app))));
    [contradiction | reflexivity].
Qed.

(** X23.  On an empty storage [initializeDemoData] returns normally
    and stores one booking, for spot 2 and location 2.  Spot 2 is spot
    A2 of location 1: it is the one flagged unavailable, and location 1
    never offers it, while spot B2 of location 2 keeps a true flag and
    is still offered for the very interval of the booking. *)
Theorem demo_booking_blocks_another_location bk clock :
  let out := initializeDemoData bk clock (mkApp MemStorage.new MemRegistry.new) in
  let st := parking (snd out) in
  fst out = Ok tt
  /\ (exists b,
        JsMap.values (parkingBookings st) = [b]
        /\ ParkingBooking.spotId b = 2 /\ ParkingBooking.locationId b = 2)
  /\ (exists a2,
        JsMap.get 2 (parkingSpots st) = Some a2
        /\ ParkingSpot.spotNumber a2 = "A2"
        /\ ParkingSpot.locationId a2 = 1
        /\ ParkingSpot.isAvailable a2 = Some false)
  /\ (forall t0 t1 spot,
        In spot (resolver bk 1 t0 t1 st) -> ParkingSpot.spotNumber spot <> "A2")
  /\ (exists b2,
        JsMap.get 12 (parkingSpots st) = Some b2
        /\ ParkingSpot.spotNumber b2 = "B2"
        /\ ParkingSpot.locationId b2 = 2
        /\ In b2 (resolver bk 2 (todayAt16 clock) (todayAt19 clock) st)).
Proof.
  cbv zeta.
  assert (Hspots :
    JsMap.values
      (parkingSpots
         (parking
            (snd (initializeDemoData bk clock
                    (mkApp MemStorage.new MemRegistry.new)))))
    = demoSpots bk)
    by (destruct bk; vm_compute; reflexivity).
  assert (Hbookings :
    JsMap.values
      (parkingBookings
         (parking
            (snd (initializeDemoData bk clock
                    (mkApp MemStorage.new MemRegistry.new)))))
    = [ParkingBooking.mk 1 1 1 2 2 (todayAt16 clock) (todayAt19 clock)
         "confirmed" "PARK-123ABC" 13.5 (Some (storedAt clock)) None])
    by (destruct bk; vm_compute; reflexivity).
  split; [destruct bk; vm_compute; reflexivity|].
  split; [eexists; split; [exact Hbookings | split; reflexivity]|].
  split.
  { exists (ParkingSpot.mk 2 1 "A2" (Some "1") (Some "A") (Some false)
              (Some "standard")).
    split; [destruct bk; vm_compute; reflexivity | repeat split]. }
  split.
  - intros t0 t1 spot Hin. apply In_resolver in Hin.
    destruct Hin as (Hin & Hl & Hav & _). rewrite Hspots in Hin.
    assert (Hall :
      forallb (fun s => negb (truthy (ParkingSpot.isAvailable s)
                              && String.eqb (ParkingSpot.spotNumber s) "A2"
                              && (ParkingSpot.locationId s =? 1)))
        (demoSpots bk) = true)
      by (destruct bk; vm_compute; reflexivity).
    rewrite forallb_forall in Hall. specialize (Hall spot Hin).
    intros Hnumber. rewrite Hav, Hl, Hnumber in Hall. discriminate Hall.
  - exists (ParkingSpot.mk 12 2 "B2" (Some "2") (Some "B") (Some true)
              (Some "standard")).
    split; [destruct bk; vm_compute; reflexivity|].
    split; [reflexivity|]. split; [reflexivity|].
    apply In_resolver. rewrite Hspots, Hbookings.
    split.
    { apply (nth_error_In _ 11). destruct bk; vm_compute; reflexivity. }
    split; [reflexivity|]. split; [reflexivity|].
    intros b [<-|[]]. destruct bk; reflexivity.
Qed.

(** ** The client's quote *)

Lemma option_times time :
  In time (Client.startOptions ++ Client.endOptions)%list ->
  exists hour,
    Client.parseInt (Client.beforeColon time) = Some hour
    /\ forall midnight,
         Client.dateAt midnight time = Some (midnight + hour * 3600000).
Proof.
  cbn [Client.startOptions Client.endOptions app In].
  intros H.
  repeat (destruct H as [<-|H]; [eexists; split; [reflexivity|]; intros midnight;
                                 reflexivity|]).
  destruct H.
Qed.

(** X24.  For the times the booking modal offers, on a day without a
    change of clock: when the end is after the start, the total the
    modal shows equals the amount [POST /api/bookings] computes for the
    request the modal sends; otherwise the modal shows the bare fee of
    1.5 and still sends a request, whose end is not after its start. *)
Theorem quote_matches_charge location vehicle midnight from to :
  In from Client.startOptions -> In to Client.endOptions ->
  exists body,
    Client.requestBody (ParkingLocation.id location) vehicle midnight from to
    = Some body
    /\ (0 < Client.calculateDuration from to ->
        (fare (hoursOf (startTime body) (endTime body))
              (ParkingLocation.hourlyRate location)
         == Client.total (Some location) from to)%Q)
    /\ (Client.calculateDuration from to = 0 ->
        (Client.total (Some location) from to == 1.5)%Q
        /\ endTime body <= startTime body).
Proof.
  intros Hfrom Hto.
  destruct (option_times from) as (h1 & Hp1 & Hd1);
    [apply in_or_app; now left|].
  destruct (option_times to) as (h2 & Hp2 & Hd2);
    [apply in_or_app; now right|].
  exists (mkBody (ParkingLocation.id location) vehicle
            (midnight + h1 * 3600000) (midnight + h2 * 3600000)).
  split; [unfold Client.requestBody; now rewrite Hd1, Hd2|].
  unfold Client.total, Client.calculateDuration. rewrite Hp1, Hp2.
  unfold startTime, endTime, mkBody.
  cbn [startTimeValue endTimeValue instantOf].
  destruct (h2 >? h1) eqn:E.
  - apply Z.gtb_lt in E. split.
    + intros _.
      assert (Hh : hoursOf (midnight + h1 * 3600000) (midnight + h2 * 3600000)
                   = h2 - h1).
      { pose proof (hoursOf_ceiling (midnight + h1 * 3600000)
                      (midnight + h2 * 3600000)). lia. }
      rewrite Hh. unfold fare, bookingFee. ring.
    + intros H0. lia.
  - split; [intros H0; lia|]. intros _. split.
    + ring.
    + assert (h2 <= h1) by (destruct (Z.gtb_spec h2 h1); [discriminate|lia]).
      lia.
Qed.

Lemma quote_matches_charge_witness :
  (fare (hoursOf (0 + 11 * 3600000) (0 + 15 * 3600000)) 5
   == Client.total
        (Some (ParkingLocation.mk 1 "Central Metro Parking"
                 "123 Main Street, City Center" 0 0 1 5 None (Some 0%Z)
                 (Some true)))
        "11:00" "15:00")%Q.
Proof.
  pose (lot := ParkingLocation.mk 1 "Central Metro Parking"
                 "123 Main Street, City Center" 0 0 1 5 None (Some 0)
                 (Some true)).
  destruct (quote_matches_charge lot 1 0 "11:00" "15:00")
    as (body & Hbody & Hquote & _).
  - cbn. tauto.
  - cbn. tauto.
  - injection Hbody as <-. apply Hquote. reflexivity.
Defined.

(** ** The fare of a ride *)

Lemma atLeastZero_spec x :
  (0 <= Client.atLeastZero x)%Q
  /\ ((0 <= x)%Q -> (Client.atLeastZero x == x)%Q)
  /\ ((x <= Client.atLeastZero x)%Q).
Proof.
  unfold Client.atLeastZero. destruct (Qle_bool 0 x) eqn:E.
  - apply Qle_bool_iff in E. repeat split; try assumption; try reflexivity.
    apply Qle_refl.
  - assert (Hneg : ~ (0 <= x)%Q) by (rewrite <- Qle_bool_iff; congruence).
    apply Qnot_le_lt in Hneg. repeat split.
    + apply Qle_refl.
    + intros H. exfalso. apply (Qlt_not_le _ _ Hneg H).
    + now apply Qlt_le_weak.
Qed.

(** X25.  For a transport with a non-negative base rate, the fare the
    ride modal computes is never negative, and reward points and promo
    code never make it higher than the fare without them. *)
Theorem ride_fare_bounds transport isPrivate passengers rewards promo code :
  (0 <= TransportationType.baseRate transport)%Q ->
  (0 <= Client.getBaseFare (Some transport) isPrivate passengers rewards
          promo code)%Q
  /\ (Client.getBaseFare (Some transport) isPrivate passengers rewards promo code
      <= Client.getBaseFare (Some transport) isPrivate passengers false false
           code)%Q.
Proof.
  intros Hbase. unfold Client.getBaseFare. cbn [andb].
  set (base := TransportationType.baseRate transport) in *.
  set (first := if isPrivate then (base + 4)%Q else base).
  set (second := if isPrivate && (passengers >? 1)
                 then (first + inject_Z (passengers - 1) * 2)%Q else first).
  assert (Hfirst : (0 <= first)%Q) by (subst first; destruct isPrivate; lra).
  assert (Hsecond : (0 <= second)%Q).
  { subst second. destruct (isPrivate && (passengers >? 1)) eqn:E; [|assumption].
    apply andb_true_iff in E. destruct E as [_ E]. apply Z.gtb_lt in E.
    assert (Hp : (0 <= inject_Z (passengers - 1))%Q).
    { change 0%Q with (inject_Z 0). rewrite <- Zle_Qle. lia. }
    lra. }
  set (third := if rewards then Client.atLeastZero (second - 5)%Q else second).
  assert (Hthird : (0 <= third)%Q /\ (third <= second)%Q).
  { subst third. destruct rewards; [|split; [assumption | apply Qle_refl]].
    destruct (atLeastZero_spec (second - 5)%Q) as (H0 & _ & _).
    split; [assumption|].
    unfold Client.atLeastZero. destruct (Qle_bool 0 (second - 5)); lra. }
  destruct Hthird as [Hthird0 Hthird1].
  destruct (promo && String.eqb code "FIRST10"); split; lra.
Qed.

Lemma ride_fare_bounds_witness :
  (0 <= Client.getBaseFare
          (Some (TransportationType.mk 1 "Cab" "car-side" 8 2))
          true 3 true true "FIRST10")%Q.
Proof.
  refine (proj1 (ride_fare_bounds (TransportationType.mk 1 "Cab" "car-side" 8 2)
                   true 3 true true "FIRST10" _)).
  vm_compute. discriminate.
Defined.

(** ** The tabs of the booking panel *)

(** X26.  Every booking shows under the upcoming tab or under the past
    tab.  It shows under both exactly when it has not ended yet and
    its status is completed.  Under a tab other than upcoming, past
    and favorites nothing shows. *)
Theorem tabs_cover_every_booking clock b :
  (Client.showsUnder "upcoming" clock b = true
   \/ Client.showsUnder "past" clock b = true)
  /\ (Client.showsUnder "upcoming" clock b = true
      /\ Client.showsUnder "past" clock b = true
      <-> clock <= ParkingBooking.endTime b
          /\ ParkingBooking.status b = "completed")
  /\ forall tab,
       tab <> "upcoming" -> tab <> "past" -> tab <> "favorites" ->
       Client.showsUnder tab clock b = false.
Proof.
  assert (Hup : Client.showsUnder "upcoming" clock b
                = (clock <=? ParkingBooking.endTime b)
                  && negb (String.eqb (ParkingBooking.status b) "canceled"))
    by reflexivity.
  assert (Hpast : Client.showsUnder "past" clock b
                  = (ParkingBooking.endTime b <? clock)
                    || String.eqb (ParkingBooking.status b) "completed"
                    || String.eqb (ParkingBooking.status b) "canceled")
    by reflexivity.
  rewrite Hup, Hpast.
  split; [|split].
  - destruct (Z.leb_spec clock (ParkingBooking.endTime b)),
      (Z.ltb_spec (ParkingBooking.endTime b) clock),
      (String.eqb (ParkingBooking.status b) "canceled");
      try lia; rewrite ?orb_true_r; auto.
  - rewrite andb_true_iff, negb_true_iff, !orb_true_iff,
      Z.leb_le, Z.ltb_lt, !String.eqb_eq.
    split.
    + intros [[Hle Hcan] [[Hlt|Hco]|Hca]]; [lia | now split |].
      apply String.eqb_eq in Hca. congruence.
    + intros [Hle Hco]. rewrite Hco. repeat split; auto.
  - intros tab H1 H2 H3. apply String.eqb_neq in H1, H2, H3.
    unfold Client.showsUnder. now rewrite H1, H2, H3.
Qed.


Lemma tabs_cover_every_booking_witness :
  Client.showsUnder "archive" 0
    (ParkingBooking.mk 1 7 1 1 1 0 10 "confirmed" "PARK-123ABC" 16.5 (Some 0)
       None) = false.
Proof.
  refine (proj2 (proj2 (tabs_cover_every_booking 0
                          (ParkingBooking.mk 1 7 1 1 1 0 10 "confirmed"
                             "PARK-123ABC" 16.5 (Some 0) None)))
                "archive" _ _ _); discriminate.
Defined.


(** ** A spot created without a flag *)

(** X27.  A spot created without an [isAvailable] field differs between
    the backends.  [MemStorage] stores a null flag, and on a
    well-formed store its resolver never returns the new spot;
    [DatabaseStorage] applies the column default, and its resolver
    returns the new spot for its location whatever the interval. *)
Theorem spot_without_flag ins st :
  InsertParkingSpot.isAvailable ins = None ->
  wellFormed st ->
  (let out := MemStorage.createParkingSpot ins st in
   ParkingSpot.isAvailable (fst out) = None
   /\ forall l t0 t1 spot,
        In spot (resolver Mem l t0 t1 (snd out)) ->
        ParkingSpot.id spot <> ParkingSpot.id (fst out))
  /\ (let out := DatabaseStorage.createParkingSpot ins st in
      ParkingSpot.isAvailable (fst out) = Some true
      /\ forall t0 t1,
           (forall b, In b (JsMap.values (parkingBookings st)) ->
                      ParkingBooking.spotId b <> currentSpotIds st) ->
           In (fst out)
              (resolver Database (InsertParkingSpot.locationId ins) t0 t1
                 (snd out))).
Proof.
  intros Hnone Hwf. split; cbv zeta.
  - unfold MemStorage.createParkingSpot. cbn [fst snd]. rewrite Hnone.
    split; [reflexivity|].
    intros l t0 t1 spot Hin Heq. cbn in Heq.
    assert (Hwf' : wellFormed
                     (snd (createParkingSpot (implementation Mem) ins st)))
      by apply (perform_wellFormed Mem st (ProvisionSpot ins) eq_refl Hwf).
    cbn in Hwf'. unfold MemStorage.createParkingSpot in Hwf'. cbn in Hwf'.
    rewrite Hnone in Hwf'.
    apply In_resolver in Hin. destruct Hin as (Hin & _ & Hav & _).
    destruct Hwf' as (_ & Hs' & _). cbn in Hs', Hin.
    pose proof (keyed_value ParkingSpot.id _ _ _ Hs' Hin) as Hstored.
    rewrite Heq, get_set_same in Hstored. injection Hstored as <-.
    discriminate.
  - unfold DatabaseStorage.createParkingSpot. cbn [fst snd]. rewrite Hnone.
    split; [reflexivity|].
    intros t0 t1 Hfree. apply In_resolver. cbn.
    split; [apply (get_In (currentSpotIds st)); apply get_set_same|].
    split; [reflexivity|]. split; [reflexivity|].
    intros b Hb. apply conflicts_false. intros _ _ Hs. cbn in Hs.
    now destruct (Hfree b Hb).
Qed.

Lemma spot_without_flag_witness :
  ParkingSpot.isAvailable
    (fst (MemStorage.createParkingSpot
            (InsertParkingSpot.mk 1 "A2" None None None None)
            (Scenario.provisioned storage))) = None.
Proof.
  refine (proj1 (proj1 (spot_without_flag
                          (InsertParkingSpot.mk 1 "A2" None None None None)
                          (Scenario.provisioned storage) eq_refl _))).
  exact (performAll_wellFormed Database
           [ProvisionLocation Scenario.lot; ProvisionSpot Scenario.spotA1]
           MemStorage.new eq_refl wellFormed_new).
Defined.

(** ** What the routes can do to the bookings *)

Lemma length_set_present {V : Type} k (v v0 : V) m :
  JsMap.get k m = Some v0 -> List.length (JsMap.set k v m) = List.length m.
Proof.
  induction m as [|[k1 v1] m IH]; simpl; [discriminate|].
  destruct (k =? k1); simpl; [reflexivity|]. intros H. now rewrite IH.
Qed.

Lemma get_two_keys {V : Type} k1 k2 (v1 v2 : V) m :
  k1 <> k2 -> JsMap.get k1 m = Some v1 -> JsMap.get k2 m = Some v2 ->
  (2 <= List.length m)%nat.
Proof.
  intros Hne H1 H2.
  destruct m as [|[ka va] [|[kb vb] m]]; simpl in *; try discriminate;
    [|lia].
  destruct (k1 =? ka) eqn:E1; [|discriminate].
  destruct (k2 =? ka) eqn:E2; [|discriminate].
  apply Z.eqb_eq in E1, E2. congruence.
Qed.

Lemma updateParkingBooking_count bk bookingId body st b :
  JsMap.get bookingId (parkingBookings st) = Some b ->
  List.length (parkingBookings
            (snd (updateParkingBooking (implementation bk) bookingId body st)))
  = List.length (parkingBookings st).
Proof.
  intros Hb. destruct bk.
  - rewrite updateParkingBooking_of_Mem,
      (updateParkingBooking_Mem bookingId body st b Hb).
    cbn [snd parkingBookings withBookings].
    now apply (length_set_present _ _ b).
  - rewrite updateParkingBooking_of_Database.
    unfold DatabaseStorage.updateParkingBooking.
    destruct (PartialParkingBooking.isEmpty body); [reflexivity|].
    destruct (PartialParkingBooking.hasStringTime body); [reflexivity|].
    rewrite Hb.
    destruct (spread bookingId (PartialParkingBooking.id body) =? bookingId);
      [cbn [snd parkingBookings withBookings];
       now apply (length_set_present _ _ b)|].
    destruct (JsMap.get (spread bookingId (PartialParkingBooking.id body))
                (parkingBookings st)); [reflexivity|].
    cbn [snd parkingBookings withBookings]. unfold JsMap.rekey.
    apply length_map.
Qed.

(** A request that came over HTTP neither adds nor removes a booking. *)
Lemma perform_keeps_count bk st op :
  overHttp op = true ->
  List.length (parkingBookings (perform (implementation bk) st op))
  = List.length (parkingBookings st).
Proof.
  intros Hop.
  destruct op as [ins|ins|user env body|user bookingId body|user bookingId];
    cbn [perform overHttp] in *.
  - destruct bk; reflexivity.
  - destruct bk; reflexivity.
  - rewrite (run_postBooking_json bk user env body st Hop).
    destruct (resolver bk _ _ _ st); [reflexivity|].
    destruct (JsMap.get (locationId body) (parkingLocations st)); reflexivity.
  - rewrite patchBooking_store.
    destruct (JsMap.get bookingId (parkingBookings st)) as [b|] eqn:Hb;
      [|reflexivity].
    destruct (negb (ParkingBooking.userId b =? user)); [reflexivity|].
    now apply (updateParkingBooking_count bk bookingId body st b).
  - rewrite run_deleteBooking.
    destruct (JsMap.get bookingId (parkingBookings st)) as [b|] eqn:Hb;
      [|reflexivity].
    destruct (negb (ParkingBooking.userId b =? user)); [reflexivity|].
    cbn zeta.
    destruct (JsMap.get (ParkingBooking.spotId b) (parkingSpots st));
      cbn [snd parkingBookings withBookings withSpots];
      now apply (length_set_present _ _ b).
Qed.

Lemma performAll_keeps_count bk ops : forall st,
  forallb overHttp ops = true ->
  List.length (parkingBookings (performAll (implementation bk) ops st))
  = List.length (parkingBookings st).
Proof.
  induction ops as [|op ops IH]; intros st Hops; [reflexivity|].
  cbn in Hops. apply andb_true_iff in Hops. destruct Hops as [Hop Hops].
  cbn [performAll fold_left].
  change (fold_left (perform (implementation bk)) ops
            (perform (implementation bk) st op))
    with (performAll (implementation bk) ops
            (perform (implementation bk) st op)).
  now rewrite IH, perform_keeps_count.
Qed.

(** X29.  [POST /api/bookings] stores nothing for a request whose body
    was parsed from JSON, whatever the store: it answers
    [NoAvailability], [LocationNotFound] or, when a spot and the
    location were found, [400 Invalid booking data], because the times
    of the body are strings and the validation of the booking data
    wants [Date] instances. *)
Theorem json_request_never_stored bk st user env body :
  fromJson body = true ->
  let out := run (postBooking (implementation bk) user env body) st in
  snd out = st
  /\ (fst out = NoAvailability \/ fst out = LocationNotFound
      \/ fst out = InvalidBookingData)
  /\ (fst out = InvalidBookingData <->
      resolver bk (locationId body) (startTime body) (endTime body) st <> []
      /\ JsMap.get (locationId body) (parkingLocations st) <> None).
Proof.
  intros Hjson. cbv zeta. rewrite (run_postBooking_json bk user env body st Hjson).
  destruct (resolver bk _ _ _ st) as [|spot0 rest].
  - split; [reflexivity|]. split; [now left|].
    split; [discriminate | intros [H _]; now contradiction H].
  - destruct (JsMap.get (locationId body) (parkingLocations st)).
    + split; [reflexivity|]. split; [right; now right|].
      split; [intros _; split; discriminate | reflexivity].
    + split; [reflexivity|]. split; [right; now left|].
      split; [discriminate | intros [_ H]; now contradiction H].
Qed.

Lemma json_request_never_stored_witness :
  fst (run (postBooking storage Scenario.alice Scenario.env Scenario.afternoon)
         (Scenario.provisioned storage))
  = InvalidBookingData.
Proof.
  apply (proj2 (proj2 (json_request_never_stored Database
                         (Scenario.provisioned storage) Scenario.alice
                         Scenario.env Scenario.afternoon eq_refl))).
  split; vm_compute; discriminate.
Defined.

(** X30.  Served one after the other, the requests that come over HTTP
    to [POST], [PATCH] and [DELETE /api/bookings] never change the
    number of bookings of the store, whatever the store: the first
    stores nothing, the two others rewrite a booking that exists. *)
Theorem routes_keep_the_number_of_bookings bk ops st :
  forallb overHttp ops = true ->
  List.length (parkingBookings (performAll (implementation bk) ops st))
  = List.length (parkingBookings st).
Proof. apply performAll_keeps_count. Qed.

Lemma routes_keep_the_number_of_bookings_witness :
  List.length (parkingBookings
            (performAll storage
               [CreateBooking Scenario.bob Scenario.env
                  Scenario.withinAfternoon;
                ModifyBooking Scenario.alice 1
                  (Scenario.statusUpdate "pending");
                CancelBooking Scenario.alice 1]
               (Scenario.booked storage)))
  = List.length (parkingBookings (Scenario.booked storage)).
Proof.
  apply (routes_keep_the_number_of_bookings Database
           [CreateBooking Scenario.bob Scenario.env Scenario.withinAfternoon;
            ModifyBooking Scenario.alice 1 (Scenario.statusUpdate "pending");
            CancelBooking Scenario.alice 1]
           (Scenario.booked storage)).
  reflexivity.
Defined.

(** X31.  The server starts with the demonstration data, which hold one
    booking.  Whatever requests come over HTTP afterwards, served one
    after the other, the store holds one booking, so that no two
    bookings of a spot overlap. *)
Theorem demo_store_never_double_booked bk clock ops :
  forallb overHttp ops = true ->
  let st :=
    performAll (implementation bk) ops
      (parking (snd (initializeDemoData bk clock
                       (mkApp MemStorage.new MemRegistry.new)))) in
  List.length (parkingBookings st) = 1%nat /\ noDoubleBooking st.
Proof.
  intros Hops st.
  assert (Hone : List.length (parkingBookings st) = 1%nat).
  { subst st. rewrite performAll_keeps_count by exact Hops.
    destruct bk; vm_compute; reflexivity. }
  split; [exact Hone|].
  intros k1 k2 b1 b2 Hne H1 H2.
  pose proof (get_two_keys k1 k2 b1 b2 _ Hne H1 H2) as Htwo. lia.
Qed.

Lemma demo_store_never_double_booked_witness :
  noDoubleBooking (Demo.reconfirmed Database).
Proof.
  exact (proj2 (demo_store_never_double_booked Database Demo.clock
                  [CancelBooking 1 1;
                   ModifyBooking 1 1 (Scenario.statusUpdate "confirmed")]
                  eq_refl)).
Defined.
